(** * Code_Cobra: the autonomous coding ensemble (autonomous_ensemble.py)

    A shallow embedding of the orchestration core of
    [src/autonomous_ensemble.py]: the guide loader, the state manager, the
    checkpoint store, the three-stage model pipeline, the workflow engine
    and the guide chain, followed by the properties the specification
    states about them.

    Conventions of the embedding.
    - A Python [str] is a Rocq [string]; its characters stand for the code
      points below U+0100.  Character classes ([str.isspace], the regular
      expression classes [\s], [\d] and [.], case folding) are those of
      Python 3 restricted to that range.
    - A Python [int] is a [Z] (or an [N] where the code can only produce a
      natural number); a [float] that is only passed along is a [Q].
    - An exception is a value of [exn]; a call that may raise returns a
      [result].  Code that touches the file system, the generation endpoint
      or the clock is written in the state-and-exception monad [M]: the
      state survives a raised exception, as mutations do in Python.
    - [print] is not modelled: the standard output is observed by no
      property below. *)

From Stdlib Require Import ZArith QArith Ascii DecimalString DecimalZ.
From stdpp Require Import gmap strings list fin_maps sorting.

Local Open Scope Z_scope.

(* ===================================================================== *)
(** * Part I: the embedding                                              *)
(* ===================================================================== *)

(** ** Exceptions and results *)

Inductive exn : Type :=
  | FileNotFoundError (msg : string)
  | IsADirectoryError (path : string)
  | FileExistsError (path : string)
  | ValueError (msg : string)
  | JSONDecodeError                    (* a subclass of ValueError *)
  | KeyError (key : string)
  | TypeError
  | IndexError
  | ConnectionError (msg : string)
  | TimeoutError (msg : string)
  | HTTPError (msg : string)
  | RuntimeError (msg : string)
  | AttributeError (msg : string).

Inductive result (A : Type) : Type :=
  | Ok (a : A)
  | Raise (e : exn).
Arguments Ok {A} a.
Arguments Raise {A} e.

(** The state-and-exception monad: a computation over a state [S] returns
    a result and the state it leaves behind, whether it raised or not. *)
Definition M (S A : Type) : Type := S → result A * S.

Global Instance M_ret {S} : MRet (M S) := λ A a s, (Ok a, s).
Global Instance M_bind {S} : MBind (M S) := λ A B f m s,
  match m s with
  | (Ok a, s') => f a s'
  | (Raise e, s') => (Raise e, s')
  end.

Definition raise {S A} (e : exn) : M S A := λ s, (Raise e, s).
Definition lift_result {S A} (r : result A) : M S A := λ s, (r, s).

(** ** Python built-ins on strings *)

Module Py.

(** The line feed, written [\n] in the source. *)
Definition nl : string := String "010" "".

(** [str.isspace] on one character: the white space of Unicode below
    U+0100, which is also what [str.strip] removes and what [\s]
    matches. *)
Definition isspace (c : ascii) : bool :=
  match c with
  | "009" | "010" | "011" | "012" | "013"
  | "028" | "029" | "030" | "031" | " "
  | "133" | "160" => true
  | _ => false
  end%char.

(** The decimal digits, what [\d] matches below U+0100. *)
Definition isdigit (c : ascii) : bool :=
  match c with
  | "0" | "1" | "2" | "3" | "4" | "5" | "6" | "7" | "8" | "9" => true
  | _ => false
  end%char.

(** [int(s)] for a non-empty string of decimal digits (leading zeros are
    allowed); the conversion is the standard library's. *)
Definition int_of_digits (s : string) : N :=
  match NilZero.uint_of_string s with
  | Some d => N.of_uint d
  | None => 0%N
  end.

(** [str(n)] for an integer. *)
Definition str (z : Z) : string := NilZero.string_of_int (Z.to_int z).

Fixpoint lstrip (s : string) : string :=
  match s with
  | String c s' => if isspace c then lstrip s' else s
  | "" => ""
  end.

Fixpoint rstrip (s : string) : string :=
  match s with
  | String c s' =>
      match rstrip s' with
      | "" => if isspace c then "" else String c ""
      | r => String c r
      end
  | "" => ""
  end.

Definition strip (s : string) : string := rstrip (lstrip s).

(** [s.rstrip('/')] *)
Fixpoint rstrip_slash (s : string) : string :=
  match s with
  | String c s' =>
      match rstrip_slash s' with
      | "" => if Ascii.eqb c "/" then "" else String c ""
      | r => String c r
      end
  | "" => ""
  end.

Fixpoint startswith (s pre : string) : bool :=
  match pre, s with
  | "", _ => true
  | String a pre', String b s' => Ascii.eqb a b && startswith s' pre'
  | String _ _, "" => false
  end.

Definition endswith (s suf : string) : bool :=
  startswith (String.rev s) (String.rev suf).

(** [sep.join(l)] *)
Definition join (sep : string) (l : list string) : string :=
  String.concat sep l.

(** [s.replace(old, "")] for a non-empty [old]: every occurrence, leftmost
    first and non-overlapping, is removed. *)
Fixpoint drop (n : nat) (s : string) : string :=
  match n, s with
  | O, _ => s
  | S n', String _ s' => drop n' s'
  | S _, "" => ""
  end.

Fixpoint remove_all_fuel (fuel : nat) (old s : string) : string :=
  match fuel with
  | O => s
  | S fuel' =>
      match s with
      | "" => ""
      | String c s' =>
          if startswith s old
          then remove_all_fuel fuel' old (drop (String.length old) s)
          else String c (remove_all_fuel fuel' old s')
      end
  end.

Definition remove_all (old s : string) : string :=
  remove_all_fuel (String.length s) old s.

(** [range(a, b)] and [range(n)] *)
Definition range2 (a b : Z) : list Z :=
  (λ k : nat, a + Z.of_nat k) <$> seq 0 (Z.to_nat (b - a)).
Definition range (n : Z) : list Z := range2 0 n.

(** [l[i]] with Python's negative indices. *)
Definition index {A} (l : list A) (i : Z) : result A :=
  let n := Z.of_nat (length l) in
  let j := if decide (i < 0) then i + n else i in
  if decide (0 ≤ j < n)
  then match l !! Z.to_nat j with Some x => Ok x | None => Raise IndexError end
  else Raise IndexError.

(** The [for] statement over a list, in the monad. *)
Fixpoint for_each {S A} (l : list A) (body : A → M S unit) : M S unit :=
  match l with
  | [] => mret tt
  | x :: l' => body x;; for_each l' body
  end.

(** [enumerate(l)], counting from [start]. *)
Fixpoint enumerate_from {A} (start : Z) (l : list A) : list (Z * A) :=
  match l with
  | [] => []
  | x :: l' => (start, x) :: enumerate_from (start + 1) l'
  end.
Definition enumerate {A} (l : list A) : list (Z * A) := enumerate_from 0 l.

(** The truth value of an optional path: [None] and the empty string
    are false. *)
Definition truthy (o : option string) : bool :=
  match o with
  | Some s => negb (String.eqb s "")
  | None => false
  end.

End Py.


(** ** Section 4.1: the configuration object *)

Module Config.
Record t : Type := {
  ollama_api : string;
  model_a : string;            (* creative model *)
  model_b : string;            (* analytical model *)
  model_c : string;            (* adversarial model *)
  temp_creative : Q;
  temp_analytical : Q;
  temp_adversarial : Q;
  max_tokens : Z;
  max_iterations : Z;
  output_file : string;
  verbose : bool
}.
End Config.

(** ** Section 4.2: the step processing context *)

Module StepContext.
Record t : Type := {
  step_number : Z;
  step_description : string;
  spec : string;
  previous_output : string;
  draft : string;
  corrected : string;
  secured : string
}.

(** The assignments [context.draft = v], [context.corrected = v] and
    [context.secured = v]. *)
Definition set_draft (c : t) (v : string) : t :=
  {| step_number := step_number c; step_description := step_description c;
     spec := spec c; previous_output := previous_output c;
     draft := v; corrected := corrected c; secured := secured c |}.
Definition set_corrected (c : t) (v : string) : t :=
  {| step_number := step_number c; step_description := step_description c;
     spec := spec c; previous_output := previous_output c;
     draft := draft c; corrected := v; secured := secured c |}.
Definition set_secured (c : t) (v : string) : t :=
  {| step_number := step_number c; step_description := step_description c;
     spec := spec c; previous_output := previous_output c;
     draft := draft c; corrected := corrected c; secured := v |}.
End StepContext.

(** ** Section 4.3: the API request payload *)

Module OllamaRequest.
Record t : Type := {
  model : string;
  prompt : string;
  temperature : Q;
  max_tokens : Z;
  stream : bool
}.
End OllamaRequest.

(** [OllamaRequest.to_dict]: the dictionary sent as the JSON body of a
    generation request; its [options] entry is a dictionary of its own. *)
Module RequestDict.
Record options : Type := { temperature : Q }.
Record t : Type := {
  model : string;
  prompt : string;
  options_ : options;
  stream : bool;
  max_tokens : Z
}.
Definition to_dict (self : OllamaRequest.t) : t :=
  {| model := OllamaRequest.model self;
     prompt := OllamaRequest.prompt self;
     options_ := {| temperature := OllamaRequest.temperature self |};
     stream := OllamaRequest.stream self;
     max_tokens := OllamaRequest.max_tokens self |}.
End RequestDict.

(** ** The world outside the program

    The file system maps a path, compared as a string, to a regular file
    with its text or to a directory.  The generation endpoint is a
    deterministic oracle: the answer to a request may depend on the request
    and on every request made before it, so that a scripted sequence of
    responses and a prompt-driven mock are both instances.  The clock
    yields the text of [datetime.now().isoformat()] at its n-th reading. *)

Inductive node : Type :=
  | File (content : string)
  | Dir.

Record World : Type := {
  fs : gmap string node;
  calls : list OllamaRequest.t;      (* the generation requests made so far *)
  clock : nat                      (* the readings of the clock so far *)
}.

Record Env : Type := {
  oracle : list OllamaRequest.t → OllamaRequest.t → result string;
  now : nat → string
}.

Definition set_fs (w : World) (f : gmap string node) : World :=
  {| fs := f; calls := calls w; clock := clock w |}.

(** ** The parts of [os], [os.path] and [open] the program uses *)

Module os.

Definition path_exists (f : gmap string node) (p : string) : bool :=
  match f !! p with Some _ => true | None => false end.

Definition path_isfile (f : gmap string node) (p : string) : bool :=
  match f !! p with Some (File _) => true | _ => false end.

Definition path_isdir (f : gmap string node) (p : string) : bool :=
  match f !! p with Some Dir => true | _ => false end.

(** [posixpath.split] without the stripping of the head: the part up to
    and including the last slash, and the part after it. *)
Fixpoint split_last_slash (p : string) : string * string :=
  match p with
  | "" => ("", "")
  | String c p' =>
      match split_last_slash p' with
      | ("", t) => if Ascii.eqb c "/" then ("/", t) else ("", String c t)
      | (h, t) => (String c h, t)
      end
  end.

Fixpoint all_slashes (s : string) : bool :=
  match s with
  | "" => true
  | String c s' => Ascii.eqb c "/" && all_slashes s'
  end.

Definition path_dirname (p : string) : string :=
  let head := (split_last_slash p).1 in
  if negb (String.eqb head "") && negb (all_slashes head)
  then Py.rstrip_slash head
  else head.

Definition path_basename (p : string) : string := (split_last_slash p).2.

(** [posixpath.join(a, b)] *)
Definition path_join (a b : string) : string :=
  if Py.startswith b "/" then b
  else if String.eqb a "" || Py.endswith a "/" then a +:+ b
  else a +:+ "/" +:+ b.

(** The directory an entry is listed under: its [dirname], or ["."] for
    a relative name without a slash. *)
Definition parent (p : string) : string :=
  let d := path_dirname p in
  if String.eqb d "" then "." else d.

(** [os.listdir(d)]: the names of the entries whose path lies directly
    under [d], in the order of the map (Python leaves the order
    unspecified). *)
Definition listdir (f : gmap string node) (d : string) : result (list string) :=
  match f !! d with
  | Some Dir =>
      Ok (path_basename <$>
            filter (λ p, parent p = d ∧ path_basename p ≠ "")
                   (map_to_list f).*1)
  | Some (File _) => Raise (FileNotFoundError d)   (* NotADirectoryError *)
  | None => Raise (FileNotFoundError d)
  end.

(** [os.makedirs(d, exist_ok=True)]; the intermediate directories are
    not recorded. *)
Definition makedirs (d : string) : M World unit := λ w,
  match fs w !! d with
  | Some Dir => (Ok tt, w)
  | Some (File _) => (Raise (FileExistsError d), w)
  | None => (Ok tt, set_fs w (<[d := Dir]> (fs w)))
  end.

(** [open(p, "r")] followed by reading the whole text. *)
Definition read_file (f : gmap string node) (p : string) : result string :=
  match f !! p with
  | Some (File c) => Ok c
  | Some Dir => Raise (IsADirectoryError p)
  | None => Raise (FileNotFoundError p)
  end.

(** [open(p, "w")] followed by writing [c]: the file is created or
    replaced; only a directory in its place makes the call fail.  The
    world keeps no record of the directories a path runs through, so the
    errors of [open] for an empty path and for a path under a missing
    directory are not produced; [Files.writable] names the paths at which
    [open] itself succeeds. *)
Definition write_file (p c : string) : M World unit := λ w,
  match fs w !! p with
  | Some Dir => (Raise (IsADirectoryError p), w)
  | _ => (Ok tt, set_fs w (<[p := File c]> (fs w)))
  end.

(** The lines a text file yields when iterated over: universal newlines
    are translated to a line feed, and each line keeps its line feed. *)
Fixpoint universal_newlines (s : string) : string :=
  match s with
  | "" => ""
  | String c r =>
      if Ascii.eqb c "013" then
        match r with
        | String d r' =>
            if Ascii.eqb d "010"
            then String "010" (universal_newlines r')
            else String "010" (universal_newlines r)
        | "" => String "010" ""
        end
      else String c (universal_newlines r)
  end.

Fixpoint split_lines (s : string) : list string :=
  match s with
  | "" => []
  | String c r =>
      if Ascii.eqb c "010" then String c "" :: split_lines r
      else match split_lines r with
           | [] => [String c ""]
           | l :: ls => String c l :: ls
           end
  end.

Definition lines (content : string) : list string :=
  split_lines (universal_newlines content).

End os.

(** ** The parts of the [json] module the program uses

    [json.dump(obj, f, indent=2)] and [json.load(f)], after the pure-Python
    encoder and scanner of the standard library: [ensure_ascii] escaping,
    two-space indentation, the separators [","] and [": "], and the strict
    string scanner. *)

Module json.

#[local] Unset Elimination Schemes.
Inductive value : Type :=
  | JNull
  | JBool (b : bool)
  | JInt (z : Z)
  | JFloat (literal : string)        (* a number with a fraction or exponent *)
  | JString (s : string)
  | JArray (items : list value)
  | JObject (pairs : list (string * value)).
#[local] Set Elimination Schemes.

Definition quote : ascii := "034"%char.
Definition backslash : ascii := "092"%char.

(** *** Encoding *)

Definition hex_digit (n : N) : ascii :=
  match n with
  | 0 => "0" | 1 => "1" | 2 => "2" | 3 => "3" | 4 => "4" | 5 => "5"
  | 6 => "6" | 7 => "7" | 8 => "8" | 9 => "9" | 10 => "a" | 11 => "b"
  | 12 => "c" | 13 => "d" | 14 => "e" | _ => "f"
  end%N%char.

(** One character under [ESCAPE_ASCII]: the quote, the backslash and the
    usual control characters get their short escape, every other character
    outside the printable ASCII range becomes [\u00XX]. *)
Definition escape_char (c : ascii) : string :=
  if Ascii.eqb c quote then String backslash (String quote "")
  else if Ascii.eqb c backslash then String backslash (String backslash "")
  else if Ascii.eqb c "008" then String backslash "b"
  else if Ascii.eqb c "012" then String backslash "f"
  else if Ascii.eqb c "010" then String backslash "n"
  else if Ascii.eqb c "013" then String backslash "r"
  else if Ascii.eqb c "009" then String backslash "t"
  else
    let n := N_of_ascii c in
    if (n <? 32)%N || (126 <? n)%N
    then String backslash
           (String "u" (String "0" (String "0"
              (String (hex_digit (n / 16)) (String (hex_digit (n mod 16)) "")))))
    else String c "".

Fixpoint escape (s : string) : string :=
  match s with
  | "" => ""
  | String c s' => escape_char c +:+ escape s'
  end.

(** [encode_basestring_ascii] *)
Definition encode_string (s : string) : string :=
  String quote (escape s +:+ String quote "").

Fixpoint spaces (n : nat) : string :=
  match n with
  | O => ""
  | S n' => String " " (spaces n')
  end.

Definition newline_indent (level : nat) : string :=
  String "010" (spaces (2 * level)).

(** [_iterencode] at a nesting level. *)
Fixpoint encode (level : nat) (v : value) : string :=
  match v with
  | JNull => "null"
  | JBool true => "true"
  | JBool false => "false"
  | JInt z => Py.str z
  | JFloat literal => literal
  | JString s => encode_string s
  | JArray [] => "[]"
  | JArray items =>
      "[" +:+ newline_indent (S level) +:+
      Py.join ("," +:+ newline_indent (S level)) (map (encode (S level)) items) +:+
      newline_indent level +:+ "]"
  | JObject [] => "{}"
  | JObject pairs =>
      "{" +:+ newline_indent (S level) +:+
      Py.join ("," +:+ newline_indent (S level))
        (map (λ kv, encode_string kv.1 +:+ ": " +:+ encode (S level) kv.2) pairs) +:+
      newline_indent level +:+ "}"
  end.

Definition dumps (v : value) : string := encode 0 v.

(** *** Decoding *)

Definition is_ws (c : ascii) : bool :=
  match c with
  | " " | "009" | "010" | "013" => true
  | _ => false
  end%char.

Fixpoint skip_ws (s : string) : string :=
  match s with
  | String c s' => if is_ws c then skip_ws s' else s
  | "" => ""
  end.

Definition hex_value (c : ascii) : option N :=
  let n := N_of_ascii c in
  if (48 <=? n)%N && (n <=? 57)%N then Some (n - 48)%N
  else if (97 <=? n)%N && (n <=? 102)%N then Some (n - 87)%N
  else if (65 <=? n)%N && (n <=? 70)%N then Some (n - 55)%N
  else None.

(** The character a [\uXXXX] escape stands for; a code point of U+0100 or
    above lies outside the characters of the embedding. *)
Definition decode_uXXXX (h1 h2 h3 h4 : ascii) : option ascii :=
  match hex_value h1, hex_value h2, hex_value h3, hex_value h4 with
  | Some a, Some b, Some c, Some d =>
      if (a =? 0)%N && (b =? 0)%N then Some (ascii_of_N (16 * c + d)) else None
  | _, _, _, _ => None
  end.

(** The [BACKSLASH] table. *)
Definition unescape (c : ascii) : option ascii :=
  if Ascii.eqb c quote then Some quote
  else if Ascii.eqb c backslash then Some backslash
  else if Ascii.eqb c "/" then Some "/"%char
  else if Ascii.eqb c "b" then Some "008"%char
  else if Ascii.eqb c "f" then Some "012"%char
  else if Ascii.eqb c "n" then Some "010"%char
  else if Ascii.eqb c "r" then Some "013"%char
  else if Ascii.eqb c "t" then Some "009"%char
  else None.

(** [scanstring] in strict mode, from the character after the opening
    quote: the decoded string and the text after the closing quote. *)
Fixpoint scanstring (s : string) : option (string * string) :=
  match s with
  | "" => None
  | String c r =>
      if Ascii.eqb c quote then Some ("", r)
      else if Ascii.eqb c backslash then
        match r with
        | "" => None
        | String e r1 =>
            if Ascii.eqb e "u" then
              match r1 with
              | String h1 (String h2 (String h3 (String h4 r2))) =>
                  match decode_uXXXX h1 h2 h3 h4 with
                  | Some ch =>
                      match scanstring r2 with
                      | Some (t, rest) => Some (String ch t, rest)
                      | None => None
                      end
                  | None => None
                  end
              | _ => None
              end
            else
              match unescape e with
              | Some ch =>
                  match scanstring r1 with
                  | Some (t, rest) => Some (String ch t, rest)
                  | None => None
                  end
              | None => None
              end
        end
      else if (N_of_ascii c <? 32)%N then None
      else
        match scanstring r with
        | Some (t, rest) => Some (String c t, rest)
        | None => None
        end
  end.

Definition is_nonzero_digit (c : ascii) : bool :=
  Py.isdigit c && negb (Ascii.eqb c "0").

(** A greedy run of decimal digits. *)
Fixpoint digits (s : string) : string * string :=
  match s with
  | String c s' =>
      if Py.isdigit c then let '(a, b) := digits s' in (String c a, b)
      else ("", s)
  | "" => ("", "")
  end.

(** The integer part of [NUMBER_RE]: an optional minus sign, then a single
    zero or a non-zero digit followed by a greedy run of digits.  The result
    is the sign, the digits and the rest. *)
Definition scan_integer (s : string) : option (bool * string * string) :=
  let '(neg, r) :=
    match s with
    | String c r => if Ascii.eqb c "-" then (true, r) else (false, s)
    | "" => (false, s)
    end in
  match r with
  | String c r' =>
      if Ascii.eqb c "0" then Some (neg, "0", r')
      else if is_nonzero_digit c then
        let '(ds, rest) := digits r in Some (neg, ds, rest)
      else None
  | "" => None
  end.

(** The optional fraction of [NUMBER_RE]: a dot and at least one digit. *)
Definition scan_frac (s : string) : string * string :=
  match s with
  | String c r =>
      if Ascii.eqb c "." then
        match digits r with
        | ("", _) => ("", s)
        | (ds, rest) => (String c ds, rest)
        end
      else ("", s)
  | "" => ("", s)
  end.

(** The optional exponent of [NUMBER_RE]: [e] or [E], an optional sign and
    at least one digit. *)
Definition scan_exp (s : string) : string * string :=
  match s with
  | String c r =>
      if Ascii.eqb c "e" || Ascii.eqb c "E" then
        let '(sign, r') :=
          match r with
          | String d r' =>
              if Ascii.eqb d "-" || Ascii.eqb d "+" then (String d "", r')
              else ("", r)
          | "" => ("", r)
          end in
        match digits r' with
        | ("", _) => ("", s)
        | (ds, rest) => (String c (sign +:+ ds), rest)
        end
      else ("", s)
  | "" => ("", s)
  end.

Definition scan_number (s : string) : option (value * string) :=
  match scan_integer s with
  | Some (neg, ds, r) =>
      let '(frac, r1) := scan_frac r in
      let '(exp, r2) := scan_exp r1 in
      if String.eqb frac "" && String.eqb exp "" then
        let n := Z.of_N (Py.int_of_digits ds) in
        Some (JInt (if neg then - n else n), r2)
      else
        Some (JFloat ((if neg then "-" else "") +:+ ds +:+ frac +:+ exp), r2)
  | None => None
  end.

(** The items of an array after the first bracket and the white space:
    [JSONArray], given the scanner of one value. *)
Fixpoint array_items (scan : string → option (value * string))
    (fuel : nat) (s : string) : option (list value * string) :=
  match fuel with
  | O => None
  | S fuel' =>
      match scan s with
      | Some (v, r) =>
          match skip_ws r with
          | String c r' =>
              if Ascii.eqb c "]" then Some ([v], r')
              else if Ascii.eqb c "," then
                match array_items scan fuel' (skip_ws r') with
                | Some (vs, rest) => Some (v :: vs, rest)
                | None => None
                end
              else None
          | "" => None
          end
      | None => None
      end
  end.

Definition JSONArray (scan : string → option (value * string))
    (fuel : nat) (s : string) : option (list value * string) :=
  match skip_ws s with
  | String c r =>
      if Ascii.eqb c "]" then Some ([], r)
      else array_items scan fuel (skip_ws s)
  | "" => None
  end.

(** The pairs of an object from the quote that opens a key:
    [JSONObject], given the scanner of one value. *)
Fixpoint object_pairs (scan : string → option (value * string))
    (fuel : nat) (s : string) : option (list (string * value) * string) :=
  match fuel with
  | O => None
  | S fuel' =>
      match s with
      | String q s1 =>
          if Ascii.eqb q quote then
            match scanstring s1 with
            | Some (key, r) =>
                match skip_ws r with
                | String c r1 =>
                    if Ascii.eqb c ":" then
                      match scan (skip_ws r1) with
                      | Some (v, r2) =>
                          match skip_ws r2 with
                          | String d r3 =>
                              if Ascii.eqb d "}" then Some ([(key, v)], r3)
                              else if Ascii.eqb d "," then
                                match object_pairs scan fuel' (skip_ws r3) with
                                | Some (kvs, rest) => Some ((key, v) :: kvs, rest)
                                | None => None
                                end
                              else None
                          | "" => None
                          end
                      | None => None
                      end
                    else None
                | "" => None
                end
            | None => None
            end
          else None
      | "" => None
      end
  end.

Definition JSONObject (scan : string → option (value * string))
    (fuel : nat) (s : string) : option (list (string * value) * string) :=
  match skip_ws s with
  | String c r =>
      if Ascii.eqb c "}" then Some ([], r)
      else object_pairs scan fuel (skip_ws s)
  | "" => None
  end.

(** [scan_once]: one value at the head of the text.  The fuel bounds the
    nesting depth and the number of items; [loads] supplies the length of
    the text, which is enough for every document. *)
Fixpoint scan_once (fuel : nat) (s : string) : option (value * string) :=
  match fuel with
  | O => None
  | S fuel' =>
      match s with
      | "" => None
      | String c r =>
          if Ascii.eqb c quote then
            match scanstring r with
            | Some (str, rest) => Some (JString str, rest)
            | None => None
            end
          else if Ascii.eqb c "{" then
            match JSONObject (scan_once fuel') fuel' r with
            | Some (pairs, rest) => Some (JObject pairs, rest)
            | None => None
            end
          else if Ascii.eqb c "[" then
            match JSONArray (scan_once fuel') fuel' r with
            | Some (items, rest) => Some (JArray items, rest)
            | None => None
            end
          else if Py.startswith s "null" then Some (JNull, Py.drop 4 s)
          else if Py.startswith s "true" then Some (JBool true, Py.drop 4 s)
          else if Py.startswith s "false" then Some (JBool false, Py.drop 5 s)
          else
            match scan_number s with
            | Some vr => Some vr
            | None =>
                if Py.startswith s "NaN" then Some (JFloat "NaN", Py.drop 3 s)
                else if Py.startswith s "Infinity"
                then Some (JFloat "Infinity", Py.drop 8 s)
                else if Py.startswith s "-Infinity"
                then Some (JFloat "-Infinity", Py.drop 9 s)
                else None
            end
      end
  end.

(** [json.loads]: white space, one value, white space, end of text. *)
Definition loads (s : string) : result value :=
  match scan_once (S (String.length s)) (skip_ws s) with
  | Some (v, r) =>
      if String.eqb (skip_ws r) "" then Ok v else Raise JSONDecodeError
  | None => Raise JSONDecodeError
  end.

(** [d[key]] on a decoded object: of two pairs with one key the later
    one counts, as in [dict(pairs)]. *)
Fixpoint dict_get (pairs : list (string * value)) (key : string)
  : option value :=
  match pairs with
  | [] => None
  | (k, v) :: rest =>
      match dict_get rest key with
      | Some v' => Some v'
      | None => if String.eqb k key then Some v else None
      end
  end.

End json.

(** ** Section 3.1: the guide loader *)

Module GuideLoader.

(** [STEP_PATTERN = re.compile(r"^Step\s+(\d+):\s*(.+)$", re.IGNORECASE)]
    and its [match], which returns the two groups.  The pieces follow
    the pattern from left to right. *)

Definition ieq (c lower upper : ascii) : bool :=
  Ascii.eqb c lower || Ascii.eqb c upper.

(** A greedy run of one character class: the longest prefix and the
    rest. *)
Fixpoint span (f : ascii → bool) (s : string) : string * string :=
  match s with
  | String c s' =>
      if f c then let '(a, b) := span f s' in (String c a, b) else ("", s)
  | "" => ("", "")
  end.

(** [(.+)$]: one or more characters other than a line feed, up to the
    end of the string or to a line feed that ends it. *)
Fixpoint dot_plus_end (s : string) : option string :=
  match s with
  | "" => None
  | String c s' =>
      if Ascii.eqb c "010" then None
      else match s' with
           | "" => Some (String c "")
           | String d s'' =>
               if Ascii.eqb d "010" && String.eqb s'' "" then Some (String c "")
               else match dot_plus_end s' with
                    | Some g => Some (String c g)
                    | None => None
                    end
           end
  end.

(** [\s*(.+)$]: the white space is taken greedily and given back one
    character at a time while the rest fails to match. *)
Fixpoint spaces_then_rest (s : string) : option string :=
  match s with
  | "" => None
  | String c s' =>
      if Py.isspace c then
        match spaces_then_rest s' with
        | Some g => Some g
        | None => dot_plus_end s
        end
      else dot_plus_end s
  end.

Definition STEP_PATTERN_match (line : string) : option (string * string) :=
  match line with
  | String c1 (String c2 (String c3 (String c4 r))) =>
      if ieq c1 "s" "S" && ieq c2 "t" "T" && ieq c3 "e" "E" && ieq c4 "p" "P"
      then
        let '(ws, r1) := span Py.isspace r in
        if String.eqb ws "" then None else
        let '(ds, r2) := span Py.isdigit r1 in
        if String.eqb ds "" then None else
        match r2 with
        | String c5 r3 =>
            if Ascii.eqb c5 ":" then
              match spaces_then_rest r3 with
              | Some g => Some (ds, g)
              | None => None
              end
            else None
        | "" => None
        end
      else None
  | _ => None
  end.

(** The body of the loop over the lines of the file. *)
Definition parse_line (steps_dict : gmap N string) (line : string)
  : gmap N string :=
  let line := Py.strip line in
  match STEP_PATTERN_match line with
  | Some (g1, g2) =>
      let step_num := Py.int_of_digits g1 in
      let step_desc := Py.strip g2 in
      <[step_num := step_desc]> steps_dict
  | None => steps_dict
  end.

(** [sorted(steps_dict.keys())] *)
Definition sorted_keys (steps_dict : gmap N string) : list N :=
  merge_sort N.le (map_to_list steps_dict).*1.

Definition _list_available_guides (f : gmap string node) (file_path : string)
  : list string :=
  let directory :=
    let d := os.path_dirname file_path in
    if String.eqb d "" then "." else d in
  if os.path_isdir f directory then
    match os.listdir f directory with
    | Ok names => filter (λ n, Py.endswith n "_guide.txt" = true) names
    | Raise _ => []
    end
  else [].

Definition not_found_message (file_path : string) (available : list string)
  : string :=
  "Guide file not found: " +:+ file_path +:+ Py.nl +:+
  "Available guides: " +:+
  (match available with [] => "none" | _ => Py.join ", " available end).

Definition no_steps_message (file_path : string) : string :=
  "No valid steps found in " +:+ file_path +:+ Py.nl +:+
  "Expected format: 'Step N: [description]'".

Definition load (f : gmap string node) (file_path : string)
  : result (list string) :=
  if negb (os.path_exists f file_path) then
    let available := _list_available_guides f file_path in
    Raise (FileNotFoundError (not_found_message file_path available))
  else
    match os.read_file f file_path with
    | Raise e => Raise e
    | Ok content =>
        let steps_dict := foldl parse_line ∅ (os.lines content) in
        if decide (steps_dict = ∅) then
          Raise (ValueError (no_steps_message file_path))
        else
          Ok ((λ i, steps_dict !!! i) <$> sorted_keys steps_dict)
    end.

End GuideLoader.

(** ** Section 3.4: the state manager *)

Module StateManager.

Record t : Type := {
  cumulative_output : string;
  current_step_index : Z;
  step_outputs : list string
}.

(** [StateManager()] *)
Definition new : t :=
  {| cumulative_output := ""; current_step_index := 0; step_outputs := [] |}.

(** The header and body one step contributes to the cumulative output. *)
Definition formatted (index : Z) (output : string) : string :=
  Py.nl +:+ "--- Step " +:+ Py.str (index + 1) +:+ " Output ---" +:+ Py.nl +:+
  output +:+ Py.nl.

Definition add_step_output (self : t) (output : string) : t :=
  {| step_outputs := step_outputs self ++ [output];
     cumulative_output :=
       cumulative_output self +:+ formatted (current_step_index self) output;
     current_step_index := current_step_index self + 1 |}.

Definition get_context (self : t) : string := cumulative_output self.

End StateManager.

(** ** Section 10.3: checkpoint and resume *)

Module Checkpoint.

Record t : Type := {
  guide_file : string;
  spec : string;
  completed_steps : Z;
  cumulative_output : string;
  step_outputs : list string;
  timestamp : string
}.

Definition to_dict (self : t) : json.value :=
  json.JObject
    [ ("guide_file", json.JString (guide_file self));
      ("spec", json.JString (spec self));
      ("completed_steps", json.JInt (completed_steps self));
      ("cumulative_output", json.JString (cumulative_output self));
      ("step_outputs", json.JArray (json.JString <$> step_outputs self));
      ("timestamp", json.JString (timestamp self)) ].

(** [data[key]]: only an object can be subscripted by a key. *)
Definition getitem (data : json.value) (key : string) : result json.value :=
  match data with
  | json.JObject pairs =>
      match json.dict_get pairs key with
      | Some v => Ok v
      | None => Raise (KeyError key)
      end
  | _ => Raise TypeError
  end.

(** The dataclass does not check the types of its fields.  The record of
    the embedding is typed, so a field of another JSON type, which Python
    would carry along until its first use, is reported here. *)
Definition as_str (v : json.value) : result string :=
  match v with json.JString s => Ok s | _ => Raise TypeError end.
Definition as_int (v : json.value) : result Z :=
  match v with json.JInt z => Ok z | _ => Raise TypeError end.
Fixpoint as_str_items (l : list json.value) : result (list string) :=
  match l with
  | [] => Ok []
  | v :: l' =>
      match as_str v, as_str_items l' with
      | Ok s, Ok ss => Ok (s :: ss)
      | Raise e, _ => Raise e
      | _, Raise e => Raise e
      end
  end.
Definition as_str_list (v : json.value) : result (list string) :=
  match v with json.JArray l => as_str_items l | _ => Raise TypeError end.

Definition bind_result {A B} (r : result A) (k : A → result B) : result B :=
  match r with Ok a => k a | Raise e => Raise e end.

Definition from_dict (data : json.value) : result t :=
  bind_result (bind_result (getitem data "guide_file") as_str) (λ g,
  bind_result (bind_result (getitem data "spec") as_str) (λ sp,
  bind_result (bind_result (getitem data "completed_steps") as_int) (λ n,
  bind_result (bind_result (getitem data "cumulative_output") as_str) (λ c,
  bind_result (bind_result (getitem data "step_outputs") as_str_list) (λ o,
  bind_result (bind_result (getitem data "timestamp") as_str) (λ ts,
  Ok {| guide_file := g; spec := sp; completed_steps := n;
        cumulative_output := c; step_outputs := o; timestamp := ts |})))))).

Definition save (self : t) (path : string) : M World unit :=
  os.write_file path (json.dumps (to_dict self)).

Definition load (f : gmap string node) (path : string) : result t :=
  bind_result (os.read_file f path) (λ text,
  bind_result (json.loads text) from_dict).

End Checkpoint.

(** ** Section 10.1: custom model hooks

    A hook is a pure function from text to text, or absent. *)

Module PipelineHooks.
Record t : Type := {
  post_draft : option (string → string);
  post_correction : option (string → string);
  post_security : option (string → string)
}.

(** [PipelineHooks()] *)
Definition new : t :=
  {| post_draft := None; post_correction := None; post_security := None |}.

(** [if hook: text = hook(text)] *)
Definition apply (hook : option (string → string)) (text : string) : string :=
  match hook with Some h => h text | None => text end.
End PipelineHooks.

(** ** The Ollama API client

    [query] is the single blocking generation call: it returns the text of
    the response or raises once the retries of the client are exhausted.
    The answer is the oracle's; the request joins the log of calls. *)

Module OllamaClient.

Definition query (env : Env) (request : OllamaRequest.t) : M World string :=
  λ w, (oracle env (calls w) request,
        {| fs := fs w; calls := calls w ++ [request]; clock := clock w |}).

End OllamaClient.

(** ** The Ollama API client and its transport

    [OllamaClient.query] as the source writes it: up to [retry_count]
    calls of [requests.post], with a pause between two attempts.  The far
    end is a transport, which decides the outcome of each post from the
    posts made before it; the network records the posts and the pauses.
    The engine above is stated over the single blocking call [query] of
    [OllamaClient]; the retry loop is studied on its own. *)

Module requests.

(** The response object, as far as [query] looks at it. *)
Record Response : Type := {
  status_code : Z;
  reason : string;
  url : string;
  json : result json.value        (* [response.json()] *)
}.

(** [Response.raise_for_status] *)
Definition raise_for_status (self : Response) : result unit :=
  if decide (400 ≤ status_code self < 500) then
    Raise (HTTPError (Py.str (status_code self) +:+ " Client Error: " +:+
                      reason self +:+ " for url: " +:+ url self))
  else if decide (500 ≤ status_code self < 600) then
    Raise (HTTPError (Py.str (status_code self) +:+ " Server Error: " +:+
                      reason self +:+ " for url: " +:+ url self))
  else Ok tt.

(** What one call of [requests.post] comes to. *)
Inductive outcome : Type :=
  | Responded (response : Response)
  | ConnectionFailed (text : string)
  | TimedOut
  | Failed (e : exn).

(** The network: the requests posted and the pauses made so far. *)
Record Net : Type := {
  posted : list (string * RequestDict.t);
  slept : list Q
}.

(** The far end: the outcome of a post may depend on the posts made before. *)
Definition Transport : Type :=
  list (string * RequestDict.t) → string → RequestDict.t → outcome.

Definition post (transport : Transport) (url : string) (body : RequestDict.t)
  : M Net outcome :=
  λ n, (Ok (transport (posted n) url body),
        {| posted := posted n ++ [(url, body)]; slept := slept n |}).

End requests.

(** [time.sleep] *)
Module time.
Definition sleep (seconds : Q) : M requests.Net unit :=
  λ n, if Qle_bool 0 seconds
       then (Ok tt, {| requests.posted := requests.posted n;
                       requests.slept := requests.slept n ++ [seconds] |})
       else (Raise (ValueError "sleep length must be non-negative"), n).
End time.

Module HttpClient.

Record t : Type := {
  config : Config.t;
  retry_count : Z;
  retry_delay : Q
}.

Definition new (config : Config.t) : t :=
  {| config := config; retry_count := 3; retry_delay := 1 |}.

(** [d.get(key, default)] on the decoded body. *)
Definition get (data : json.value) (key : string) (default : json.value)
  : result json.value :=
  match data with
  | json.JObject pairs =>
      Ok (match json.dict_get pairs key with Some v => v | None => default end)
  | _ => Raise (AttributeError "get")
  end.

(** The statements of the [try] block once [requests.post] has returned. *)
Definition response_value (response : requests.Response) : result json.value :=
  match requests.raise_for_status response with
  | Raise e => Raise e
  | Ok _ =>
      match requests.json response with
      | Raise e => Raise e
      | Ok data => get data "response" (json.JString "")
      end
  end.

Definition connection_error_message (self : t) (e : string) : string :=
  "Failed to connect to Ollama API at " +:+ Config.ollama_api (config self) +:+
  " after " +:+ Py.str (retry_count self) +:+ " attempts: " +:+ e.

Definition timeout_error_message (self : t) : string :=
  "Timeout waiting for model response after " +:+ Py.str (retry_count self) +:+
  " attempts".

Definition unreachable_message : string :=
  "Unexpected state: retry loop completed without return or exception".

Section client.
Context (transport : requests.Transport).

(** The loop [for attempt in range(self.retry_count)] over the attempts
    that remain. *)
Fixpoint attempts (self : t) (request : OllamaRequest.t) (todo : list Z)
  : M requests.Net json.value :=
  match todo with
  | [] => raise (RuntimeError unreachable_message)
  | attempt :: todo' =>
      o ← requests.post transport (Config.ollama_api (config self))
            (RequestDict.to_dict request);
      match o with
      | requests.Responded response => lift_result (response_value response)
      | requests.ConnectionFailed e =>
          if decide (attempt < retry_count self - 1) then
            time.sleep (retry_delay self * inject_Z (2 ^ attempt))%Q;;
            attempts self request todo'
          else raise (ConnectionError (connection_error_message self e))
      | requests.TimedOut =>
          if decide (attempt < retry_count self - 1) then
            time.sleep (retry_delay self);;
            attempts self request todo'
          else raise (TimeoutError (timeout_error_message self))
      | requests.Failed e => raise e
      end
  end.

Definition query (self : t) (request : OllamaRequest.t)
  : M requests.Net json.value :=
  attempts self request (Py.range (retry_count self)).

End client.
End HttpClient.

(** ** Sections 3.2 and 3.3: the model pipeline and the iteration controller *)

Module ModelPipeline.
Section pipeline.
Context (env : Env) (config : Config.t) (hooks : PipelineHooks.t).

Definition _build_creative_prompt (context : StepContext.t) : string :=
  StepContext.previous_output context +:+ Py.nl +:+
  "Apply this step to the spec '" +:+ StepContext.spec context +:+ "': " +:+
  StepContext.step_description context +:+ Py.nl +:+
  "Generate a creative draft of code or plan.".

Definition _build_correction_prompt (context : StepContext.t)
    (current_output : string) : string :=
  StepContext.previous_output context +:+ Py.nl +:+
  "Strictly analyze this for errors, bugs, inefficiencies:" +:+ Py.nl +:+
  current_output +:+ Py.nl +:+
  "Correct without adding new features.".

Definition _build_security_prompt (context : StepContext.t)
    (current_output : string) : string :=
  StepContext.previous_output context +:+ Py.nl +:+
  "Act as a hacker: Identify security flaws in the following and suggest fixes:"
  +:+ Py.nl +:+
  current_output +:+ Py.nl +:+
  "List vulnerabilities and provide corrected code.".

Definition creative_request (context : StepContext.t) : OllamaRequest.t :=
  {| OllamaRequest.model := Config.model_a config;
     OllamaRequest.prompt := _build_creative_prompt context;
     OllamaRequest.temperature := Config.temp_creative config;
     OllamaRequest.max_tokens := Config.max_tokens config;
     OllamaRequest.stream := false |}.

Definition correction_request (context : StepContext.t) (current : string)
  : OllamaRequest.t :=
  {| OllamaRequest.model := Config.model_b config;
     OllamaRequest.prompt := _build_correction_prompt context current;
     OllamaRequest.temperature := Config.temp_analytical config;
     OllamaRequest.max_tokens := Config.max_tokens config;
     OllamaRequest.stream := false |}.

Definition security_request (context : StepContext.t) (current : string)
  : OllamaRequest.t :=
  {| OllamaRequest.model := Config.model_c config;
     OllamaRequest.prompt := _build_security_prompt context current;
     OllamaRequest.temperature := Config.temp_adversarial config;
     OllamaRequest.max_tokens := Config.max_tokens config;
     OllamaRequest.stream := false |}.

Definition _creative_draft (context : StepContext.t) : M World string :=
  OllamaClient.query env (creative_request context).

(** The loop of [_error_correction] over the remaining passes [passes],
    with the value of [current] at its head: [break] on convergence,
    [current = new_output] otherwise. *)
Fixpoint correction_loop (context : StepContext.t) (passes : list Z)
    (current : string) : M World string :=
  match passes with
  | [] => mret current
  | _ :: passes' =>
      new_output ← OllamaClient.query env (correction_request context current);
      if decide (new_output = current) then mret current
      else correction_loop context passes' new_output
  end.

Definition _error_correction (context : StepContext.t) : M World string :=
  correction_loop context (Py.range (Config.max_iterations config))
                  (StepContext.draft context).

(** The loop of [_security_hardening], of the same shape. *)
Fixpoint security_loop (context : StepContext.t) (passes : list Z)
    (current : string) : M World string :=
  match passes with
  | [] => mret current
  | _ :: passes' =>
      new_output ← OllamaClient.query env (security_request context current);
      if decide (new_output = current) then mret current
      else security_loop context passes' new_output
  end.

Definition _security_hardening (context : StepContext.t) : M World string :=
  security_loop context (Py.range (Config.max_iterations config))
                (StepContext.corrected context).

Definition process (context : StepContext.t) : M World string :=
  (* Stage 1: creative draft (model A) *)
  d ← _creative_draft context;
  let context :=
    StepContext.set_draft context
      (PipelineHooks.apply (PipelineHooks.post_draft hooks) d) in
  (* Stage 2: error correction (model B), iterative *)
  c ← _error_correction context;
  let context :=
    StepContext.set_corrected context
      (PipelineHooks.apply (PipelineHooks.post_correction hooks) c) in
  (* Stage 3: security hardening (model C), iterative *)
  s ← _security_hardening context;
  let context :=
    StepContext.set_secured context
      (PipelineHooks.apply (PipelineHooks.post_security hooks) s) in
  mret (StepContext.secured context).

End pipeline.
End ModelPipeline.

(** ** Section 5: the workflow engine

    The engine is the state of the methods: they run in the monad over the
    engine object and the world. *)

Module WorkflowEngine.

Record t : Type := {
  config : Config.t;
  hooks : option PipelineHooks.t;
  state : StateManager.t;
  checkpoint_file : option string
}.

(** [WorkflowEngine(config, hooks, checkpoint_file)] *)
Definition new (config : Config.t) (hooks : option PipelineHooks.t)
    (checkpoint_file : option string) : t :=
  {| config := config; hooks := hooks; state := StateManager.new;
     checkpoint_file := checkpoint_file |}.

(** [hooks or PipelineHooks()], as the pipeline of the engine holds it. *)
Definition pipeline_hooks (self : t) : PipelineHooks.t :=
  match hooks self with Some h => h | None => PipelineHooks.new end.

Definition set_state (self : t) (st : StateManager.t) : t :=
  {| config := config self; hooks := hooks self; state := st;
     checkpoint_file := checkpoint_file self |}.

(** A computation on the world alone, run from a method. *)
Definition io {A} (m : M World A) : M (t * World) A :=
  λ '(self, w), let '(r, w') := m w in (r, (self, w')).

(** A function of the file system, run from a method. *)
Definition on_fs {A} (f : gmap string node → result A) : M (t * World) A :=
  λ '(self, w), (f (fs w), (self, w)).

Definition get_self : M (t * World) t := λ '(self, w), (Ok self, (self, w)).

Definition put_engine_state (st : StateManager.t) : M (t * World) unit :=
  λ '(self, w), (Ok tt, (set_state self st, w)).

(** [datetime.now().isoformat()] *)
Definition isoformat_now (env : Env) : M World string :=
  λ w, (Ok (now env (clock w)),
        {| fs := fs w; calls := calls w; clock := S (clock w) |}).

Section engine.
Context (env : Env).

Definition _save_checkpoint (guide_file spec : string) : M (t * World) unit :=
  self ← get_self;
  ts ← io (isoformat_now env);
  let checkpoint :=
    {| Checkpoint.guide_file := guide_file;
       Checkpoint.spec := spec;
       Checkpoint.completed_steps :=
         StateManager.current_step_index (state self);
       Checkpoint.cumulative_output :=
         StateManager.cumulative_output (state self);
       Checkpoint.step_outputs := StateManager.step_outputs (state self);
       Checkpoint.timestamp := ts |} in
  match checkpoint_file self with
  | Some path => io (Checkpoint.save checkpoint path)
  | None => raise TypeError
  end.

(** The block [# Load specification]. *)
Definition load_specification (spec : string) : M (t * World) string :=
  on_fs (λ f, if os.path_isfile f spec then os.read_file f spec else Ok spec).

(** The block [# Resume from checkpoint if provided]; its value is
    [start_step]. *)
Definition resume_from_checkpoint (resume_from : option string)
  : M (t * World) Z :=
  λ '(self, w),
    match resume_from with
    | Some path =>
        if Py.truthy resume_from && os.path_exists (fs w) path then
          match Checkpoint.load (fs w) path with
          | Ok checkpoint =>
              (* Restore state *)
              let st :=
                {| StateManager.cumulative_output :=
                     Checkpoint.cumulative_output checkpoint;
                   StateManager.step_outputs :=
                     Checkpoint.step_outputs checkpoint;
                   StateManager.current_step_index :=
                     Checkpoint.completed_steps checkpoint |} in
              (Ok (Checkpoint.completed_steps checkpoint), (set_state self st, w))
          | Raise e => (Raise e, (self, w))
          end
        else (Ok 0, (self, w))
    | None => (Ok 0, (self, w))
    end.

(** The body of the loop [# Process each step], for the index [i]. *)
Definition process_step (guide_file spec_content : string)
    (steps : list string) (i : Z) : M (t * World) unit :=
  step_desc ← lift_result (Py.index steps i);
  self ← get_self;
  let context :=
    {| StepContext.step_number := i + 1;
       StepContext.step_description := step_desc;
       StepContext.spec := spec_content;
       StepContext.previous_output := StateManager.get_context (state self);
       StepContext.draft := "";
       StepContext.corrected := "";
       StepContext.secured := "" |} in
  step_output ←
    io (ModelPipeline.process env (config self) (pipeline_hooks self) context);
  put_engine_state (StateManager.add_step_output (state self) step_output);;
  (* Save checkpoint after each step *)
  if Py.truthy (checkpoint_file self)
  then _save_checkpoint guide_file spec_content
  else mret tt.

Definition run (spec guide_file : string) (resume_from : option string)
  : M (t * World) string :=
  (* Load specification *)
  spec_content ← load_specification spec;
  (* Load guide *)
  steps ← on_fs (λ f, GuideLoader.load f guide_file);
  (* Resume from checkpoint if provided *)
  start_step ← resume_from_checkpoint resume_from;
  (* Process each step *)
  Py.for_each (Py.range2 start_step (Z.of_nat (length steps)))
              (process_step guide_file spec_content steps);;
  (* Write output *)
  self ← get_self;
  io (os.write_file (Config.output_file (config self))
                    (StateManager.cumulative_output (state self)));;
  mret (StateManager.cumulative_output (state self)).

(** [dry_run] only parses the guide (its report goes to the standard
    output). *)
Definition dry_run (guide_file : string) : M (t * World) unit :=
  steps ← on_fs (λ f, GuideLoader.load f guide_file);
  mret tt.

(** An interrupted run: the statements of [run], with the process stopped
    once the step of index [k - 1] and its checkpoint are complete, before
    the step of index [k] starts; nothing is written to the output file. *)
Definition run_stopped_after (k : Z) (spec guide_file : string)
    (resume_from : option string) : M (t * World) unit :=
  spec_content ← load_specification spec;
  steps ← on_fs (λ f, GuideLoader.load f guide_file);
  start_step ← resume_from_checkpoint resume_from;
  Py.for_each (Py.range2 start_step (Z.min k (Z.of_nat (length steps))))
              (process_step guide_file spec_content steps).

End engine.
End WorkflowEngine.

(** ** Section 10.2: guide chaining *)

Module GuideChain.

Record t : Type := {
  config : Config.t;
  hooks : option PipelineHooks.t;
  checkpoint_dir : option string;
  chain_output : string
}.

(** [GuideChain(config, hooks, checkpoint_dir)] *)
Definition new (config : Config.t) (hooks : option PipelineHooks.t)
    (checkpoint_dir : option string) : t :=
  {| config := config; hooks := hooks; checkpoint_dir := checkpoint_dir;
     chain_output := "" |}.

Definition set_chain_output (self : t) (v : string) : t :=
  {| config := config self; hooks := hooks self;
     checkpoint_dir := checkpoint_dir self; chain_output := v |}.

(** One call of [engine.run] made by the chain: the specification and the
    guide it was given and the output it returned. *)
Record invocation : Type := {
  passed_spec : string;
  passed_guide : string;
  returned_output : string
}.

(** [# Set up checkpoint file for this guide] *)
Definition checkpoint_file_for (self : t) (idx : Z) (guide_file : string)
  : M World (option string) :=
  match checkpoint_dir self with
  | Some dir =>
      if Py.truthy (checkpoint_dir self) then
        os.makedirs dir;;
        mret (Some (os.path_join dir
                      ("checkpoint_" +:+ Py.str idx +:+ "_" +:+
                       os.path_basename guide_file +:+ ".json")))
      else mret None
  | None => mret None
  end.

(** [# Create engine with accumulated context]: the configuration of the
    engine of one guide. *)
Definition engine_config (self : t) (idx : Z) (guide_file : string)
  : Config.t :=
  {| Config.ollama_api := Config.ollama_api (config self);
     Config.model_a := Config.model_a (config self);
     Config.model_b := Config.model_b (config self);
     Config.model_c := Config.model_c (config self);
     Config.temp_creative := Config.temp_creative (config self);
     Config.temp_analytical := Config.temp_analytical (config self);
     Config.temp_adversarial := Config.temp_adversarial (config self);
     Config.max_tokens := Config.max_tokens (config self);
     Config.max_iterations := Config.max_iterations (config self);
     Config.output_file :=
       "output_" +:+ Py.str idx +:+ "_" +:+
       Py.remove_all ".txt" (os.path_basename guide_file) +:+ ".txt";
     Config.verbose := Config.verbose (config self) |}.

(** [# Prepend accumulated context to spec] *)
Definition enhanced_spec (spec cumulative_context : string) : string :=
  if String.eqb cumulative_context "" then spec
  else "Previous context:" +:+ Py.nl +:+ cumulative_context +:+
       Py.nl +:+ Py.nl +:+ "Current spec:" +:+ Py.nl +:+ spec.

(** [# Accumulate output for next guide] *)
Definition accumulate (cumulative_context guide_file output : string) : string :=
  cumulative_context +:+ Py.nl +:+ Py.nl +:+ "--- Output from " +:+
  guide_file +:+ " ---" +:+ Py.nl +:+ output.

Section chain.
Context (env : Env).

(** A method of a fresh engine, run from the chain; the engine is dropped
    afterwards. *)
Definition with_engine {A} (engine : WorkflowEngine.t)
    (m : M (WorkflowEngine.t * World) A) : M World A :=
  λ w, let '(r, (_, w')) := m (engine, w) in (r, w').

(** The loop over [enumerate(guide_files)], from the value of
    [cumulative_context] at its head.  Beside the final context it returns
    the calls of [engine.run] it made, in order. *)
Fixpoint run_guides (self : t) (spec : string) (guides : list (Z * string))
    (cumulative_context : string) : M World (string * list invocation) :=
  match guides with
  | [] => mret (cumulative_context, [])
  | (idx, guide_file) :: guides' =>
      checkpoint_file ← checkpoint_file_for self idx guide_file;
      let engine :=
        WorkflowEngine.new (engine_config self idx guide_file)
                           (hooks self) checkpoint_file in
      let enhanced := enhanced_spec spec cumulative_context in
      (* Run this guide *)
      output ← with_engine engine (WorkflowEngine.run env enhanced guide_file None);
      let cumulative_context := accumulate cumulative_context guide_file output in
      '(final, made) ← run_guides self spec guides' cumulative_context;
      mret (final,
            {| passed_spec := enhanced; passed_guide := guide_file;
               returned_output := output |} :: made)
  end.

Definition run_traced (spec : string) (guide_files : list string)
  : M (t * World) (string * list invocation) :=
  λ '(self, w),
    match run_guides self spec (Py.enumerate guide_files) "" w with
    | (Ok (cumulative_context, made), w1) =>
        (* Write final combined output *)
        let self := set_chain_output self cumulative_context in
        match os.write_file (Config.output_file (config self))
                            cumulative_context w1 with
        | (Ok _, w2) => (Ok (cumulative_context, made), (self, w2))
        | (Raise e, w2) => (Raise e, (self, w2))
        end
    | (Raise e, w1) => (Raise e, (self, w1))
    end.

Definition run (spec : string) (guide_files : list string)
  : M (t * World) string :=
  r ← run_traced spec guide_files; mret r.1.

End chain.

(** [GuideChain.dry_run]: the loop over the guides with its count of
    steps, and the method (its report goes to the standard output). *)
Fixpoint validate (f : gmap string node) (guides : list (Z * string))
    (total_steps : Z) : result Z :=
  match guides with
  | [] => Ok total_steps
  | (idx, guide_file) :: guides' =>
      match GuideLoader.load f guide_file with
      | Ok steps => validate f guides' (total_steps + Z.of_nat (length steps))
      | Raise e => Raise e
      end
  end.

Definition dry_run (guide_files : list string) : M (t * World) unit :=
  λ '(self, w),
    match validate (fs w) (Py.enumerate guide_files) 0 with
    | Ok _ => (Ok tt, (self, w))
    | Raise e => (Raise e, (self, w))
    end.

End GuideChain.

(** ** Notions the properties are stated with *)

Module Spec.

(** What a line of a guide contributes when it is recognised: its ordinal
    and its description, as the loop of [GuideLoader.load] computes them. *)
Definition recognize (line : string) : option (N * string) :=
  match GuideLoader.STEP_PATTERN_match (Py.strip line) with
  | Some (g1, g2) => Some (Py.int_of_digits g1, Py.strip g2)
  | None => None
  end.

(** The recognised lines of a guide text, in the order of the file. *)
Definition recognized (content : string) : list (N * string) :=
  omap recognize (os.lines content).

(** [(k, d)] is the last pair of [pairs] with the ordinal [k]. *)
Definition last_for (pairs : list (N * string)) (k : N) (d : string) : Prop :=
  ∃ before after, pairs = before ++ (k, d) :: after ∧ k ∉ after.*1.

(** The directory whose guides the error message lists. *)
Definition directory_of (file_path : string) : string :=
  let d := os.path_dirname file_path in
  if String.eqb d "" then "." else d.

(** The cumulative output as a function of the ordered step outputs: each
    output under its header, the first one numbered [index + 1]. *)
Fixpoint context_from (index : Z) (outputs : list string) : string :=
  match outputs with
  | [] => ""
  | o :: outputs' =>
      StateManager.formatted index o +:+ context_from (index + 1) outputs'
  end.

(** The invariant of the accumulation state. *)
Definition consistent (st : StateManager.t) : Prop :=
  StateManager.current_step_index st
    = Z.of_nat (length (StateManager.step_outputs st))
  ∧ StateManager.cumulative_output st
    = context_from 0 (StateManager.step_outputs st).

(** An iterative stage, seen from outside.  [req current] is the request
    the stage makes for the text [current].  A run of the stage is described
    by its passes, one per generation call: the text that was current when
    the call was made and the answer the call got. *)
Section stage.
Context (env : Env) (req : string → OllamaRequest.t).

(** The loop shared by the two iterative stages. *)
Fixpoint stage_loop (passes : list Z) (current : string) : M World string :=
  match passes with
  | [] => mret current
  | _ :: passes' =>
      new_output ← OllamaClient.query env (req current);
      if decide (new_output = current) then mret current
      else stage_loop passes' new_output
  end.

(** The requests of the first [i] passes. *)
Definition requests (passes : list (string * result string)) (i : nat)
  : list OllamaRequest.t :=
  (λ p, req p.1) <$> take i passes.

(** The text the last pass produced, or the input of the stage when there
    was no pass. *)
Definition last_text (input : string) (passes : list (string * result string))
  : string :=
  match last passes with
  | Some (_, Ok new) => new
  | _ => input
  end.

Definition stage_contract (cap : Z) (input : string) (w : World)
    (out : result string * World) : Prop :=
  ∃ passes : list (string * result string),
    (* the stage only talks to the generation endpoint *)
    fs out.2 = fs w ∧ clock out.2 = clock w
    ∧ calls out.2 = calls w ++ requests passes (length passes)
    (* at most [cap] calls *)
    ∧ Z.of_nat (length passes) ≤ Z.max 0 cap
    (* each answer is the one the endpoint gave to that call *)
    ∧ (∀ i cur ans, passes !! i = Some (cur, ans) →
         ans = oracle env (calls w ++ requests passes i) (req cur))
    (* the first pass works on the input, each later one on the text the
       pass before it produced, which differed from its own *)
    ∧ (∀ cur ans, passes !! 0%nat = Some (cur, ans) → cur = input)
    ∧ (∀ i cur ans cur' ans',
         passes !! i = Some (cur, ans) → passes !! S i = Some (cur', ans') →
         ans = Ok cur' ∧ cur' ≠ cur)
    (* an answer equal to the current text ends the stage at once *)
    ∧ (∀ i cur, passes !! i = Some (cur, Ok cur) →
         S i = length passes ∧ out.1 = Ok cur)
    (* a failed call ends the stage with its exception *)
    ∧ (∀ i cur e, passes !! i = Some (cur, Raise e) →
         S i = length passes ∧ out.1 = Raise e)
    (* without such an answer the stage runs to the cap and returns the
       last text produced *)
    ∧ ((∀ i cur ans, passes !! i = Some (cur, ans) →
          ∃ new, ans = Ok new ∧ new ≠ cur) →
       Z.of_nat (length passes) = Z.max 0 cap
       ∧ out.1 = Ok (last_text input passes)).

End stage.

(** A computation that only talks to the generation endpoint: it leaves
    the files and the clock alone, it only adds to the log of calls, and
    its result and its calls depend on nothing but the calls made before. *)
Definition generation_only {A} (m : M World A) : Prop :=
  ∀ w,
    fs (m w).2 = fs w ∧ clock (m w).2 = clock w
    ∧ (∃ more, calls (m w).2 = calls w ++ more)
    ∧ ∀ w2, calls w2 = calls w →
        (m w2).1 = (m w).1 ∧ calls (m w2).2 = calls (m w).2.

(** The working record [run] builds for the step of index [i]. *)
Definition step_context (spec_content : string) (i : Z) (step_desc : string)
    (st : StateManager.t) : StepContext.t :=
  {| StepContext.step_number := i + 1;
     StepContext.step_description := step_desc;
     StepContext.spec := spec_content;
     StepContext.previous_output := StateManager.get_context st;
     StepContext.draft := "";
     StepContext.corrected := "";
     StepContext.secured := "" |}.

(** The checkpoint [_save_checkpoint] builds for a state of the engine. *)
Definition checkpoint_of (guide_file spec_content : string)
    (st : StateManager.t) (ts : string) : Checkpoint.t :=
  {| Checkpoint.guide_file := guide_file;
     Checkpoint.spec := spec_content;
     Checkpoint.completed_steps := StateManager.current_step_index st;
     Checkpoint.cumulative_output := StateManager.cumulative_output st;
     Checkpoint.step_outputs := StateManager.step_outputs st;
     Checkpoint.timestamp := ts |}.

(** The file at [path] holds the snapshot of the state [st]. *)
Definition holds_snapshot (f : gmap string node) (path : string)
    (guide_file spec_content : string) (st : StateManager.t) : Prop :=
  ∃ ts, f !! path
        = Some (File (json.dumps
                        (Checkpoint.to_dict
                           (checkpoint_of guide_file spec_content st ts)))).


(** The chain context after the calls [made], started from [context]. *)
Definition context_after (context : string)
    (made : list GuideChain.invocation) : string :=
  foldl (λ c inv,
           GuideChain.accumulate c (GuideChain.passed_guide inv)
             (GuideChain.returned_output inv))
        context made.

(** The call [inv] is a run of a workflow engine: [WorkflowEngine.run],
    given the specification and the guide of the call, returned its
    output. *)
Definition engine_run (env : Env) (inv : GuideChain.invocation) : Prop :=
  ∃ engine w,
    (WorkflowEngine.run env (GuideChain.passed_spec inv)
       (GuideChain.passed_guide inv) None (engine, w)).1
    = Ok (GuideChain.returned_output inv).

(** The number of generation calls made between two worlds. *)
Definition calls_made (w w' : World) : Z :=
  Z.of_nat (length (calls w')) - Z.of_nat (length (calls w)).

(** [sub] occurs in [s] as a literal substring. *)
Definition substring_of (sub s : string) : Prop :=
  ∃ before after, s = before +:+ sub +:+ after.

End Spec.

(** ** Concrete inputs for the examples *)

Module Examples.

(** [Config()] with its default values. *)
Definition default_config : Config.t :=
  {| Config.ollama_api := "http://localhost:11434/api/generate";
     Config.model_a := "qwen2.5-coder:7b";
     Config.model_b := "deepseek-coder-v2:16b";
     Config.model_c := "codestral:22b";
     Config.temp_creative := 0.8;
     Config.temp_analytical := 0.3;
     Config.temp_adversarial := 0.7;
     Config.max_tokens := 2000;
     Config.max_iterations := 3;
     Config.output_file := "final_output.txt";
     Config.verbose := false |}.

Definition clock_text (n : nat) : string :=
  "2024-01-01T00:00:0" +:+ Py.str (Z.of_nat n).

(** An endpoint that answers every request with the same text. *)
Definition constant_env (s : string) : Env :=
  {| oracle := λ _ _, Ok s; now := clock_text |}.

(** An endpoint whose answer names the number of the call: no two answers
    are equal. *)
Definition counting_env : Env :=
  {| oracle := λ hist _, Ok ("response " +:+ Py.str (Z.of_nat (length hist)));
     now := clock_text |}.

(** An endpoint that answers like [counting_env] until [n] calls have been
    made and is unreachable afterwards. *)
Definition failing_env (n : nat) : Env :=
  {| oracle := λ hist _,
       if decide (length hist < n)%nat
       then Ok ("response " +:+ Py.str (Z.of_nat (length hist)))
       else Raise (ConnectionError "Failed to connect to Ollama API");
     now := clock_text |}.

Definition context_with_draft (d : string) : StepContext.t :=
  {| StepContext.step_number := 1;
     StepContext.step_description := "First";
     StepContext.spec := "Build a REST API";
     StepContext.previous_output := "";
     StepContext.draft := d;
     StepContext.corrected := "";
     StepContext.secured := "" |}.

Definition three_steps : string :=
  "Step 1: First" +:+ Py.nl +:+ "Step 2: Second" +:+ Py.nl +:+
  "Step 3: Third" +:+ Py.nl.

Definition unordered_steps : string :=
  "Step 5: Fifth" +:+ Py.nl +:+ "Step 1: First" +:+ Py.nl +:+
  "Step 3: Third" +:+ Py.nl.

(** A working directory with two guides and a sub-directory. *)
Definition files : gmap string node :=
  <["guide.txt" := File three_steps]>
  (<["coding_guide.txt" := File unordered_steps]>
  (<["notes.txt" := File ("These are notes" +:+ Py.nl)]>
  (<["guides" := Dir]>
  (<["guides/test_guide.txt" := File three_steps]>
  (<["." := Dir]> ∅))))).

Definition world : World := {| fs := files; calls := []; clock := 0 |}.

End Examples.

(** ** Section 9: the command line interface

    [parse_args] is the argument parser of the standard library; its
    result, the namespace of the arguments, is the input of [main]. *)

Module Namespace.
Record t : Type := {
  spec : option string;
  guide : string;                  (* default: coding_guide.txt *)
  output : string;                 (* default: final_output.txt *)
  config : option string;
  verbose : bool;
  dry_run : bool;
  checkpoint : option string;
  resume : option string;
  chain : option (list string);
  checkpoint_dir : option string
}.
End Namespace.

Module Cli.

(** The truth value of [args.chain]: a list that is not empty. *)
Definition chain_given (chain : option (list string)) : bool :=
  match chain with
  | Some (_ :: _) => true
  | _ => false
  end.

(** [# Apply CLI overrides] *)
Definition with_overrides (config : Config.t) (args : Namespace.t) : Config.t :=
  {| Config.ollama_api := Config.ollama_api config;
     Config.model_a := Config.model_a config;
     Config.model_b := Config.model_b config;
     Config.model_c := Config.model_c config;
     Config.temp_creative := Config.temp_creative config;
     Config.temp_analytical := Config.temp_analytical config;
     Config.temp_adversarial := Config.temp_adversarial config;
     Config.max_tokens := Config.max_tokens config;
     Config.max_iterations := Config.max_iterations config;
     Config.output_file := Namespace.output args;
     Config.verbose := Namespace.verbose args |}.

(** The exceptions the [except] clauses of [main] report: [FileNotFoundError],
    [ValueError] with its subclass of the JSON decoder, [ConnectionError]
    and [TimeoutError]. *)
Definition reported (e : exn) : bool :=
  match e with
  | FileNotFoundError _ | ValueError _ | JSONDecodeError
  | ConnectionError _ | TimeoutError _ => true
  | _ => false
  end.

(** A method called on an object that [main] has just made and drops
    afterwards. *)
Definition call {S A} (self : S) (m : M (S * World) A) : M World A :=
  λ w, let '(r, (_, w')) := m (self, w) in (r, w').

Section main.
(** [Config.from_json] builds a configuration from the JSON values of a
    file, whatever their types: [main] is stated for any loader that
    yields a configuration with fields of the declared types. *)
Context (env : Env) (from_json : string → M World Config.t).

(** [# Load configuration] *)
Definition load_config (args : Namespace.t) : M World Config.t :=
  if Py.truthy (Namespace.config args)
  then from_json (default "" (Namespace.config args))
  else mret Examples.default_config.

(** The body of the [try] statement; its value is the exit code. *)
Definition attempt (config : Config.t) (args : Namespace.t) : M World Z :=
  if chain_given (Namespace.chain args) then
    (* Guide chaining mode *)
    let guide_files := default [] (Namespace.chain args) in
    let chain := GuideChain.new config None (Namespace.checkpoint_dir args) in
    if Namespace.dry_run args then
      call chain (GuideChain.dry_run guide_files);; mret 0
    else if negb (Py.truthy (Namespace.spec args)) then mret 1
    else
      call chain
        (GuideChain.run env (default "" (Namespace.spec args)) guide_files);;
      mret 0
  else
    (* Single guide mode *)
    let engine := WorkflowEngine.new config None (Namespace.checkpoint args) in
    if Namespace.dry_run args then
      call engine (WorkflowEngine.dry_run (Namespace.guide args));; mret 0
    else if negb (Py.truthy (Namespace.spec args)) then mret 1
    else
      call engine
        (WorkflowEngine.run env (default "" (Namespace.spec args))
           (Namespace.guide args) (Namespace.resume args));;
      mret 0.

(** The [except] clauses: a reported exception becomes the exit code 1,
    any other exception leaves [main]. *)
Definition report (m : M World Z) : M World Z :=
  λ w,
    match m w with
    | (Ok code, w') => (Ok code, w')
    | (Raise e, w') => if reported e then (Ok 1, w') else (Raise e, w')
    end.

Definition main (args : Namespace.t) : M World Z :=
  config ← load_config args;
  report (attempt (with_overrides config args) args).

End main.
End Cli.

(** ** Concrete command lines for the examples *)

Module Invocations.

(** [--dry-run --guide guide.txt] *)
Definition dry_run_guide : Namespace.t :=
  {| Namespace.spec := None;
     Namespace.guide := "guide.txt";
     Namespace.output := "final_output.txt";
     Namespace.config := None;
     Namespace.verbose := false;
     Namespace.dry_run := true;
     Namespace.checkpoint := None;
     Namespace.resume := None;
     Namespace.chain := None;
     Namespace.checkpoint_dir := None |}.

(** [--spec "Build a REST API" --guide guide.txt --output result.txt] *)
Definition run_guide : Namespace.t :=
  {| Namespace.spec := Some "Build a REST API";
     Namespace.guide := "guide.txt";
     Namespace.output := "result.txt";
     Namespace.config := None;
     Namespace.verbose := false;
     Namespace.dry_run := false;
     Namespace.checkpoint := None;
     Namespace.resume := None;
     Namespace.chain := None;
     Namespace.checkpoint_dir := None |}.

(** The loader of a working directory without configuration files. *)
Definition no_config_file (path : string) : M World Config.t :=
  λ w, (Raise (FileNotFoundError path), w).

End Invocations.

(** ** Notions the proofs about the JSON codec are stated with *)

Module Codec.

(** A character the encoder writes as it is. *)
Definition plain (c : ascii) : Prop :=
  Ascii.eqb c json.quote = false ∧ Ascii.eqb c json.backslash = false
  ∧ (N_of_ascii c <? 32)%N = false.

(** The three shapes of an escaped character, as a test that is run on
    each of the 256 characters. *)
Definition escape_shape_ok (c : ascii) : bool :=
  match json.escape_char c with
  | String a "" =>
      Ascii.eqb a c && negb (Ascii.eqb c json.quote)
      && negb (Ascii.eqb c json.backslash) && negb (N_of_ascii c <? 32)%N
  | String b (String e "") =>
      Ascii.eqb b json.backslash && negb (Ascii.eqb e "u")
      && match json.unescape e with
         | Some c' => Ascii.eqb c' c
         | None => false
         end
  | String b (String u (String z1 (String z2 (String h3 (String h4 ""))))) =>
      Ascii.eqb b json.backslash && Ascii.eqb u "u"
      && Ascii.eqb z1 "0" && Ascii.eqb z2 "0"
      && match json.decode_uXXXX "0" "0" h3 h4 with
         | Some c' => Ascii.eqb c' c
         | None => false
         end
  | _ => false
  end.

(** The text after a number: it does not go on with a digit, a fraction
    or an exponent. *)
Definition ends_number (rest : string) : Prop :=
  match rest with
  | "" => True
  | String c _ =>
      Py.isdigit c = false ∧ Ascii.eqb c "." = false
      ∧ Ascii.eqb c "e" = false ∧ Ascii.eqb c "E" = false
  end.

(** The first character of the decimal text of an integer is a digit or
    the minus sign: a test run on each of the 256 characters shows that no
    other branch of the scanner takes it. *)
Definition number_head (c : ascii) : bool :=
  Py.isdigit c || Ascii.eqb c "-".

Definition number_head_ok (c : ascii) : bool :=
  implb (number_head c)
    (negb (Ascii.eqb c json.quote) && negb (Ascii.eqb c "{")
     && negb (Ascii.eqb c "[") && negb (Ascii.eqb "n" c)
     && negb (Ascii.eqb "t" c) && negb (Ascii.eqb "f" c)
     && negb (json.is_ws c)).

(** What follows a value inside an indented document: a comma or a line
    feed. *)
Definition separated (rest : string) : Prop :=
  match rest with
  | String c _ => c = ","%char ∨ c = "010"%char
  | "" => False
  end.

(** [scan] reads the value [v] off the text [text], which starts with a
    character that is no white space. *)
Definition parses (scan : string → option (json.value * string))
    (v : json.value) (text : string) : Prop :=
  (∀ rest, separated rest → scan (text +:+ rest) = Some (v, rest))
  ∧ ∃ c t, text = String c t ∧ json.is_ws c = false.

(** The text of one member of an object. *)
Definition member_text (k vtext : string) : string :=
  json.encode_string k +:+ ": " +:+ vtext.

Definition checkpoint_texts (c : Checkpoint.t) : list string :=
  [ json.encode_string (Checkpoint.guide_file c);
    json.encode_string (Checkpoint.spec c);
    Py.str (Checkpoint.completed_steps c);
    json.encode_string (Checkpoint.cumulative_output c);
    json.encode 1 (json.JArray (json.JString <$> Checkpoint.step_outputs c));
    json.encode_string (Checkpoint.timestamp c) ].

Definition checkpoint_pairs (c : Checkpoint.t) : list (string * json.value) :=
  match Checkpoint.to_dict c with
  | json.JObject pairs => pairs
  | _ => []
  end.

End Codec.

(** ** Notions the further properties are stated with *)

Module Run.
Definition answered (env : Env) (before made : list OllamaRequest.t) : Prop :=
  ∀ i r, made !! i = Some r → ∃ s, oracle env (before ++ take i made) r = Ok s.

Definition reliable (env : Env) : Prop :=
  ∀ hist r, ∃ s, oracle env hist r = Ok s.

(** What a computation that made the calls [made] after [before] may
    return: a value once every call was answered, or the exception of
    its last call, every call before it answered. *)
Definition outcome_of_calls {A} (env : Env) (before made : list OllamaRequest.t)
    (r : result A) : Prop :=
  match r with
  | Ok _ => answered env before made
  | Raise e =>
      ∃ init last, made = init ++ [last] ∧ answered env before init
                   ∧ oracle env (before ++ init) last = Raise e
  end.
End Run.

Module Text.
(** The last character of the string is not white space (the empty string has none). *)
Fixpoint ends_nonspace (s : string) : bool :=
  match s with
  | "" => false
  | String c "" => negb (Py.isspace c)
  | String _ s' => ends_nonspace s'
  end.

(** The characters of a string. *)
Fixpoint chars (s : string) : list ascii :=
  match s with
  | "" => []
  | String c s' => c :: chars s'
  end.

(** Every character of the string is in the class [f]. *)
Fixpoint every (f : ascii → bool) (s : string) : bool :=
  match s with
  | "" => true
  | String c s' => f c && every f s'
  end.

(** The format of a step line, after the white space around the line is
    removed: the word Step in any case, white space, the digits of the
    ordinal, a colon, optional white space and the description. *)
Definition step_line (line : string) (k : N) (d : string) : Prop :=
  ∃ c1 c2 c3 c4 ws ds ws',
    line = String c1 (String c2 (String c3 (String c4
             (ws +:+ ds +:+ String ":" (ws' +:+ d)))))
    ∧ GuideLoader.ieq c1 "s" "S" = true ∧ GuideLoader.ieq c2 "t" "T" = true
    ∧ GuideLoader.ieq c3 "e" "E" = true ∧ GuideLoader.ieq c4 "p" "P" = true
    ∧ ws ≠ "" ∧ every Py.isspace ws = true
    ∧ ds ≠ "" ∧ every Py.isdigit ds = true
    ∧ every Py.isspace ws' = true
    ∧ d ≠ "" ∧ Py.strip d = d ∧ ("010"%char ∉ chars d)
    ∧ k = Py.int_of_digits ds.
End Text.

Module Retry.
(** An requests.outcome after which [HttpClient.query] tries again, if HttpClient.attempts remain. *)
Definition retryable (o : requests.outcome) : bool :=
  match o with
  | requests.ConnectionFailed _ | requests.TimedOut => true
  | requests.Responded _ | requests.Failed _ => false
  end.

(** The pause after the attempt of index [attempt] with requests.outcome [o]. *)
Definition pause (self : HttpClient.t) (attempt : Z) (o : requests.outcome) : Q :=
  match o with
  | requests.ConnectionFailed _ => (HttpClient.retry_delay self * inject_Z (2 ^ attempt))%Q
  | _ => HttpClient.retry_delay self
  end.

(** What [HttpClient.query] returns or raises when [o] is the requests.outcome of its last
    attempt. *)
Definition final_result (self : HttpClient.t) (o : requests.outcome) : result json.value :=
  match o with
  | requests.Responded response => HttpClient.response_value response
  | requests.ConnectionFailed e => Raise (ConnectionError (HttpClient.connection_error_message self e))
  | requests.TimedOut => Raise (TimeoutError (HttpClient.timeout_error_message self))
  | requests.Failed e => Raise e
  end.

(** The requests.outcome of the post made after [i] identical posts. *)
Definition outcome_at (transport : requests.Transport) (url : string)
    (body : RequestDict.t) (before : list (string * RequestDict.t)) (i : nat)
  : requests.outcome :=
  transport (before ++ replicate i (url, body)) url body.

Definition total (pauses : list Q) : Q := foldr Qplus 0%Q pauses.

End Retry.

Module Chain.
(** The block one guide contributes to the output of a chain: its header
    and the output of its run. *)
Definition block (inv : GuideChain.invocation) : string :=
  Py.nl +:+ Py.nl +:+ "--- Output from " +:+ GuideChain.passed_guide inv +:+
  " ---" +:+ Py.nl +:+ GuideChain.returned_output inv.

Fixpoint blocks (made : list GuideChain.invocation) : string :=
  match made with
  | [] => ""
  | inv :: made' => block inv +:+ blocks made'
  end.

(** A path no engine of the chain with an index from [start] on writes
    to: it is neither the output file nor the checkpoint file of such an
    engine. *)
Definition foreign (self : GuideChain.t) (start : Z) (q : string) : Prop :=
  (∀ idx g, start ≤ idx →
     q ≠ Config.output_file (GuideChain.engine_config self idx g))
  ∧ (∀ idx g w p, start ≤ idx →
       (GuideChain.checkpoint_file_for self idx g w).1 = Ok (Some p) → q ≠ p).
End Chain.

Module Files.

(** A path holds the NUL character. *)
Fixpoint has_nul (p : string) : bool :=
  match p with
  | "" => false
  | String c p' => Ascii.eqb c "000" || has_nul p'
  end.

(** A path at which [open(p, "w")] creates or replaces a file: its last
    component is a name (not empty, [.] or [..]), it holds no NUL
    character, no directory stands at it, and the directory it lies in
    exists; a name without a slash lies in the working directory.
    Permissions and the limits of the file system on the length of a name
    are not part of the world. *)
Definition writable (f : gmap string node) (p : string) : bool :=
  let name := os.path_basename p in
  let directory := os.path_dirname p in
  negb (String.eqb name "" || String.eqb name "." || String.eqb name "..")
  && negb (has_nul p)
  && negb (os.path_isdir f p)
  && (String.eqb directory "" || os.path_isdir f directory).

End Files.

(* ===================================================================== *)
(** * Part II: properties                                                *)
(* ===================================================================== *)

(** ** Strings *)

Lemma string_app_cons (x : ascii) (a b : string) :
  String x a +:+ b = String x (a +:+ b).
Proof. reflexivity. Qed.

Lemma string_app_nil_l (s : string) : "" +:+ s = s.
Proof. reflexivity. Qed.

Lemma string_app_nil_r (s : string) : s +:+ "" = s.
Proof.
  induction s as [|c s IH]; [done |]. by rewrite string_app_cons, IH.
Qed.

Lemma string_app_assoc (a b c : string) : (a +:+ b) +:+ c = a +:+ b +:+ c.
Proof.
  induction a as [|x a IH]; [done |]. by rewrite !string_app_cons, IH.
Qed.

Lemma string_length_app (a b : string) :
  String.length (a +:+ b) = (String.length a + String.length b)%nat.
Proof.
  induction a as [|x a IH]; [done |]. rewrite string_app_cons. simpl.
  by rewrite IH.
Qed.

(** ** The accumulation state *)

Lemma context_from_app (index : Z) (l1 l2 : list string) :
  Spec.context_from index (l1 ++ l2)
  = Spec.context_from index l1
    +:+ Spec.context_from (index + Z.of_nat (length l1)) l2.
Proof.
  revert index. induction l1 as [|o l1 IH]; intros index; simpl.
  - by rewrite Z.add_0_r.
  - rewrite IH, string_app_assoc. do 3 f_equal. lia.
Qed.

(** C9. The invariant of the accumulation state is preserved by
    [add_step_output]: if the count of completed steps equals the length of
    the list of step outputs and the cumulative output is the in-order
    concatenation of the outputs under their "Step N Output" headers, then
    after appending any output both still hold, the list has grown by that
    output at its end, and the cumulative output is the old one followed by
    the new output under the header "Step (count + 1) Output": what was
    there before is a prefix and is not edited. *)
Theorem add_step_output_preserves_invariant
    (st : StateManager.t) (output : string) :
  Spec.consistent st →
  let st' := StateManager.add_step_output st output in
  Spec.consistent st'
  ∧ StateManager.step_outputs st' = StateManager.step_outputs st ++ [output]
  ∧ StateManager.current_step_index st'
    = StateManager.current_step_index st + 1
  ∧ StateManager.cumulative_output st'
    = StateManager.cumulative_output st +:+
      (Py.nl +:+ "--- Step " +:+
       Py.str (StateManager.current_step_index st + 1) +:+
       " Output ---" +:+ Py.nl +:+ output +:+ Py.nl).
Proof.
  intros [Hcount Hctx]. simpl. repeat split.
  - simpl. rewrite length_app, Hcount. simpl. lia.
  - simpl. rewrite context_from_app, Hctx, Hcount. simpl.
    by rewrite string_app_nil_r.
Qed.

Lemma add_step_output_preserves_invariant_witness :
  Spec.consistent StateManager.new
  ∧ Spec.consistent (StateManager.add_step_output StateManager.new "out")
  ∧ StateManager.cumulative_output
      (StateManager.add_step_output StateManager.new "out")
    = Py.nl +:+ "--- Step 1 Output ---" +:+ Py.nl +:+ "out" +:+ Py.nl.
Proof.
  assert (H : Spec.consistent StateManager.new) by (split; reflexivity).
  split; [exact H |].
  destruct (add_step_output_preserves_invariant StateManager.new "out" H)
    as (Hc & _ & _ & Hout).
  split; [exact Hc | exact Hout].
Defined.

(** ** The monad *)

Lemma mbind_unfold {S A B} (m : M S A) (f : A → M S B) (s : S) :
  (m ≫= f) s
  = match m s with
    | (Ok a, s') => f a s'
    | (Raise e, s') => (Raise e, s')
    end.
Proof. reflexivity. Qed.

Lemma query_unfold (env : Env) (r : OllamaRequest.t) (w : World) :
  OllamaClient.query env r w
  = (oracle env (calls w) r,
     {| fs := fs w; calls := calls w ++ [r]; clock := clock w |}).
Proof. reflexivity. Qed.

(** ** Ranges *)

Lemma range2_nil (a b : Z) : b ≤ a → Py.range2 a b = [].
Proof.
  intros H. unfold Py.range2. by replace (Z.to_nat (b - a)) with 0%nat by lia.
Qed.

Lemma range2_cons (a b : Z) :
  a < b → Py.range2 a b = a :: Py.range2 (a + 1) b.
Proof.
  intros H. unfold Py.range2.
  replace (Z.to_nat (b - a)) with (S (Z.to_nat (b - (a + 1)))) by lia.
  cbn [seq fmap list_fmap]. f_equal; [lia |].
  rewrite <- fmap_S_seq, <- list_fmap_compose.
  apply list_fmap_ext. intros _ k _. simpl. lia.
Qed.

Lemma range2_length (a b : Z) : length (Py.range2 a b) = Z.to_nat (b - a).
Proof. unfold Py.range2. by rewrite length_fmap, length_seq. Qed.

Lemma range2_app (a k b : Z) :
  a ≤ k ≤ b → Py.range2 a b = Py.range2 a k ++ Py.range2 k b.
Proof.
  intros [Hak Hkb]. unfold Py.range2.
  replace (Z.to_nat (b - a))
    with (Z.to_nat (k - a) + Z.to_nat (b - k))%nat by lia.
  rewrite seq_app, fmap_app. f_equal.
  rewrite Nat.add_0_l.
  replace (seq (Z.to_nat (k - a)) (Z.to_nat (b - k)))
    with ((λ j, Z.to_nat (k - a) + j)%nat <$> seq 0 (Z.to_nat (b - k))).
  - rewrite <- list_fmap_compose. apply list_fmap_ext. intros _ j _. simpl. lia.
  - by rewrite fmap_add_seq, Nat.add_0_r.
Qed.

Lemma range_length (n : Z) : Z.of_nat (length (Py.range n)) = Z.max 0 n.
Proof. unfold Py.range. rewrite range2_length. lia. Qed.

(** ** The iterative stages *)

Section stage_proofs.
Context (env : Env) (req : string → OllamaRequest.t).

Lemma requests_cons (p : string * result string) passes i :
  Spec.requests req (p :: passes) (S i) = req p.1 :: Spec.requests req passes i.
Proof. reflexivity. Qed.

Lemma stage_loop_contract (ps : list Z) (cur : string) (w : World) :
  Spec.stage_contract env req (Z.of_nat (length ps)) cur w
    (Spec.stage_loop env req ps cur w).
Proof.
  revert cur w. induction ps as [|p ps IH]; intros cur w.
  - exists []. simpl. rewrite app_nil_r. split_and!; done.
  - cbn [Spec.stage_loop]. rewrite mbind_unfold, query_unfold.
    set (w1 := {| fs := fs w; calls := calls w ++ [req cur]; clock := clock w |}).
    destruct (oracle env (calls w) (req cur)) as [new|e] eqn:Hans.
    + destruct (decide (new = cur)) as [->|Hne].
      * exists [(cur, Ok cur)]. cbn. split_and!.
        -- done.
        -- done.
        -- done.
        -- lia.
        -- intros [|i] c a Hl; simplify_eq/=. by rewrite app_nil_r.
        -- intros ?? ?. by simplify_eq/=.
        -- intros [|i] ???? Hl1 Hl2; simplify_eq/=.
        -- intros [|i] ? Hl; by simplify_eq/=.
        -- intros [|i] ?? Hl; simplify_eq/=.
        -- intros H. destruct (H 0%nat cur (Ok cur) eq_refl) as (n & ? & ?).
           by simplify_eq.
      * destruct (IH new w1)
          as (passes & Hfs & Hclock & Hcalls & Hlen & Hans' & Hfirst & Hchain
              & Hstop & Hfail & Hcap).
        exists ((cur, Ok new) :: passes). split_and!.
        -- done.
        -- done.
        -- rewrite Hcalls. cbn [length]. rewrite requests_cons. simpl.
           by rewrite <- app_assoc.
        -- cbn [length]. lia.
        -- intros [|i] c a Hl; simplify_eq/=.
           ++ by rewrite app_nil_r.
           ++ rewrite (Hans' _ _ _ Hl), requests_cons. simpl.
              by rewrite <- app_assoc.
        -- intros ?? ?. by simplify_eq/=.
        -- intros [|i] ???? Hl1 Hl2; simplify_eq/=.
           ++ by rewrite (Hfirst _ _ Hl2).
           ++ eauto.
        -- intros [|i] ? Hl; simplify_eq/=.
           by destruct (Hstop _ _ Hl) as [<- ?].
        -- intros [|i] ? ? Hl; simplify_eq/=.
           by destruct (Hfail _ _ _ Hl) as [<- ?].
        -- intros H. destruct Hcap as [Hn Hr].
           { intros i c a Hl. by apply (H (S i)). }
           split; [cbn [length]; lia |].
           rewrite Hr. f_equal. unfold Spec.last_text. rewrite last_cons.
           destruct (last passes) as [[c [n|e]]|] eqn:Hlast; [done | | done].
           rewrite last_lookup in Hlast.
           destruct (H (S (Init.Nat.pred (length passes))) c (Raise e) Hlast)
             as (n & ? & _).
           done.
    + exists [(cur, Raise e)]. cbn. split_and!.
      * done.
      * done.
      * done.
      * lia.
      * intros [|i] c a Hl; simplify_eq/=. by rewrite app_nil_r.
      * intros ?? ?. by simplify_eq/=.
      * intros [|i] ???? Hl1 Hl2; simplify_eq/=.
      * intros [|i] ? Hl; simplify_eq/=.
      * intros [|i] ?? Hl; by simplify_eq/=.
      * intros H. destruct (H 0%nat cur (Raise e) eq_refl) as (n & ? & ?).
        by simplify_eq.
Qed.

Lemma stage_contract_cap (cap cap' : Z) input w out :
  Z.max 0 cap = Z.max 0 cap' →
  Spec.stage_contract env req cap input w out →
  Spec.stage_contract env req cap' input w out.
Proof. unfold Spec.stage_contract. by intros ->. Qed.

End stage_proofs.

Lemma correction_loop_stage env config context passes current w :
  ModelPipeline.correction_loop env config context passes current w
  = Spec.stage_loop env (ModelPipeline.correction_request config context)
      passes current w.
Proof.
  revert current w. induction passes as [|p passes IH]; intros current w;
    [done |].
  cbn [ModelPipeline.correction_loop Spec.stage_loop]. rewrite !mbind_unfold.
  destruct (OllamaClient.query _ _ w) as [[new|e] w1]; [| done].
  destruct (decide (new = current)); [done | apply IH].
Qed.

Lemma security_loop_stage env config context passes current w :
  ModelPipeline.security_loop env config context passes current w
  = Spec.stage_loop env (ModelPipeline.security_request config context)
      passes current w.
Proof.
  revert current w. induction passes as [|p passes IH]; intros current w;
    [done |].
  cbn [ModelPipeline.security_loop Spec.stage_loop]. rewrite !mbind_unfold.
  destruct (OllamaClient.query _ _ w) as [[new|e] w1]; [| done].
  destruct (decide (new = current)); [done | apply IH].
Qed.

Lemma error_correction_contract env config context w :
  Spec.stage_contract env (ModelPipeline.correction_request config context)
    (Config.max_iterations config) (StepContext.draft context) w
    (ModelPipeline._error_correction env config context w).
Proof.
  unfold ModelPipeline._error_correction. rewrite correction_loop_stage.
  eapply stage_contract_cap; [| apply stage_loop_contract].
  rewrite range_length. lia.
Qed.

Lemma security_hardening_contract env config context w :
  Spec.stage_contract env (ModelPipeline.security_request config context)
    (Config.max_iterations config) (StepContext.corrected context) w
    (ModelPipeline._security_hardening env config context w).
Proof.
  unfold ModelPipeline._security_hardening. rewrite security_loop_stage.
  eapply stage_contract_cap; [| apply stage_loop_contract].
  rewrite range_length. lia.
Qed.

Lemma stage_contract_calls_made env req cap input w out :
  Spec.stage_contract env req cap input w out →
  0 ≤ Spec.calls_made w out.2 ≤ Z.max 0 cap.
Proof.
  intros (passes & _ & _ & Hcalls & Hlen & _). unfold Spec.calls_made.
  rewrite Hcalls, length_app. unfold Spec.requests.
  rewrite length_fmap, length_take. lia.
Qed.

(** C3. Each iterative stage, error correction and security hardening
    alike, satisfies the stage contract for every step context, every
    behaviour of the generation endpoint and every world: it makes at most
    [max_iterations] generation calls (none when the cap is zero or
    negative); the first call is made for the input of the stage (the draft,
    respectively the corrected text) and each later one for the text the
    previous call returned, which differed from the text it was made for; a
    call whose answer is string-equal to the text it was made for is the
    last call, and the stage returns that text; a failed call is the last
    call and its exception is the outcome; and when every call succeeded
    with an answer different from its current text, the number of calls is
    exactly the cap and the stage returns the last text produced (its input
    when the cap allows no call).  The bound on the number of calls is
    repeated on its own for each stage. *)
Theorem iterative_stages_contract
    (env : Env) (config : Config.t) (context : StepContext.t) (w : World) :
  let refine := ModelPipeline._error_correction env config context w in
  let harden := ModelPipeline._security_hardening env config context w in
  Spec.stage_contract env (ModelPipeline.correction_request config context)
    (Config.max_iterations config) (StepContext.draft context) w refine
  ∧ Spec.stage_contract env (ModelPipeline.security_request config context)
      (Config.max_iterations config) (StepContext.corrected context) w harden
  ∧ 0 ≤ Spec.calls_made w refine.2 ≤ Z.max 0 (Config.max_iterations config)
  ∧ 0 ≤ Spec.calls_made w harden.2 ≤ Z.max 0 (Config.max_iterations config).
Proof.
  cbv zeta. split; [| split; [| split]].
  - apply error_correction_contract.
  - apply security_hardening_contract.
  - exact (stage_contract_calls_made _ _ _ _ _ _
             (error_correction_contract env config context w)).
  - exact (stage_contract_calls_made _ _ _ _ _ _
             (security_hardening_contract env config context w)).
Qed.

(** C4 as stated fails: with an endpoint that answers every request with
    the text "x", a draft "d" and the default cap of three passes, the
    Refine stage makes two generation calls, not one: the first answer
    differs from the draft, the second equals the first. *)
Lemma refine_single_call_counterexample :
  ¬ (∀ (env : Env) (config : Config.t) (context : StepContext.t) (w : World)
       (s : string),
       1 ≤ Config.max_iterations config →
       (∀ hist request, oracle env hist request = Ok s) →
       Spec.calls_made w
         (ModelPipeline._error_correction env config context w).2 = 1).
Proof.
  intros H.
  specialize (H (Examples.constant_env "x") Examples.default_config
                (Examples.context_with_draft "d") Examples.world "x").
  assert (Hcap : 1 ≤ Config.max_iterations Examples.default_config)
    by (vm_compute; discriminate).
  specialize (H Hcap (λ _ _, eq_refl)).
  vm_compute in H. discriminate H.
Qed.

(** C4, amended. If every generation call the Refine stage makes returns
    one and the same string [s] and the cap is at least one, the stage
    returns [s]; it makes exactly one call when [s] equals the draft it
    starts from, and otherwise exactly [min 2 max_iterations] calls: the
    first call replaces the draft by [s] and the second, if the cap allows
    it, finds the text unchanged. *)
Theorem refine_constant_answers
    (env : Env) (config : Config.t) (context : StepContext.t) (w : World)
    (s : string) :
  1 ≤ Config.max_iterations config →
  (∀ hist current,
     oracle env hist (ModelPipeline.correction_request config context current)
     = Ok s) →
  let out := ModelPipeline._error_correction env config context w in
  out.1 = Ok s
  ∧ Spec.calls_made w out.2
    = if decide (s = StepContext.draft context) then 1
      else Z.min 2 (Config.max_iterations config).
Proof.
  intros Hcap Hconst. cbv zeta. unfold ModelPipeline._error_correction, Py.range.
  rewrite (range2_cons 0) by lia.
  cbn [ModelPipeline.correction_loop]. rewrite mbind_unfold, query_unfold, Hconst.
  unfold Spec.calls_made. destruct (decide (s = StepContext.draft context)) as [->|Hne].
  - simpl. rewrite length_app. simpl. split; [done | lia].
  - destruct (decide (Config.max_iterations config = 1)) as [H1|H1].
    + rewrite range2_nil by lia. simpl. rewrite length_app. simpl.
      split; [done | lia].
    + rewrite (range2_cons (0 + 1)) by lia.
      cbn [ModelPipeline.correction_loop].
      rewrite mbind_unfold, query_unfold, Hconst.
      rewrite decide_True by done. simpl. rewrite !length_app. simpl.
      split; [done | lia].
Qed.

Lemma refine_constant_answers_witness :
  let out :=
    ModelPipeline._error_correction (Examples.constant_env "x")
      Examples.default_config (Examples.context_with_draft "x")
      Examples.world in
  out.1 = Ok "x" ∧ Spec.calls_made Examples.world out.2 = 1.
Proof.
  apply (refine_constant_answers (Examples.constant_env "x")
           Examples.default_config (Examples.context_with_draft "x")
           Examples.world "x").
  - vm_compute. discriminate.
  - intros hist current. reflexivity.
Defined.

(** ** The guide loader *)

Lemma foldl_parse_line (d : gmap N string) (lines : list string) :
  foldl GuideLoader.parse_line d lines
  = foldl (λ d kv, insert kv.1 kv.2 d) d (omap Spec.recognize lines).
Proof.
  revert d. induction lines as [|l lines IH]; intros d; [done |].
  cbn [foldl omap list_omap]. rewrite IH.
  unfold GuideLoader.parse_line, Spec.recognize.
  destruct (GuideLoader.STEP_PATTERN_match (Py.strip l)) as [[g1 g2]|]; done.
Qed.

Lemma lookup_foldl_insert (pairs : list (N * string)) (d : gmap N string) (k : N) (v : string) :
  (foldl (λ d kv, insert kv.1 kv.2 d) d pairs) !! k = Some v
  ↔ Spec.last_for pairs k v ∨ ((k ∉ pairs.*1) ∧ d !! k = Some v).
Proof.
  induction pairs as [|[k' v'] pairs IH] using rev_ind.
  - simpl. split.
    + intros H. right. split; [apply not_elem_of_nil | done].
    + intros [(b & a & Hp & _)|[_ H]]; [by destruct b | done].
  - rewrite foldl_app. simpl. destruct (decide (k' = k)) as [->|Hne].
    + rewrite lookup_insert_eq. split.
      * intros [= ->]. left. exists pairs, []. split; [done | apply not_elem_of_nil].
      * intros [(b & a & Hp & Hnotin)|[Hnotin _]].
        -- destruct a as [|x a _] using rev_ind.
           ++ apply app_inj_tail in Hp as [_ ?]. by simplify_eq.
           ++ rewrite app_comm_cons, app_assoc in Hp.
              apply app_inj_tail in Hp as [_ <-].
              rewrite fmap_app in Hnotin. simpl in Hnotin.
              exfalso. apply Hnotin. apply elem_of_app. right. by left.
        -- exfalso. apply Hnotin. rewrite fmap_app. apply elem_of_app. right. by left.
    + rewrite lookup_insert_ne by done. rewrite IH. split.
      * intros [(b & a & -> & Hnotin)|[Hnotin Hd]].
        -- left. exists b, (a ++ [(k', v')]). split; [by rewrite <- app_assoc |].
           rewrite fmap_app. intros [?|?%list_elem_of_singleton]%elem_of_app; done.
        -- right. split; [| done]. rewrite fmap_app.
           intros [?|?%list_elem_of_singleton]%elem_of_app; done.
      * intros [(b & a & Hp & Hnotin)|[Hnotin Hd]].
        -- left. destruct a as [|x a _] using rev_ind.
           ++ apply app_inj_tail in Hp as [_ ?]. by simplify_eq.
           ++ rewrite app_comm_cons, app_assoc in Hp.
              apply app_inj_tail in Hp as [-> <-].
              exists b, a. split; [done |]. rewrite fmap_app in Hnotin.
              intros ?. apply Hnotin, elem_of_app. by left.
        -- right. split; [| done]. rewrite fmap_app in Hnotin.
           intros ?. apply Hnotin, elem_of_app. by left.
Qed.

Lemma StronglySorted_le_lt (l : list N) :
  StronglySorted N.le l → NoDup l → StronglySorted N.lt l.
Proof.
  induction 1 as [|x l Hs IH Hall]; intros Hnd; [constructor |].
  apply NoDup_cons in Hnd as [Hx Hnd]. constructor; [by apply IH |].
  apply Forall_forall. intros y Hy.
  rewrite Forall_forall in Hall. specialize (Hall y Hy).
  assert (x ≠ y) by (intros ->; done). lia.
Qed.

Lemma sorted_keys_sorted (d : gmap N string) :
  StronglySorted N.lt (GuideLoader.sorted_keys d).
Proof.
  unfold GuideLoader.sorted_keys. apply StronglySorted_le_lt.
  - apply StronglySorted_merge_sort; apply _.
  - rewrite merge_sort_Permutation. apply NoDup_fst_map_to_list.
Qed.

Lemma sorted_keys_NoDup (d : gmap N string) :
  NoDup (GuideLoader.sorted_keys d).
Proof.
  unfold GuideLoader.sorted_keys. rewrite merge_sort_Permutation.
  apply NoDup_fst_map_to_list.
Qed.

Lemma elem_of_sorted_keys (d : gmap N string) (k : N) :
  k ∈ GuideLoader.sorted_keys d ↔ is_Some (d !! k).
Proof.
  unfold GuideLoader.sorted_keys. rewrite merge_sort_Permutation.
  rewrite list_elem_of_fmap. split.
  - intros ([k' v] & -> & Hin). apply elem_of_map_to_list in Hin. by exists v.
  - intros [v Hv]. exists (k, v). split; [done |]. by apply elem_of_map_to_list.
Qed.

Lemma load_file (f : gmap string node) (file_path content : string) :
  f !! file_path = Some (File content) →
  GuideLoader.load f file_path
  = let steps_dict :=
      foldl (λ d kv, insert kv.1 kv.2 d) ∅ (Spec.recognized content) in
    if decide (steps_dict = ∅)
    then Raise (ValueError (GuideLoader.no_steps_message file_path))
    else Ok ((λ i, steps_dict !!! i) <$> GuideLoader.sorted_keys steps_dict).
Proof.
  intros Hf. unfold GuideLoader.load, os.path_exists, os.read_file.
  rewrite Hf. cbn [negb]. by rewrite foldl_parse_line.
Qed.

Lemma foldl_insert_empty (pairs : list (N * string)) :
  foldl (λ d kv, insert kv.1 kv.2 d) (∅ : gmap N string) pairs = ∅ ↔ pairs = [].
Proof.
  split; [| by intros ->].
  destruct pairs as [|[k v] pairs _] using rev_ind; [done |].
  rewrite foldl_app. simpl. intros H. by apply insert_non_empty in H.
Qed.

Lemma last_for_elem (pairs : list (N * string)) (k : N) :
  k ∈ pairs.*1 → ∃ d, Spec.last_for pairs k d.
Proof.
  induction pairs as [|[k' v'] pairs IH] using rev_ind.
  - by intros ?%elem_of_nil.
  - rewrite fmap_app. intros Hin. destruct (decide (k' = k)) as [->|Hne].
    + exists v', pairs, []. split; [done | apply not_elem_of_nil].
    + apply elem_of_app in Hin as [Hin|Hin%list_elem_of_singleton]; [| done].
      destruct (IH Hin) as (d & b & a & -> & Hnotin).
      exists d, b, (a ++ [(k', v')]). split; [by rewrite <- app_assoc |].
      rewrite fmap_app. intros [?|?%list_elem_of_singleton]%elem_of_app; done.
Qed.

Lemma elem_of_sorted_keys_recognized (pairs : list (N * string)) (k : N) :
  k ∈ GuideLoader.sorted_keys (foldl (λ d kv, insert kv.1 kv.2 d) ∅ pairs)
  ↔ k ∈ pairs.*1.
Proof.
  rewrite elem_of_sorted_keys. split.
  - intros [v Hv].
    apply lookup_foldl_insert in Hv as [(b & a & -> & _)|[_ Hv]].
    + rewrite fmap_app. apply elem_of_app. right. by left.
    + by rewrite lookup_empty in Hv.
  - intros Hin. destruct (last_for_elem _ _ Hin) as [v Hv].
    exists v. apply lookup_foldl_insert. by left.
Qed.

(** C5. For every guide text with at least one recognised line,
    [GuideLoader.load] returns the descriptions in ascending order of their
    ordinals, whatever the order of the lines in the file: the ordinals of
    the result are strictly increasing, they are exactly the ordinals of
    the recognised lines, and the description returned for an ordinal is
    the one of the last recognised line with that ordinal.  In particular a
    guide with the lines "Step 5: Fifth", "Step 1: First", "Step 3: Third"
    parses to ["First"; "Third"; "Fifth"]. *)
Theorem load_orders_by_ordinal :
  (∀ (f : gmap string node) (file_path content : string),
      f !! file_path = Some (File content) →
      Spec.recognized content ≠ [] →
      ∃ keys descs,
        GuideLoader.load f file_path = Ok descs
        ∧ length descs = length keys
        ∧ StronglySorted N.lt keys
        ∧ (∀ k, k ∈ keys ↔ k ∈ (Spec.recognized content).*1)
        ∧ (∀ i k d, keys !! i = Some k → descs !! i = Some d →
             Spec.last_for (Spec.recognized content) k d))
  ∧ (∀ (f : gmap string node) (file_path : string),
      f !! file_path
      = Some (File ("Step 5: Fifth" +:+ Py.nl +:+ "Step 1: First" +:+ Py.nl +:+
                    "Step 3: Third" +:+ Py.nl)) →
      GuideLoader.load f file_path = Ok ["First"; "Third"; "Fifth"]).
Proof.
  split.
  - intros f file_path content Hf Hne. rewrite (load_file _ _ _ Hf). cbv zeta.
    set (d := foldl _ ∅ (Spec.recognized content)).
    rewrite decide_False by (unfold d; by rewrite foldl_insert_empty).
    exists (GuideLoader.sorted_keys d), ((λ i, d !!! i) <$> GuideLoader.sorted_keys d).
    split_and!.
    + done.
    + by rewrite length_fmap.
    + apply sorted_keys_sorted.
    + intros k. apply elem_of_sorted_keys_recognized.
    + intros i k v Hk Hv. rewrite list_lookup_fmap, Hk in Hv. simpl in Hv.
      injection Hv as <-.
      assert (Hin : k ∈ GuideLoader.sorted_keys d) by (by eapply list_elem_of_lookup_2).
      apply elem_of_sorted_keys in Hin as [v Hv].
      rewrite (lookup_total_correct _ _ _ Hv).
      apply lookup_foldl_insert in Hv as [?|[_ Hv]]; [done |].
      by rewrite lookup_empty in Hv.
  - intros f file_path Hf. rewrite (load_file _ _ _ Hf). vm_compute. reflexivity.
Qed.

Lemma load_orders_by_ordinal_witness :
  GuideLoader.load Examples.files "coding_guide.txt"
  = Ok ["First"; "Third"; "Fifth"]
  ∧ ∃ keys descs,
      GuideLoader.load Examples.files "guide.txt" = Ok descs
      ∧ length descs = length keys
      ∧ StronglySorted N.lt keys
      ∧ (∀ k, k ∈ keys ↔ k ∈ (Spec.recognized Examples.three_steps).*1)
      ∧ (∀ i k d, keys !! i = Some k → descs !! i = Some d →
           Spec.last_for (Spec.recognized Examples.three_steps) k d).
Proof.
  split.
  - apply (proj2 load_orders_by_ordinal Examples.files "coding_guide.txt").
    vm_compute. reflexivity.
  - apply (proj1 load_orders_by_ordinal Examples.files "guide.txt"
             Examples.three_steps).
    + vm_compute. reflexivity.
    + vm_compute. discriminate.
Defined.

(** C8 as stated fails: a path that names a directory exists, so the
    loader goes on to open it, and the error of [open] is neither of the
    two failures of the claim nor a list of steps. *)
Lemma load_directory_counterexample :
  ¬ (∀ (f : gmap string node) (file_path : string),
       match GuideLoader.load f file_path with
       | Ok _ => True
       | Raise (FileNotFoundError _) => os.path_exists f file_path = false
       | Raise (ValueError _) => os.path_exists f file_path = true
       | Raise _ => False
       end).
Proof.
  intros H. specialize (H Examples.files "guides"). vm_compute in H. exact H.
Qed.


Lemma elem_of_available (f : gmap string node) (file_path name : string) :
  name ∈ GuideLoader._list_available_guides f file_path
  ↔ f !! Spec.directory_of file_path = Some Dir
    ∧ Py.endswith name "_guide.txt" = true
    ∧ name ≠ ""
    ∧ ∃ p, is_Some (f !! p) ∧ os.parent p = Spec.directory_of file_path
           ∧ os.path_basename p = name.
Proof.
  unfold GuideLoader._list_available_guides, os.path_isdir, os.listdir.
  fold (Spec.directory_of file_path).
  destruct (f !! Spec.directory_of file_path) as [[c|]|] eqn:Hd.
  - split; [by intros ?%elem_of_nil | by intros [? _]].
  - rewrite list_elem_of_filter, list_elem_of_fmap. split.
    + intros (Hend & p & -> & Hp). apply list_elem_of_filter in Hp as [[Hpar Hne] Hp].
      apply list_elem_of_fmap in Hp as ([p' n] & -> & Hp).
      apply elem_of_map_to_list in Hp. split_and!; try done.
      exists p'. by rewrite Hp.
    + intros (_ & Hend & Hne & p & [n Hp] & Hpar & <-). split; [done |].
      exists p. split; [done |]. apply list_elem_of_filter. split; [done |].
      apply list_elem_of_fmap. exists (p, n). split; [done |].
      by apply elem_of_map_to_list.
  - split; [by intros ?%elem_of_nil | by intros [? _]].
Qed.

(** C8, amended. For a path that does not exist or names a regular file,
    [GuideLoader.load] fails in exactly two cases.  When the path does not
    exist it raises FileNotFoundError with the message "Guide file not
    found: <path>", a line feed and "Available guides: " followed by the
    names, joined by ", ", of the entries of the directory of the path that
    end in "_guide.txt", or by "none" when there is no such entry or no such
    directory.  When the file exists and none of its lines is recognised it
    raises ValueError.  Otherwise it returns the parsed steps, one per
    distinct ordinal.  A path that names a directory passes the existence
    test and the IsADirectoryError of [open] is the outcome. *)
Theorem load_fails_in_two_cases (f : gmap string node) (file_path : string) :
  (f !! file_path = None →
     ∃ available,
       GuideLoader.load f file_path
       = Raise (FileNotFoundError
                  ("Guide file not found: " +:+ file_path +:+ Py.nl +:+
                   "Available guides: " +:+
                   match available with
                   | [] => "none"
                   | _ => Py.join ", " available
                   end))
       ∧ ∀ name,
           name ∈ available
           ↔ f !! Spec.directory_of file_path = Some Dir
             ∧ Py.endswith name "_guide.txt" = true
             ∧ name ≠ ""
             ∧ ∃ p, is_Some (f !! p)
                    ∧ os.parent p = Spec.directory_of file_path
                    ∧ os.path_basename p = name)
  ∧ (∀ content,
       f !! file_path = Some (File content) →
       (Spec.recognized content = [] →
          GuideLoader.load f file_path
          = Raise (ValueError
                     ("No valid steps found in " +:+ file_path +:+ Py.nl +:+
                      "Expected format: 'Step N: [description]'")))
       ∧ (Spec.recognized content ≠ [] →
          ∃ steps, GuideLoader.load f file_path = Ok steps
                   ∧ length steps
                     = length (remove_dups (Spec.recognized content).*1)))
  ∧ (f !! file_path = Some Dir →
       GuideLoader.load f file_path = Raise (IsADirectoryError file_path)).
Proof.
  split_and!.
  - intros Hf. exists (GuideLoader._list_available_guides f file_path). split.
    + unfold GuideLoader.load, os.path_exists. by rewrite Hf.
    + intros name. apply elem_of_available.
  - intros content Hf. rewrite (load_file _ _ _ Hf). cbv zeta. split.
    + intros ->. simpl. by rewrite decide_True by done.
    + intros Hne.
      set (d := foldl _ ∅ (Spec.recognized content)).
      rewrite decide_False by (unfold d; by rewrite foldl_insert_empty).
      eexists. split; [done |]. rewrite length_fmap.
      apply Permutation_length, NoDup_Permutation.
      * apply sorted_keys_NoDup.
      * apply NoDup_remove_dups.
      * intros k. rewrite elem_of_remove_dups.
        apply elem_of_sorted_keys_recognized.
  - intros Hf. unfold GuideLoader.load, os.path_exists, os.read_file.
    by rewrite Hf.
Qed.

Lemma load_fails_in_two_cases_witness :
  GuideLoader.load Examples.files "guides/missing.txt"
  = Raise (FileNotFoundError
             ("Guide file not found: guides/missing.txt" +:+ Py.nl +:+
              "Available guides: test_guide.txt"))
  ∧ GuideLoader.load Examples.files "notes.txt"
    = Raise (ValueError
               ("No valid steps found in notes.txt" +:+ Py.nl +:+
                "Expected format: 'Step N: [description]'"))
  ∧ GuideLoader.load Examples.files "guides"
    = Raise (IsADirectoryError "guides").
Proof.
  pose proof (load_fails_in_two_cases Examples.files "notes.txt")
    as (_ & Hfile & _).
  pose proof (load_fails_in_two_cases Examples.files "guides")
    as (_ & _ & Hdir).
  split; [vm_compute; reflexivity |]. split.
  - apply (proj1 (Hfile ("These are notes" +:+ Py.nl) eq_refl)).
    vm_compute. reflexivity.
  - apply Hdir. vm_compute. reflexivity.
Defined.

Import Codec.

(** ** The JSON codec *)

Lemma escape_shape_ok_all (c : ascii) : escape_shape_ok c = true.
Proof. destruct c as [[] [] [] [] [] [] [] []]; vm_compute; reflexivity. Qed.

Lemma escape_char_cases (c : ascii) :
  (json.escape_char c = String c "" ∧ plain c)
  ∨ (∃ e, json.escape_char c = String json.backslash (String e "")
          ∧ Ascii.eqb e "u" = false ∧ json.unescape e = Some c)
  ∨ (∃ h3 h4,
       json.escape_char c
       = String json.backslash (String "u" (String "0" (String "0"
           (String h3 (String h4 "")))))
       ∧ json.decode_uXXXX "0" "0" h3 h4 = Some c).
Proof.
  pose proof (escape_shape_ok_all c) as H. unfold escape_shape_ok in H.
  destruct (json.escape_char c) as [|a [|e [|z1 [|z2 [|h3 [|h4 [|]]]]]]];
    try discriminate H.
  - left. apply andb_prop in H as [[[Ha Hq]%andb_prop Hb]%andb_prop Hc].
    apply Ascii.eqb_eq in Ha as ->. unfold plain.
    by rewrite !negb_true_iff in *.
  - right. left. exists e.
    apply andb_prop in H as [[Ha Hu]%andb_prop He].
    apply Ascii.eqb_eq in Ha as ->. apply negb_true_iff in Hu.
    destruct (json.unescape e) as [c'|]; [| discriminate He].
    by apply Ascii.eqb_eq in He as ->.
  - right. right. exists h3, h4.
    apply andb_prop in H as [[[[Ha Hu]%andb_prop Hz1]%andb_prop Hz2]%andb_prop Hd].
    apply Ascii.eqb_eq in Ha as ->. apply Ascii.eqb_eq in Hu as ->.
    apply Ascii.eqb_eq in Hz1 as ->. apply Ascii.eqb_eq in Hz2 as ->.
    destruct (json.decode_uXXXX "0" "0" h3 h4) as [c'|]; [| discriminate Hd].
    by apply Ascii.eqb_eq in Hd as ->.
Qed.

Lemma scanstring_cons (c : ascii) (r : string) :
  json.scanstring (String c r)
  = if Ascii.eqb c json.quote then Some ("", r)
    else if Ascii.eqb c json.backslash then
      match r with
      | "" => None
      | String e r1 =>
          if Ascii.eqb e "u" then
            match r1 with
            | String h1 (String h2 (String h3 (String h4 r2))) =>
                match json.decode_uXXXX h1 h2 h3 h4 with
                | Some ch =>
                    match json.scanstring r2 with
                    | Some (t, rest) => Some (String ch t, rest)
                    | None => None
                    end
                | None => None
                end
            | _ => None
            end
          else
            match json.unescape e with
            | Some ch =>
                match json.scanstring r1 with
                | Some (t, rest) => Some (String ch t, rest)
                | None => None
                end
            | None => None
            end
      end
    else if (N_of_ascii c <? 32)%N then None
    else
      match json.scanstring r with
      | Some (t, rest) => Some (String c t, rest)
      | None => None
      end.
Proof. reflexivity. Qed.

Lemma scanstring_escape (s rest : string) :
  json.scanstring (json.escape s +:+ String json.quote rest) = Some (s, rest).
Proof.
  induction s as [|c s IH]; [done |].
  cbn [json.escape]. rewrite string_app_assoc.
  destruct (escape_char_cases c)
    as [[-> (Hq & Hb & Hc)]|[(e & -> & Hu & He)|(h3 & h4 & -> & Hd)]].
  - rewrite !string_app_cons, string_app_nil_l, scanstring_cons.
    by rewrite Hq, Hb, Hc, IH.
  - rewrite !string_app_cons, string_app_nil_l, scanstring_cons.
    change (Ascii.eqb json.backslash json.quote) with false.
    change (Ascii.eqb json.backslash json.backslash) with true.
    cbv iota. by rewrite Hu, He, IH.
  - rewrite !string_app_cons, string_app_nil_l, scanstring_cons.
    change (Ascii.eqb json.backslash json.quote) with false.
    change (Ascii.eqb json.backslash json.backslash) with true.
    change (Ascii.eqb "u" "u") with true.
    cbv iota. by rewrite Hd, IH.
Qed.

(** *** White space *)

Lemma skip_ws_nonws (c : ascii) (t : string) :
  json.is_ws c = false → json.skip_ws (String c t) = String c t.
Proof. intros H. simpl. by rewrite H. Qed.

Lemma skip_ws_spaces (n : nat) (t : string) :
  json.skip_ws (json.spaces n +:+ t) = json.skip_ws t.
Proof.
  induction n as [|n IH]; [done |].
  cbn [json.spaces]. rewrite string_app_cons. exact IH.
Qed.

Lemma skip_ws_newline_indent (level : nat) (t : string) :
  json.skip_ws (json.newline_indent level +:+ t) = json.skip_ws t.
Proof.
  unfold json.newline_indent. rewrite string_app_cons.
  exact (skip_ws_spaces _ _).
Qed.

(** *** Strings *)

Lemma scan_once_cons (fuel : nat) (c : ascii) (r : string) :
  json.scan_once (S fuel) (String c r)
  = if Ascii.eqb c json.quote then
      match json.scanstring r with
      | Some (str, rest) => Some (json.JString str, rest)
      | None => None
      end
    else if Ascii.eqb c "{" then
      match json.JSONObject (json.scan_once fuel) fuel r with
      | Some (pairs, rest) => Some (json.JObject pairs, rest)
      | None => None
      end
    else if Ascii.eqb c "[" then
      match json.JSONArray (json.scan_once fuel) fuel r with
      | Some (items, rest) => Some (json.JArray items, rest)
      | None => None
      end
    else if Py.startswith (String c r) "null"
    then Some (json.JNull, Py.drop 4 (String c r))
    else if Py.startswith (String c r) "true"
    then Some (json.JBool true, Py.drop 4 (String c r))
    else if Py.startswith (String c r) "false"
    then Some (json.JBool false, Py.drop 5 (String c r))
    else
      match json.scan_number (String c r) with
      | Some vr => Some vr
      | None =>
          if Py.startswith (String c r) "NaN"
          then Some (json.JFloat "NaN", Py.drop 3 (String c r))
          else if Py.startswith (String c r) "Infinity"
          then Some (json.JFloat "Infinity", Py.drop 8 (String c r))
          else if Py.startswith (String c r) "-Infinity"
          then Some (json.JFloat "-Infinity", Py.drop 9 (String c r))
          else None
      end.
Proof. reflexivity. Qed.

Lemma scan_once_string (fuel : nat) (s rest : string) :
  json.scan_once (S fuel) (json.encode_string s +:+ rest)
  = Some (json.JString s, rest).
Proof.
  unfold json.encode_string.
  rewrite string_app_cons, string_app_assoc, string_app_cons, string_app_nil_l.
  rewrite scan_once_cons.
  change (Ascii.eqb json.quote json.quote) with true. cbv iota.
  by rewrite scanstring_escape.
Qed.

(** *** Integers *)

Lemma digits_string_of_uint (d : Decimal.uint) (rest : string) :
  ends_number rest →
  json.digits (NilEmpty.string_of_uint d +:+ rest)
  = (NilEmpty.string_of_uint d, rest).
Proof.
  intros Hrest. induction d as [|d IH|d IH|d IH|d IH|d IH|d IH|d IH|d IH|d IH|d IH];
    cbn [NilEmpty.string_of_uint];
    rewrite ?string_app_cons, ?string_app_nil_l;
    try (cbn [json.digits Py.isdigit]; by rewrite IH).
  destruct rest as [|c rest]; [done |]. destruct Hrest as [Hd _].
  cbn [json.digits]. by rewrite Hd.
Qed.

Lemma to_uint_head (p : positive) :
  ∃ c s, NilEmpty.string_of_uint (Pos.to_uint p) = String c s
         ∧ json.is_nonzero_digit c = true.
Proof.
  assert (Hnorm : Decimal.unorm (Pos.to_uint p) = Pos.to_uint p).
  { rewrite <- (DecimalPos.Unsigned.to_of (Pos.to_uint p)).
    by rewrite DecimalPos.Unsigned.of_to. }
  pose proof (DecimalPos.Unsigned.to_uint_nonzero p) as Hnz.
  pose proof (DecimalPos.Unsigned.to_uint_nonnil p) as Hnn.
  destruct (Pos.to_uint p) as [|d|d|d|d|d|d|d|d|d|d] eqn:Hp;
    [done | | eexists _, _; split; reflexivity ..].
  exfalso. rewrite DecimalFacts.unorm_D0 in Hnorm.
  unfold Decimal.unorm in Hnorm.
  destruct (Decimal.nzhead d) eqn:Hh; try discriminate Hnorm.
  - injection Hnorm as <-. by apply Hnz.
  - by apply (DecimalFacts.nzhead_nonzero d u).
Qed.

Lemma int_of_digits_to_uint (p : positive) :
  Py.int_of_digits (NilEmpty.string_of_uint (Pos.to_uint p)) = Npos p.
Proof.
  unfold Py.int_of_digits.
  pose proof (DecimalPos.Unsigned.to_uint_nonnil p) as Hnn.
  pose proof (NilZero.usu _ Hnn) as Husu.
  replace (NilZero.string_of_uint (Pos.to_uint p))
    with (NilEmpty.string_of_uint (Pos.to_uint p)) in Husu
    by (by destruct (Pos.to_uint p)).
  rewrite Husu. apply DecimalPos.Unsigned.of_to.
Qed.

Lemma scan_frac_none (rest : string) :
  ends_number rest → json.scan_frac rest = ("", rest).
Proof.
  destruct rest as [|c rest]; [done |]. intros (_ & Hdot & _).
  unfold json.scan_frac. by rewrite Hdot.
Qed.

Lemma scan_exp_none (rest : string) :
  ends_number rest → json.scan_exp rest = ("", rest).
Proof.
  destruct rest as [|c rest]; [done |]. intros (_ & _ & He & HE).
  unfold json.scan_exp. by rewrite He, HE.
Qed.

Lemma digit_not_minus (c : ascii) :
  Py.isdigit c = true → Ascii.eqb c "-" = false.
Proof. destruct c as [[] [] [] [] [] [] [] []]; by vm_compute. Qed.

Lemma nonzero_digit_facts (c : ascii) :
  json.is_nonzero_digit c = true →
  Py.isdigit c = true ∧ Ascii.eqb c "0" = false.
Proof.
  unfold json.is_nonzero_digit. intros [? ?%negb_true_iff]%andb_prop. done.
Qed.

Lemma scan_integer_pos (p : positive) (rest : string) :
  ends_number rest →
  json.scan_integer (NilEmpty.string_of_uint (Pos.to_uint p) +:+ rest)
  = Some (false, NilEmpty.string_of_uint (Pos.to_uint p), rest).
Proof.
  intros Hrest. pose proof (digits_string_of_uint (Pos.to_uint p) rest Hrest) as Hd.
  destruct (to_uint_head p) as (c & s & Hs & Hc). rewrite Hs in *.
  rewrite string_app_cons in *.
  destruct (nonzero_digit_facts c Hc) as [Hdig Hz].
  unfold json.scan_integer.
  rewrite (digit_not_minus c Hdig), Hz, Hc, Hd. done.
Qed.

Lemma scan_integer_neg (p : positive) (rest : string) :
  ends_number rest →
  json.scan_integer
    (String "-" (NilEmpty.string_of_uint (Pos.to_uint p) +:+ rest))
  = Some (true, NilEmpty.string_of_uint (Pos.to_uint p), rest).
Proof.
  intros Hrest. pose proof (digits_string_of_uint (Pos.to_uint p) rest Hrest) as Hd.
  destruct (to_uint_head p) as (c & s & Hs & Hc). rewrite Hs in *.
  rewrite string_app_cons in *.
  destruct (nonzero_digit_facts c Hc) as [Hdig Hz].
  unfold json.scan_integer.
  change (Ascii.eqb "-" "-") with true. cbv iota.
  rewrite Hz, Hc, Hd. done.
Qed.

Lemma scan_number_int (z : Z) (rest : string) :
  ends_number rest →
  json.scan_number (Py.str z +:+ rest) = Some (json.JInt z, rest).
Proof.
  intros Hrest. unfold Py.str, json.scan_number.
  destruct z as [|p|p]; cbn [Z.to_int NilZero.string_of_int].
  - change (NilZero.string_of_uint Decimal.zero) with "0".
    rewrite string_app_cons, string_app_nil_l.
    change (json.scan_integer (String "0" rest)) with (Some (false, "0", rest)).
    cbv iota. by rewrite (scan_frac_none _ Hrest), (scan_exp_none _ Hrest).
  - replace (NilZero.string_of_uint (Pos.to_uint p))
      with (NilEmpty.string_of_uint (Pos.to_uint p))
      by (by destruct (Pos.to_uint p) eqn:E;
            [destruct (DecimalPos.Unsigned.to_uint_nonnil p) |..]).
    rewrite (scan_integer_pos _ _ Hrest).
    rewrite (scan_frac_none _ Hrest), (scan_exp_none _ Hrest).
    cbn [String.eqb andb]. by rewrite int_of_digits_to_uint.
  - replace (NilZero.string_of_uint (Pos.to_uint p))
      with (NilEmpty.string_of_uint (Pos.to_uint p))
      by (by destruct (Pos.to_uint p) eqn:E;
            [destruct (DecimalPos.Unsigned.to_uint_nonnil p) |..]).
    rewrite string_app_cons, (scan_integer_neg _ _ Hrest).
    rewrite (scan_frac_none _ Hrest), (scan_exp_none _ Hrest).
    cbn [String.eqb andb]. by rewrite int_of_digits_to_uint.
Qed.

Lemma number_head_ok_all (c : ascii) : number_head_ok c = true.
Proof. destruct c as [[] [] [] [] [] [] [] []]; vm_compute; reflexivity. Qed.

Lemma str_head (z : Z) :
  ∃ c s, Py.str z = String c s ∧ number_head c = true.
Proof.
  unfold Py.str. destruct z as [|p|p]; cbn [Z.to_int NilZero.string_of_int].
  - by eexists _, _.
  - destruct (to_uint_head p) as (c & s & Hs & Hc).
    exists c, s. split.
    + rewrite <- Hs. by destruct (Pos.to_uint p).
    + unfold number_head. by rewrite (proj1 (nonzero_digit_facts c Hc)).
  - by eexists _, _.
Qed.

Lemma scan_once_int (fuel : nat) (z : Z) (rest : string) :
  ends_number rest →
  json.scan_once (S fuel) (Py.str z +:+ rest) = Some (json.JInt z, rest).
Proof.
  intros Hrest. pose proof (scan_number_int z rest Hrest) as Hnum.
  destruct (str_head z) as (c & s & Hs & Hc). rewrite Hs in *.
  rewrite string_app_cons in *. rewrite scan_once_cons, Hnum.
  pose proof (number_head_ok_all c) as Hok. unfold number_head_ok in Hok.
  rewrite Hc in Hok. cbn [implb] in Hok.
  repeat (apply andb_prop in Hok as [Hok ?%negb_true_iff]).
  apply negb_true_iff in Hok.
  cbn [Py.startswith]. by repeat match goal with H : _ = false |- _ => rewrite H; clear H end.
Qed.

(** *** Arrays and objects *)

Lemma separated_ends_number (rest : string) :
  separated rest → ends_number rest.
Proof. destruct rest as [|c rest]; [done |]. by intros [-> | ->]. Qed.

Lemma separated_comma (t : string) : separated ("," +:+ t).
Proof. by left. Qed.

Lemma separated_comma_cons (t : string) : separated (String "," t).
Proof. by left. Qed.

Lemma separated_newline_indent (level : nat) (t : string) :
  separated (json.newline_indent level +:+ t).
Proof. by right. Qed.

Lemma skip_ws_parses scan v text rest :
  parses scan v text → json.skip_ws (text +:+ rest) = text +:+ rest.
Proof.
  intros [_ (c & t & -> & Hc)]. rewrite string_app_cons.
  by apply skip_ws_nonws.
Qed.

Lemma join_cons_cons (sep x y : string) (l : list string) :
  Py.join sep (x :: y :: l) = x +:+ sep +:+ Py.join sep (y :: l).
Proof. reflexivity. Qed.

Lemma array_items_parses scan level fuel vs texts rest :
  Forall2 (parses scan) vs texts → vs ≠ [] → (length vs ≤ fuel)%nat →
  json.array_items scan fuel
    (Py.join ("," +:+ json.newline_indent (S level)) texts +:+
     json.newline_indent level +:+ "]" +:+ rest)
  = Some (vs, rest).
Proof.
  intros Hall. revert fuel.
  induction Hall as [|v text vs texts Hv Hall IH]; intros fuel Hne Hfuel;
    [done |].
  destruct fuel as [|fuel]; [simpl in Hfuel; lia |].
  cbn [json.array_items].
  destruct Hall as [|v' text' vs' texts' Hv' Hall'].
  - change (Py.join _ [text]) with text.
    rewrite (proj1 Hv _ (separated_newline_indent _ _)).
    rewrite skip_ws_newline_indent.
    by rewrite string_app_cons, string_app_nil_l.
  - rewrite join_cons_cons, !string_app_assoc.
    rewrite (proj1 Hv _ (separated_comma _)).
    rewrite !string_app_cons, string_app_nil_l.
    rewrite skip_ws_nonws by done.
    change (Ascii.eqb "," "]") with false.
    change (Ascii.eqb "," ",") with true. cbv iota.
    rewrite skip_ws_newline_indent.
    assert (Hskip : ∀ r, json.skip_ws (Py.join ("," +:+ json.newline_indent (S level)) (text' :: texts') +:+ r)
                         = Py.join ("," +:+ json.newline_indent (S level)) (text' :: texts') +:+ r).
    { intros r. destruct Hv' as [_ (c & t & -> & Hc)].
      destruct texts'; [change (Py.join _ [String c t]) with (String c t)
                       | rewrite join_cons_cons];
        rewrite !string_app_cons; by apply skip_ws_nonws. }
    rewrite Hskip.
    rewrite <- !string_app_assoc. rewrite !string_app_assoc.
    setoid_rewrite IH; [done | done | simpl in *; lia].
Qed.

Lemma object_pairs_parses scan level fuel
    (pairs : list (string * json.value)) (texts : list string) rest :
  Forall2 (parses scan) pairs.*2 texts → pairs ≠ [] →
  (length pairs ≤ fuel)%nat →
  json.object_pairs scan fuel
    (Py.join ("," +:+ json.newline_indent (S level))
       (zip_with member_text pairs.*1 texts) +:+
     json.newline_indent level +:+ "}" +:+ rest)
  = Some (pairs, rest).
Proof.
  set (sep := "," +:+ json.newline_indent (S level)).
  assert (Hsep : ∀ r, sep +:+ r = String "," (json.newline_indent (S level) +:+ r)).
  { intros r. unfold sep. by rewrite string_app_assoc. }
  clearbody sep.
  revert texts fuel.
  induction pairs as [|[k v] pairs IH]; intros texts fuel Hall Hne Hfuel;
    [done |].
  destruct fuel as [|fuel]; [simpl in Hfuel; lia |].
  cbn [fmap list_fmap fst snd] in Hall.
  apply Forall2_cons_inv_l in Hall as (text & texts' & Hv & Hall & ->).
  cbn [fmap list_fmap fst snd zip_with].
  assert (Hmember : ∀ r,
    json.object_pairs scan (S fuel) (member_text k text +:+ r)
    = match scan (text +:+ r) with
      | Some (v, r2) =>
          match json.skip_ws r2 with
          | String d r3 =>
              if Ascii.eqb d "}" then Some ([(k, v)], r3)
              else if Ascii.eqb d "," then
                match json.object_pairs scan fuel (json.skip_ws r3) with
                | Some (kvs, rest) => Some ((k, v) :: kvs, rest)
                | None => None
                end
              else None
          | "" => None
          end
      | None => None
      end).
  { intros r. unfold member_text, json.encode_string.
    rewrite !string_app_assoc, !string_app_cons, !string_app_assoc.
    rewrite !string_app_cons, !string_app_nil_l.
    cbn [json.object_pairs].
    change (Ascii.eqb json.quote json.quote) with true. cbv iota.
    rewrite scanstring_escape.
    rewrite skip_ws_nonws by done.
    change (Ascii.eqb ":" ":") with true. cbv iota.
    change (json.skip_ws (String " " (text +:+ r)))
      with (json.skip_ws (text +:+ r)).
    by rewrite (skip_ws_parses _ _ _ _ Hv). }
  destruct pairs as [|[k' v'] pairs'].
  - apply Forall2_nil_inv_l in Hall as ->.
    change (Py.join sep [member_text k text]) with (member_text k text).
    rewrite Hmember.
    rewrite (proj1 Hv _ (separated_newline_indent _ _)).
    rewrite skip_ws_newline_indent.
    by rewrite string_app_cons, string_app_nil_l.
  - cbn [fmap list_fmap fst snd] in Hall.
    pose proof Hall as Hall'.
    apply Forall2_cons_inv_l in Hall' as (text' & texts'' & Hv' & _ & ->).
    cbn [fmap list_fmap fst snd zip_with].
    rewrite join_cons_cons, !string_app_assoc.
    rewrite Hmember, Hsep.
    rewrite (proj1 Hv _ (separated_comma_cons _)).
    rewrite skip_ws_nonws by done.
    change (Ascii.eqb "," "}") with false.
    change (Ascii.eqb "," ",") with true. cbv iota.
    rewrite skip_ws_newline_indent.
    assert (Hskip : ∀ r,
      json.skip_ws (Py.join sep
                      (member_text k' text' :: zip_with member_text pairs'.*1 texts'') +:+ r)
      = Py.join sep
          (member_text k' text' :: zip_with member_text pairs'.*1 texts'') +:+ r).
    { intros r.
      destruct (zip_with member_text pairs'.*1 texts'');
        [change (Py.join sep [member_text k' text']) with (member_text k' text')
        | rewrite join_cons_cons];
        unfold member_text, json.encode_string;
        rewrite !string_app_cons; by apply skip_ws_nonws. }
    rewrite Hskip.
    specialize (IH (text' :: texts'') fuel Hall).
    cbn [fmap list_fmap fst snd zip_with] in IH.
    rewrite IH; [done | done | simpl in *; lia].
Qed.

(** *** The values of a checkpoint document *)

Lemma parses_string (fuel : nat) (s : string) :
  parses (json.scan_once (S fuel)) (json.JString s) (json.encode_string s).
Proof.
  split.
  - intros rest _. apply scan_once_string.
  - by eexists _, _.
Qed.

Lemma parses_int (fuel : nat) (z : Z) :
  parses (json.scan_once (S fuel)) (json.JInt z) (Py.str z).
Proof.
  split.
  - intros rest Hrest. by apply scan_once_int, separated_ends_number.
  - destruct (str_head z) as (c & s & Hs & Hc). exists c, s. split; [done |].
    pose proof (number_head_ok_all c) as Hok. unfold number_head_ok in Hok.
    rewrite Hc in Hok. cbn [implb] in Hok.
    by apply andb_prop in Hok as [_ ?%negb_true_iff].
Qed.

Lemma encode_strings (level : nat) (l : list string) :
  map (json.encode level) (json.JString <$> l) = json.encode_string <$> l.
Proof.
  induction l as [|x l IH]; [done |].
  cbn [fmap list_fmap map] in *. by f_equal.
Qed.

Lemma parses_string_array (fuel level : nat) (l : list string) :
  (length l ≤ S fuel)%nat →
  parses (json.scan_once (S (S fuel))) (json.JArray (json.JString <$> l))
    (json.encode level (json.JArray (json.JString <$> l))).
Proof.
  intros Hfuel. split.
  - intros rest _. destruct l as [|x l].
    + reflexivity.
    + cbn [fmap list_fmap json.encode].
      pose proof (encode_strings (S level) (x :: l)) as Henc.
      cbn [fmap list_fmap] in Henc. rewrite Henc. clear Henc.
      rewrite !string_app_assoc, string_app_cons, string_app_nil_l.
      rewrite scan_once_cons.
      change (Ascii.eqb "[" json.quote) with false.
      change (Ascii.eqb "[" "{") with false.
      change (Ascii.eqb "[" "[") with true. cbv iota.
      unfold json.JSONArray. rewrite skip_ws_newline_indent.
      cbn [fmap list_fmap].
      assert (Hskip : ∀ r,
        json.skip_ws
          (Py.join ("," +:+ json.newline_indent (S level))
             (json.encode_string x :: (json.encode_string <$> l)) +:+ r)
        = Py.join ("," +:+ json.newline_indent (S level))
            (json.encode_string x :: (json.encode_string <$> l)) +:+ r).
      { intros r. destruct (json.encode_string <$> l);
          [change (Py.join _ [json.encode_string x]) with (json.encode_string x)
          | rewrite join_cons_cons];
          unfold json.encode_string; rewrite !string_app_cons;
          by apply skip_ws_nonws. }
      rewrite Hskip.
      assert (Hhead : ∃ t,
        Py.join ("," +:+ json.newline_indent (S level))
          (json.encode_string x :: (json.encode_string <$> l)) +:+
        json.newline_indent level +:+ "]" +:+ rest = String json.quote t).
      { destruct (json.encode_string <$> l);
          [change (Py.join _ [json.encode_string x]) with (json.encode_string x)
          | rewrite join_cons_cons];
          unfold json.encode_string; rewrite !string_app_cons; by eexists. }
      destruct Hhead as [t Ht].
      assert (Hall : Forall2 (parses (json.scan_once (S fuel)))
                       (json.JString <$> x :: l) (json.encode_string <$> x :: l)).
      { apply Forall2_fmap, Forall_Forall2_diag, Forall_forall.
        intros s _. apply parses_string. }
      pose proof (array_items_parses (json.scan_once (S fuel)) level (S fuel)
                    (json.JString <$> x :: l) (json.encode_string <$> x :: l) rest
                    Hall)
        as Hitems.
      cbn [fmap list_fmap] in Hitems. rewrite Ht in *.
      change (Ascii.eqb json.quote "]") with false. cbv iota.
      rewrite Hitems; [done | done |].
      cbn [length] in *. rewrite length_fmap. lia.
  - destruct l; by eexists _, _.
Qed.

(** *** The checkpoint document *)

Lemma dumps_to_dict (c : Checkpoint.t) :
  json.dumps (Checkpoint.to_dict c)
  = "{" +:+ json.newline_indent 1 +:+
    Py.join ("," +:+ json.newline_indent 1)
      (zip_with member_text (checkpoint_pairs c).*1 (checkpoint_texts c)) +:+
    json.newline_indent 0 +:+ "}" +:+ "".
Proof. reflexivity. Qed.

Lemma join_length_ge (sep : string) (texts : list string) :
  Forall (λ t, 1 ≤ String.length t)%nat texts →
  (length texts ≤ String.length (Py.join sep texts))%nat.
Proof.
  induction 1 as [|t texts Ht Hall IH]; [done |].
  destruct texts as [|t' texts].
  - change (Py.join sep [t]) with t. simpl. lia.
  - rewrite join_cons_cons, !string_length_app. cbn [length] in *. lia.
Qed.

Lemma encode_string_length (s : string) :
  (1 ≤ String.length (json.encode_string s))%nat.
Proof. unfold json.encode_string. simpl. lia. Qed.

Lemma string_array_length (level : nat) (l : list string) :
  (length l ≤ String.length
                (json.encode level (json.JArray (json.JString <$> l))))%nat.
Proof.
  destruct l as [|x l]; [simpl; lia |].
  cbn [fmap list_fmap json.encode].
  pose proof (encode_strings (S level) (x :: l)) as Henc.
  cbn [fmap list_fmap] in Henc. rewrite Henc. clear Henc.
  rewrite !string_length_app.
  pose proof (join_length_ge ("," +:+ json.newline_indent (S level))
                (json.encode_string <$> x :: l)) as Hlen.
  cbn [fmap list_fmap] in Hlen. rewrite length_cons, length_fmap in Hlen.
  cbn [length]. 
  assert (Hall : Forall (λ t : string, (1 ≤ String.length t)%nat)
            (json.encode_string x :: (json.encode_string <$> l))).
  { constructor; [apply encode_string_length |].
    apply Forall_fmap, Forall_forall. intros s _. apply encode_string_length. }
  specialize (Hlen Hall). lia.
Qed.

Lemma dumps_length (c : Checkpoint.t) :
  (length (Checkpoint.step_outputs c) + 6
   ≤ String.length (json.dumps (Checkpoint.to_dict c)))%nat.
Proof.
  rewrite dumps_to_dict. unfold checkpoint_pairs, checkpoint_texts.
  cbn [Checkpoint.to_dict fmap list_fmap fst zip_with].
  rewrite !join_cons_cons. unfold member_text.
  change (Py.join ?s [?x]) with x.
  rewrite !string_length_app.
  pose proof (string_array_length 1 (Checkpoint.step_outputs c)).
  pose proof (encode_string_length "guide_file").
  pose proof (encode_string_length "spec").
  pose proof (encode_string_length "completed_steps").
  pose proof (encode_string_length "cumulative_output").
  pose proof (encode_string_length "step_outputs").
  pose proof (encode_string_length "timestamp").
  lia.
Qed.

Lemma checkpoint_values_parse (fuel : nat) (c : Checkpoint.t) :
  (length (Checkpoint.step_outputs c) ≤ S fuel)%nat →
  Forall2 (parses (json.scan_once (S (S fuel))))
    (checkpoint_pairs c).*2 (checkpoint_texts c).
Proof.
  intros Hfuel. unfold checkpoint_pairs, checkpoint_texts.
  cbn [Checkpoint.to_dict fmap list_fmap snd].
  repeat (constructor;
            [first [apply parses_string | apply parses_int
                   | by apply parses_string_array] |]).
  constructor.
Qed.

Lemma loads_dumps (c : Checkpoint.t) :
  json.loads (json.dumps (Checkpoint.to_dict c)) = Ok (Checkpoint.to_dict c).
Proof.
  unfold json.loads. pose proof (dumps_length c) as Hlen.
  destruct (String.length (json.dumps (Checkpoint.to_dict c)))
    as [|[|fuel]] eqn:Hfuel; [lia | lia |].
  clear Hfuel. rewrite dumps_to_dict.
  rewrite string_app_cons, string_app_nil_l.
  rewrite skip_ws_nonws by done. rewrite scan_once_cons.
  change (Ascii.eqb "{" json.quote) with false.
  change (Ascii.eqb "{" "{") with true. cbv iota.
  unfold json.JSONObject. rewrite skip_ws_newline_indent.
  pose proof (object_pairs_parses (json.scan_once (S (S fuel))) 0 (S (S fuel))
                (checkpoint_pairs c) (checkpoint_texts c) "") as Hobj.
  assert (Hhead : ∃ t,
    Py.join ("," +:+ json.newline_indent 1)
      (zip_with member_text (checkpoint_pairs c).*1 (checkpoint_texts c)) +:+
    json.newline_indent 0 +:+ "}" +:+ "" = String json.quote t).
  { by eexists. }
  destruct Hhead as [t Ht]. rewrite Ht in *.
  rewrite skip_ws_nonws by done.
  change (Ascii.eqb json.quote "}") with false. cbv iota.
  rewrite Hobj.
  - done.
  - apply checkpoint_values_parse. lia.
  - done.
  - simpl. lia.
Qed.

Lemma as_str_items_strings (l : list string) :
  Checkpoint.as_str_items (json.JString <$> l) = Ok l.
Proof.
  induction l as [|x l IH]; [done |].
  cbn [fmap list_fmap Checkpoint.as_str_items Checkpoint.as_str] in *.
  by rewrite IH.
Qed.

Lemma from_dict_to_dict (c : Checkpoint.t) :
  Checkpoint.from_dict (Checkpoint.to_dict c) = Ok c.
Proof.
  destruct c as [g sp n co outs ts].
  unfold Checkpoint.from_dict, Checkpoint.to_dict, Checkpoint.getitem.
  cbn -[Checkpoint.as_str_items].
  by rewrite as_str_items_strings.
Qed.

Lemma load_after_save (c : Checkpoint.t) (path : string) (w : World) :
  fs w !! path ≠ Some Dir →
  ∃ w', Checkpoint.save c path w = (Ok tt, w')
        ∧ fs w' = <[path := File (json.dumps (Checkpoint.to_dict c))]> (fs w)
        ∧ calls w' = calls w ∧ clock w' = clock w
        ∧ Checkpoint.load (fs w') path = Ok c.
Proof.
  intros Hdir. unfold Checkpoint.save, os.write_file.
  eexists. split_and!.
  - destruct (fs w !! path) as [[]|]; done.
  - done.
  - done.
  - done.
  - cbn [fs set_fs]. unfold Checkpoint.load, os.read_file.
    rewrite lookup_insert_eq. cbn [Checkpoint.bind_result].
    rewrite loads_dumps. cbn [Checkpoint.bind_result].
    apply from_dict_to_dict.
Qed.


(** C2. For every checkpoint, also one with no step outputs and a count
    of zero, and every path that can be written (no directory stands in its
    place), saving the checkpoint succeeds and loading the file just
    written returns a checkpoint equal to the saved one in every field:
    guide file, specification, count of completed steps, cumulative output,
    the ordered list of step outputs and the timestamp. *)
Theorem checkpoint_round_trip
    (c : Checkpoint.t) (path : string) (w : World) :
  fs w !! path ≠ Some Dir →
  let out := Checkpoint.save c path w in
  out.1 = Ok tt
  ∧ Checkpoint.load (fs out.2) path = Ok c
  ∧ ∀ loaded, Checkpoint.load (fs out.2) path = Ok loaded →
      Checkpoint.guide_file loaded = Checkpoint.guide_file c
      ∧ Checkpoint.spec loaded = Checkpoint.spec c
      ∧ Checkpoint.completed_steps loaded = Checkpoint.completed_steps c
      ∧ Checkpoint.cumulative_output loaded = Checkpoint.cumulative_output c
      ∧ Checkpoint.step_outputs loaded = Checkpoint.step_outputs c
      ∧ Checkpoint.timestamp loaded = Checkpoint.timestamp c.
Proof.
  intros Hdir. cbv zeta.
  destruct (load_after_save c path w Hdir) as (w' & -> & _ & _ & _ & Hload).
  cbn [fst snd]. split; [done |]. split; [done |].
  intros loaded Hl. rewrite Hload in Hl. by injection Hl as <-.
Qed.

Lemma checkpoint_round_trip_witness :
  let empty :=
    {| Checkpoint.guide_file := "guide.txt";
       Checkpoint.spec := "Build a REST API";
       Checkpoint.completed_steps := 0;
       Checkpoint.cumulative_output := "";
       Checkpoint.step_outputs := [];
       Checkpoint.timestamp := "2024-01-01T00:00:00" |} in
  Checkpoint.load
    (fs (Checkpoint.save empty "checkpoint.json" Examples.world).2)
    "checkpoint.json"
  = Ok empty.
Proof.
  intros empty.
  apply (checkpoint_round_trip empty "checkpoint.json" Examples.world).
  vm_compute. discriminate.
Defined.

(** ** Computations that only talk to the generation endpoint *)

Lemma generation_only_ret {A} (a : A) : Spec.generation_only (mret a).
Proof.
  intros w. cbn. split_and!; [done | done | | done].
  exists []. by rewrite app_nil_r.
Qed.

Lemma generation_only_query (env : Env) (r : OllamaRequest.t) :
  Spec.generation_only (OllamaClient.query env r).
Proof.
  intros w. unfold OllamaClient.query. cbn.
  split_and!; [done | done | by eexists |].
  intros w2 Hc. by rewrite Hc.
Qed.

Lemma generation_only_bind {A B} (m : M World A) (f : A → M World B) :
  Spec.generation_only m → (∀ a, Spec.generation_only (f a)) →
  Spec.generation_only (m ≫= f).
Proof.
  intros Hm Hf w. rewrite mbind_unfold.
  destruct (Hm w) as (Hfs & Hclock & [more Hcalls] & Hdet).
  destruct (m w) as [[a|e] w1] eqn:Hmw; cbn [fst snd] in *.
  - destruct (Hf a w1) as (Hfs1 & Hclock1 & [more1 Hcalls1] & Hdet1).
    split_and!.
    + congruence.
    + congruence.
    + exists (more ++ more1). by rewrite Hcalls1, Hcalls, app_assoc.
    + intros w2 Hc. rewrite mbind_unfold.
      destruct (Hdet w2 Hc) as [Hr Hc2].
      destruct (m w2) as [[a2|e2] w3]; cbn [fst snd] in *; [| done].
      injection Hr as ->. by apply Hdet1.
  - split_and!; [done | done | by eexists |].
    intros w2 Hc. rewrite mbind_unfold.
    destruct (Hdet w2 Hc) as [Hr Hc2].
    destruct (m w2) as [[a2|e2] w3]; cbn [fst snd] in *; [done |].
    by injection Hr as ->.
Qed.

Lemma generation_only_stage_loop env req passes current :
  Spec.generation_only (Spec.stage_loop env req passes current).
Proof.
  revert current. induction passes as [|p passes IH]; intros current.
  - apply generation_only_ret.
  - cbn [Spec.stage_loop]. apply generation_only_bind.
    + apply generation_only_query.
    + intros new. destruct (decide (new = current)); [| apply IH].
      apply generation_only_ret.
Qed.

Lemma generation_only_ext {A} (m m' : M World A) :
  (∀ w, m w = m' w) → Spec.generation_only m' → Spec.generation_only m.
Proof.
  intros Heq H w. rewrite Heq. destruct (H w) as (? & ? & ? & Hdet).
  split_and!; try done. intros w2 Hc. rewrite Heq. by apply Hdet.
Qed.

Lemma generation_only_process env config hooks context :
  Spec.generation_only (ModelPipeline.process env config hooks context).
Proof.
  unfold ModelPipeline.process.
  apply generation_only_bind; [apply generation_only_query |]. intros d.
  apply generation_only_bind.
  { eapply generation_only_ext; [intros w; apply correction_loop_stage |].
    apply generation_only_stage_loop. }
  intros c. apply generation_only_bind.
  { eapply generation_only_ext; [intros w; apply security_loop_stage |].
    apply generation_only_stage_loop. }
  intros s. apply generation_only_ret.
Qed.

(** ** The workflow engine, unfolded *)

Lemma for_each_app {S A} (l1 l2 : list A) (body : A → M S unit) (s : S) :
  Py.for_each (l1 ++ l2) body s
  = match Py.for_each l1 body s with
    | (Ok _, s') => Py.for_each l2 body s'
    | (Raise e, s') => (Raise e, s')
    end.
Proof.
  revert s. induction l1 as [|x l1 IH]; intros s; [done |].
  cbn [app Py.for_each]. rewrite !mbind_unfold.
  destruct (body x s) as [[[]|e] s1]; [apply IH | done].
Qed.

Lemma save_checkpoint_unfold env guide_file spec_content
    (e : WorkflowEngine.t) (w : World) :
  WorkflowEngine._save_checkpoint env guide_file spec_content (e, w)
  = let w1 := {| fs := fs w; calls := calls w; clock := S (clock w) |} in
    match WorkflowEngine.checkpoint_file e with
    | Some path =>
        let '(r, w2) :=
          Checkpoint.save
            (Spec.checkpoint_of guide_file spec_content
               (WorkflowEngine.state e) (now env (clock w)))
            path w1 in
        (r, (e, w2))
    | None => (Raise TypeError, (e, w1))
    end.
Proof.
  unfold WorkflowEngine._save_checkpoint. rewrite !mbind_unfold. cbn.
  by destruct (WorkflowEngine.checkpoint_file e).
Qed.

Lemma process_step_unfold env guide_file spec_content steps i
    (e : WorkflowEngine.t) (w : World) :
  WorkflowEngine.process_step env guide_file spec_content steps i (e, w)
  = match Py.index steps i with
    | Raise x => (Raise x, (e, w))
    | Ok step_desc =>
        match ModelPipeline.process env (WorkflowEngine.config e)
                (WorkflowEngine.pipeline_hooks e)
                (Spec.step_context spec_content i step_desc
                   (WorkflowEngine.state e)) w with
        | (Raise x, w1) => (Raise x, (e, w1))
        | (Ok step_output, w1) =>
            let e1 :=
              WorkflowEngine.set_state e
                (StateManager.add_step_output (WorkflowEngine.state e)
                   step_output) in
            if Py.truthy (WorkflowEngine.checkpoint_file e)
            then WorkflowEngine._save_checkpoint env guide_file spec_content
                   (e1, w1)
            else (Ok tt, (e1, w1))
        end
    end.
Proof.
  unfold WorkflowEngine.process_step. rewrite mbind_unfold.
  unfold lift_result at 1.
  destruct (Py.index steps i) as [step_desc|x]; [| done].
  rewrite mbind_unfold. cbn [WorkflowEngine.get_self].
  rewrite mbind_unfold. unfold WorkflowEngine.io at 1.
  fold (Spec.step_context spec_content i step_desc (WorkflowEngine.state e)).
  destruct (ModelPipeline.process _ _ _ _ w) as [[out|x] w1]; [| done].
  rewrite mbind_unfold. cbn [WorkflowEngine.put_engine_state].
  by destruct (Py.truthy (WorkflowEngine.checkpoint_file e)).
Qed.

Lemma run_unfold env spec guide_file resume_from
    (e : WorkflowEngine.t) (w : World) :
  WorkflowEngine.run env spec guide_file resume_from (e, w)
  = match (if os.path_isfile (fs w) spec then os.read_file (fs w) spec
           else Ok spec) with
    | Raise x => (Raise x, (e, w))
    | Ok spec_content =>
        match GuideLoader.load (fs w) guide_file with
        | Raise x => (Raise x, (e, w))
        | Ok steps =>
            match WorkflowEngine.resume_from_checkpoint resume_from (e, w) with
            | (Raise x, s) => (Raise x, s)
            | (Ok start_step, s) =>
                match Py.for_each
                        (Py.range2 start_step (Z.of_nat (length steps)))
                        (WorkflowEngine.process_step env guide_file
                           spec_content steps) s with
                | (Raise x, s') => (Raise x, s')
                | (Ok _, (e', w')) =>
                    match os.write_file
                            (Config.output_file (WorkflowEngine.config e'))
                            (StateManager.cumulative_output
                               (WorkflowEngine.state e')) w' with
                    | (Raise x, w'') => (Raise x, (e', w''))
                    | (Ok _, w'') =>
                        (Ok (StateManager.cumulative_output
                               (WorkflowEngine.state e')), (e', w''))
                    end
                end
            end
        end
    end.
Proof.
  unfold WorkflowEngine.run. rewrite mbind_unfold.
  unfold WorkflowEngine.load_specification, WorkflowEngine.on_fs at 1.
  destruct (if os.path_isfile (fs w) spec then _ else _) as [sc|x]; [| done].
  rewrite mbind_unfold. unfold WorkflowEngine.on_fs at 1.
  destruct (GuideLoader.load (fs w) guide_file) as [steps|x]; [| done].
  rewrite mbind_unfold.
  destruct (WorkflowEngine.resume_from_checkpoint resume_from (e, w))
    as [[start|x] s]; [| done].
  rewrite mbind_unfold.
  destruct (Py.for_each _ _ s) as [[[]|x] [e' w']]; [| done].
  rewrite mbind_unfold. cbn [WorkflowEngine.get_self].
  rewrite mbind_unfold. unfold WorkflowEngine.io.
  by destruct (os.write_file _ _ w') as [[[]|x] w''].
Qed.

Lemma run_stopped_after_unfold env k spec guide_file resume_from
    (e : WorkflowEngine.t) (w : World) :
  WorkflowEngine.run_stopped_after env k spec guide_file resume_from (e, w)
  = match (if os.path_isfile (fs w) spec then os.read_file (fs w) spec
           else Ok spec) with
    | Raise x => (Raise x, (e, w))
    | Ok spec_content =>
        match GuideLoader.load (fs w) guide_file with
        | Raise x => (Raise x, (e, w))
        | Ok steps =>
            match WorkflowEngine.resume_from_checkpoint resume_from (e, w) with
            | (Raise x, s) => (Raise x, s)
            | (Ok start_step, s) =>
                Py.for_each
                  (Py.range2 start_step (Z.min k (Z.of_nat (length steps))))
                  (WorkflowEngine.process_step env guide_file
                     spec_content steps) s
            end
        end
    end.
Proof.
  unfold WorkflowEngine.run_stopped_after. rewrite mbind_unfold.
  unfold WorkflowEngine.load_specification, WorkflowEngine.on_fs at 1.
  destruct (if os.path_isfile (fs w) spec then _ else _) as [sc|x]; [| done].
  rewrite mbind_unfold. unfold WorkflowEngine.on_fs at 1.
  destruct (GuideLoader.load (fs w) guide_file) as [steps|x]; [| done].
  rewrite mbind_unfold.
  by destruct (WorkflowEngine.resume_from_checkpoint resume_from (e, w))
    as [[start|x] s].
Qed.

(** ** Resuming *)

Lemma resume_missing (path : string) (e : WorkflowEngine.t) (w : World) :
  os.path_exists (fs w) path = false →
  WorkflowEngine.resume_from_checkpoint (Some path) (e, w) = (Ok 0, (e, w)).
Proof.
  intros H. unfold WorkflowEngine.resume_from_checkpoint.
  by rewrite H, andb_false_r.
Qed.

Lemma resume_none (e : WorkflowEngine.t) (w : World) :
  WorkflowEngine.resume_from_checkpoint None (e, w) = (Ok 0, (e, w)).
Proof. reflexivity. Qed.

Lemma resume_snapshot (path guide_file spec_content : string)
    (st : StateManager.t) (e : WorkflowEngine.t) (w : World) :
  Py.truthy (Some path) = true →
  Spec.holds_snapshot (fs w) path guide_file spec_content st →
  WorkflowEngine.resume_from_checkpoint (Some path) (e, w)
  = (Ok (StateManager.current_step_index st),
     (WorkflowEngine.set_state e st, w)).
Proof.
  intros Htruthy [ts Hfile]. unfold WorkflowEngine.resume_from_checkpoint.
  unfold os.path_exists, Checkpoint.load, os.read_file.
  rewrite Htruthy, Hfile. cbn [andb Checkpoint.bind_result].
  rewrite loads_dumps. cbn [Checkpoint.bind_result].
  rewrite from_dict_to_dict. cbn. by destruct st.
Qed.

(** ** A run with checkpoints and its twin without *)

Section twin_runs.
Context (env : Env) (path guide_file spec_content : string)
        (steps : list string).
Context (Htruthy : Py.truthy (Some path) = true).



End twin_runs.

Lemma process_step_engine env guide_file spec_content steps i
    (s : WorkflowEngine.t * World) :
  let r := WorkflowEngine.process_step env guide_file spec_content steps i s in
  WorkflowEngine.config r.2.1 = WorkflowEngine.config s.1
  ∧ WorkflowEngine.hooks r.2.1 = WorkflowEngine.hooks s.1
  ∧ WorkflowEngine.checkpoint_file r.2.1 = WorkflowEngine.checkpoint_file s.1.
Proof.
  destruct s as [e w]. cbv zeta. rewrite process_step_unfold.
  destruct (Py.index steps i) as [desc|x]; [| done].
  destruct (ModelPipeline.process _ _ _ _ w) as [[out|x] w1]; [| done].
  cbv zeta. destruct (Py.truthy (WorkflowEngine.checkpoint_file e)); [| done].
  rewrite save_checkpoint_unfold. cbv zeta.
  destruct e as [cfg hk st [p|]]; cbn; [| done].
  by destruct (Checkpoint.save _ _ _).
Qed.

Lemma for_each_engine env guide_file spec_content steps (l : list Z)
    (s : WorkflowEngine.t * World) :
  let r :=
    Py.for_each l
      (WorkflowEngine.process_step env guide_file spec_content steps) s in
  WorkflowEngine.config r.2.1 = WorkflowEngine.config s.1
  ∧ WorkflowEngine.hooks r.2.1 = WorkflowEngine.hooks s.1
  ∧ WorkflowEngine.checkpoint_file r.2.1 = WorkflowEngine.checkpoint_file s.1.
Proof.
  cbv zeta. revert s. induction l as [|i l IH]; intros s; [done |].
  cbn [Py.for_each]. rewrite mbind_unfold.
  pose proof (process_step_engine env guide_file spec_content steps i s) as H.
  cbv zeta in H.
  destruct (WorkflowEngine.process_step _ _ _ _ i s) as [[[]|x] s1];
    cbn [fst snd] in *; [| done].
  destruct H as (? & ? & ?). destruct (IH s1) as (? & ? & ?).
  split_and!; congruence.
Qed.



Lemma load_reads_file (f : gmap string node) (file_path : string) steps :
  GuideLoader.load f file_path = Ok steps →
  ∃ content, f !! file_path = Some (File content).
Proof.
  unfold GuideLoader.load, os.path_exists, os.read_file.
  destruct (f !! file_path) as [[content|]|]; [by eexists | done | done].
Qed.

Lemma load_same_file (f f' : gmap string node) (file_path : string) steps :
  GuideLoader.load f file_path = Ok steps →
  f' !! file_path = f !! file_path →
  GuideLoader.load f' file_path = Ok steps.
Proof.
  intros Hload Heq. destruct (load_reads_file _ _ _ Hload) as [content Hf].
  rewrite (load_file _ _ _ Hf) in Hload. rewrite Hf in Heq.
  by rewrite (load_file _ _ _ Heq).
Qed.


(** ** What the checkpoint file holds *)

Lemma process_step_snapshot env path guide_file spec_content steps i
    (e e' : WorkflowEngine.t) (w w' : World) :
  WorkflowEngine.checkpoint_file e = Some path →
  Py.truthy (Some path) = true →
  WorkflowEngine.process_step env guide_file spec_content steps i (e, w)
  = (Ok tt, (e', w')) →
  Spec.holds_snapshot (fs w') path guide_file spec_content
    (WorkflowEngine.state e').
Proof.
  intros Hck Htruthy. rewrite process_step_unfold.
  destruct (Py.index steps i) as [desc|x]; [| done].
  destruct (ModelPipeline.process _ _ _ _ w) as [[out|x] w1]; [| done].
  cbv zeta. rewrite Hck, Htruthy, save_checkpoint_unfold. cbv zeta.
  cbn [WorkflowEngine.checkpoint_file WorkflowEngine.set_state
       WorkflowEngine.state]. rewrite Hck.
  unfold Checkpoint.save, os.write_file. cbn [fs].
  destruct (fs w1 !! path) as [[c|]|]; [| done |];
    cbn; intros ?; simplify_eq; eexists; cbn; by rewrite lookup_insert_eq.
Qed.

Lemma for_each_snapshot env path guide_file spec_content steps (l : list Z)
    (e e' : WorkflowEngine.t) (w w' : World) :
  WorkflowEngine.checkpoint_file e = Some path →
  Py.truthy (Some path) = true →
  l ≠ [] →
  Py.for_each l
    (WorkflowEngine.process_step env guide_file spec_content steps) (e, w)
  = (Ok tt, (e', w')) →
  Spec.holds_snapshot (fs w') path guide_file spec_content
    (WorkflowEngine.state e').
Proof.
  intros Hck Htruthy. revert e w Hck.
  induction l as [|i l IH]; intros e w Hck Hne; [done |].
  cbn [Py.for_each]. rewrite mbind_unfold.
  pose proof (process_step_engine env guide_file spec_content steps i (e, w))
    as Hfields.
  cbv zeta in Hfields.
  destruct (WorkflowEngine.process_step _ _ _ _ i (e, w))
    as [[[]|x] [e1 w1]] eqn:Hstep; [| done].
  cbn [fst snd] in Hfields. destruct Hfields as (_ & _ & Hck1).
  destruct l as [|j l].
  - cbn [Py.for_each]. unfold mret, M_ret. intros ?. simplify_eq.
    by eapply process_step_snapshot.
  - apply IH; [congruence | done].
Qed.

(** Each step that completes adds one to the count of completed steps. *)
Lemma process_step_index env guide_file spec_content steps i
    (e e' : WorkflowEngine.t) (w w' : World) :
  WorkflowEngine.process_step env guide_file spec_content steps i (e, w)
  = (Ok tt, (e', w')) →
  StateManager.current_step_index (WorkflowEngine.state e')
  = StateManager.current_step_index (WorkflowEngine.state e) + 1.
Proof.
  rewrite process_step_unfold.
  destruct (Py.index steps i) as [desc|x]; [| done].
  destruct (ModelPipeline.process _ _ _ _ w) as [[out|x] w1]; [| done].
  cbv zeta. destruct (Py.truthy (WorkflowEngine.checkpoint_file e)).
  - rewrite save_checkpoint_unfold. cbv zeta.
    cbn [WorkflowEngine.checkpoint_file WorkflowEngine.set_state].
    destruct (WorkflowEngine.checkpoint_file e) as [path|]; [| done].
    destruct (Checkpoint.save _ _ _) as [r w2]. by intros [= _ <- _].
  - by intros [= <- _].
Qed.

Lemma for_each_index env guide_file spec_content steps (ks : list Z)
    (e e' : WorkflowEngine.t) (w w' : World) :
  Py.for_each ks
    (WorkflowEngine.process_step env guide_file spec_content steps) (e, w)
  = (Ok tt, (e', w')) →
  StateManager.current_step_index (WorkflowEngine.state e')
  = StateManager.current_step_index (WorkflowEngine.state e)
    + Z.of_nat (length ks).
Proof.
  revert e w. induction ks as [|i ks IH]; intros e w.
  - cbn [Py.for_each]. unfold mret, M_ret. intros [= <- _]. cbn. lia.
  - cbn [Py.for_each]. rewrite mbind_unfold.
    destruct (WorkflowEngine.process_step _ _ _ _ i (e, w))
      as [[[]|x] [e1 w1]] eqn:Hstep; [| done].
    intros Hrest. rewrite (IH _ _ Hrest).
    rewrite (process_step_index _ _ _ _ _ _ _ _ _ Hstep).
    cbn [length]. lia.
Qed.

(** C7. A generation failure in the step after K completed steps.  Let a
    run have read its specification and guide, let the engine enter the
    loop with as many completed steps as the index the loop starts from
    (as every new engine does, and every engine whose state a checkpoint
    restored), let its first K steps (K at least the step it started
    from) be complete, and let the pipeline raise [err] while the next
    step is processed, which it can only do when a generation call fails.
    Then the run ends with exactly that exception, the engine keeps the
    accumulation state it had before the failing step, whose count of
    completed steps is K, and the failing step wrote nothing: the files
    are those left by step K.  If checkpoints are written to [path] and
    at least one step completed in this run, the file at [path] loads to
    the snapshot of that state, the restore block of a resumed run
    restores that state and yields the start index K, and a run resumed
    from [path] that reads the same specification and guide begins by
    processing the step that failed, the step of index K, again from the
    restored state, before the steps after it and the write of the
    output. *)
Theorem generation_failure_keeps_checkpoint
    (env : Env) (spec guide_file : string) (resume_from : option string)
    (e0 : WorkflowEngine.t) (w0 : World)
    (spec_content : string) (steps : list string) (start K : Z)
    (step_desc : string) (engK : WorkflowEngine.t) (wK wF : World)
    (err : exn) :
  WorkflowEngine.load_specification spec (e0, w0)
  = (Ok spec_content, (e0, w0)) →
  GuideLoader.load (fs w0) guide_file = Ok steps →
  (WorkflowEngine.resume_from_checkpoint resume_from (e0, w0)).1 = Ok start →
  StateManager.current_step_index
    (WorkflowEngine.state
       (WorkflowEngine.resume_from_checkpoint resume_from (e0, w0)).2.1)
  = start →
  start ≤ K →
  Py.index steps K = Ok step_desc →
  WorkflowEngine.run_stopped_after env K spec guide_file resume_from (e0, w0)
  = (Ok tt, (engK, wK)) →
  ModelPipeline.process env (WorkflowEngine.config engK)
    (WorkflowEngine.pipeline_hooks engK)
    (Spec.step_context spec_content K step_desc (WorkflowEngine.state engK))
    wK
  = (Raise err, wF) →
  WorkflowEngine.run env spec guide_file resume_from (e0, w0)
  = (Raise err, (engK, wF))
  ∧ fs wF = fs wK
  ∧ StateManager.current_step_index (WorkflowEngine.state engK) = K
  ∧ (∀ path,
       WorkflowEngine.checkpoint_file e0 = Some path →
       Py.truthy (Some path) = true →
       start < K →
       (∃ ts,
          Checkpoint.load (fs wF) path
          = Ok (Spec.checkpoint_of guide_file spec_content
                  (WorkflowEngine.state engK) ts))
       ∧ ∀ e',
           let restored :=
             WorkflowEngine.set_state e' (WorkflowEngine.state engK) in
           WorkflowEngine.resume_from_checkpoint (Some path) (e', wF)
           = (Ok K, (restored, wF))
           ∧ (WorkflowEngine.load_specification spec (e', wF)
              = (Ok spec_content, (e', wF)) →
              GuideLoader.load (fs wF) guide_file = Ok steps →
              WorkflowEngine.run env spec guide_file (Some path) (e', wF)
              = match WorkflowEngine.process_step env guide_file spec_content
                        steps K (restored, wF) with
                | (Raise x, s) => (Raise x, s)
                | (Ok _, s) =>
                    match Py.for_each
                            (Py.range2 (K + 1) (Z.of_nat (length steps)))
                            (WorkflowEngine.process_step env guide_file
                               spec_content steps) s with
                    | (Raise x, s') => (Raise x, s')
                    | (Ok _, (e'', w'')) =>
                        match os.write_file
                                (Config.output_file
                                   (WorkflowEngine.config e''))
                                (StateManager.cumulative_output
                                   (WorkflowEngine.state e'')) w'' with
                        | (Raise x, w3) => (Raise x, (e'', w3))
                        | (Ok _, w3) =>
                            (Ok (StateManager.cumulative_output
                                   (WorkflowEngine.state e'')), (e'', w3))
                        end
                    end
                end)).
Proof.
  intros Hsc Hload Hstart Hindex HK Hdesc Hstopped Hfail.
  assert (Hlen : K < Z.of_nat (length steps)).
  { unfold Py.index in Hdesc. repeat case_decide; try done; lia. }
  unfold WorkflowEngine.load_specification, WorkflowEngine.on_fs in Hsc.
  injection Hsc as Hsc.
  rewrite run_stopped_after_unfold, Hsc, Hload in Hstopped.
  rewrite run_unfold, Hsc, Hload.
  destruct (WorkflowEngine.resume_from_checkpoint resume_from (e0, w0))
    as [[start'|x] [e1 w1]] eqn:Hres; [| done].
  cbn [fst snd] in Hstart, Hindex. injection Hstart as ->.
  rewrite Z.min_l in Hstopped by lia.
  destruct (generation_only_process env (WorkflowEngine.config engK)
              (WorkflowEngine.pipeline_hooks engK)
              (Spec.step_context spec_content K step_desc
                 (WorkflowEngine.state engK)) wK) as (Hfs & _).
  rewrite Hfail in Hfs. cbn [snd] in Hfs.
  assert (HengK : StateManager.current_step_index (WorkflowEngine.state engK)
                  = K).
  { rewrite (for_each_index _ _ _ _ _ _ _ _ _ Hstopped), Hindex.
    rewrite range2_length. lia. }
  split_and!.
  - rewrite (range2_app start K) by lia. rewrite for_each_app, Hstopped.
    rewrite (range2_cons K) by lia. cbn [Py.for_each].
    rewrite mbind_unfold, process_step_unfold, Hdesc, Hfail. done.
  - done.
  - done.
  - intros path Hck Htruthy Hlt.
    assert (Hck1 : WorkflowEngine.checkpoint_file e1 = Some path).
    { unfold WorkflowEngine.resume_from_checkpoint in Hres.
      destruct resume_from as [p|]; [| by injection Hres as _ <- _].
      destruct (Py.truthy (Some p) && os.path_exists (fs w0) p);
        [| by injection Hres as _ <- _].
      destruct (Checkpoint.load (fs w0) p); [| done].
      by injection Hres as _ <- _. }
    assert (Hsnap : Spec.holds_snapshot (fs wF) path guide_file spec_content
                      (WorkflowEngine.state engK)).
    { rewrite Hfs.
      eapply (for_each_snapshot env path guide_file spec_content steps
                (Py.range2 start K) e1 engK w1 wK); try done.
      rewrite (range2_cons start K) by lia. done. }
    split.
    + destruct Hsnap as [ts Hfile]. exists ts.
      unfold Checkpoint.load, os.read_file. rewrite Hfile.
      cbn [Checkpoint.bind_result]. rewrite loads_dumps.
      cbn [Checkpoint.bind_result]. apply from_dict_to_dict.
    + intros e' restored.
      assert (Hrestore :
        WorkflowEngine.resume_from_checkpoint (Some path) (e', wF)
        = (Ok K, (restored, wF))).
      { rewrite (resume_snapshot path guide_file spec_content
                   (WorkflowEngine.state engK) e' wF Htruthy Hsnap).
        by rewrite HengK. }
      split; [exact Hrestore |].
      intros Hsc' Hload'.
      unfold WorkflowEngine.load_specification, WorkflowEngine.on_fs in Hsc'.
      injection Hsc' as Hsc'.
      rewrite run_unfold, Hsc', Hload', Hrestore.
      rewrite (range2_cons K) by lia. cbn [Py.for_each].
      rewrite mbind_unfold.
      by destruct (WorkflowEngine.process_step _ _ _ _ K (restored, wF))
        as [[[]|x] s].
Qed.

(** ** The guide chain *)

Lemma accumulate_nonempty (c g o : string) :
  String.eqb (GuideChain.accumulate c g o) "" = false.
Proof. unfold GuideChain.accumulate. by destruct c. Qed.

Lemma run_guides_cons env self spec idx guide_file guides cc w :
  GuideChain.run_guides env self spec ((idx, guide_file) :: guides) cc w
  = match GuideChain.checkpoint_file_for self idx guide_file w with
    | (Raise x, w1) => (Raise x, w1)
    | (Ok checkpoint_file, w1) =>
        match GuideChain.with_engine
                (WorkflowEngine.new
                   (GuideChain.engine_config self idx guide_file)
                   (GuideChain.hooks self) checkpoint_file)
                (WorkflowEngine.run env (GuideChain.enhanced_spec spec cc)
                   guide_file None) w1 with
        | (Raise x, w2) => (Raise x, w2)
        | (Ok output, w2) =>
            match GuideChain.run_guides env self spec guides
                    (GuideChain.accumulate cc guide_file output) w2 with
            | (Raise x, w3) => (Raise x, w3)
            | (Ok (final, made), w3) =>
                (Ok (final,
                     {| GuideChain.passed_spec :=
                          GuideChain.enhanced_spec spec cc;
                        GuideChain.passed_guide := guide_file;
                        GuideChain.returned_output := output |} :: made), w3)
            end
        end
    end.
Proof.
  cbn [GuideChain.run_guides]. rewrite mbind_unfold.
  destruct (GuideChain.checkpoint_file_for self idx guide_file w)
    as [[ck|x] w1]; [| done].
  rewrite mbind_unfold.
  destruct (GuideChain.with_engine _ _ w1) as [[output|x] w2]; [| done].
  rewrite mbind_unfold.
  by destruct (GuideChain.run_guides env self spec guides _ w2)
    as [[[final made]|x] w3].
Qed.

Lemma run_guides_trace env self spec guides cc w final made w' :
  GuideChain.run_guides env self spec guides cc w = (Ok (final, made), w') →
  GuideChain.passed_guide <$> made = guides.*2
  ∧ final = Spec.context_after cc made
  ∧ (∀ i inv, made !! i = Some inv →
       GuideChain.passed_spec inv
       = GuideChain.enhanced_spec spec (Spec.context_after cc (take i made)))
  ∧ Forall (Spec.engine_run env) made.
Proof.
  revert cc w final made w'.
  induction guides as [|[idx guide_file] guides IH];
    intros cc w final made w' Hrun.
  - cbn in Hrun. injection Hrun as <- <- <-. by split_and!.
  - rewrite run_guides_cons in Hrun.
    destruct (GuideChain.checkpoint_file_for self idx guide_file w)
      as [[ck|x] w1]; [| done].
    destruct (GuideChain.with_engine _ _ w1) as [[output|x] w2] eqn:Hengine;
      [| done].
    destruct (GuideChain.run_guides env self spec guides _ w2)
      as [[[final' made']|x] w3] eqn:Hrest; [| done].
    injection Hrun as <- <- <-.
    destruct (IH _ _ _ _ _ Hrest) as (Hguides & Hfinal & Hspecs & Hruns).
    split_and!.
    + cbn. by rewrite Hguides.
    + done.
    + intros [|i] inv Hi; cbn in Hi.
      * by injection Hi as <-.
      * by apply Hspecs.
    + constructor; [| done]. unfold Spec.engine_run. cbn.
      unfold GuideChain.with_engine in Hengine.
      exists (WorkflowEngine.new (GuideChain.engine_config self idx guide_file)
                (GuideChain.hooks self) ck), w1.
      revert Hengine.
      destruct (WorkflowEngine.run _ _ _ _ _) as [r [e' w'']].
      cbn. intros ?. by simplify_eq.
Qed.

Lemma enumerate_from_snd {A} (start : Z) (l : list A) :
  (Py.enumerate_from start l).*2 = l.
Proof.
  revert start. induction l as [|x l IH]; intros start; [done |].
  cbn. by rewrite IH.
Qed.

Lemma context_after_snoc (cc : string) made inv :
  Spec.context_after cc (made ++ [inv])
  = GuideChain.accumulate (Spec.context_after cc made)
      (GuideChain.passed_guide inv) (GuideChain.returned_output inv).
Proof. unfold Spec.context_after. by rewrite foldl_app. Qed.

(** C6. Chain propagation.  When a chain of guides runs to its end, the
    calls of [engine.run] it made are one per guide, in order, each a run of
    a workflow engine.  The first call is given the specification as it is.
    The call for guide N+1 is given "Previous context:", the context
    accumulated so far, and "Current spec:" followed by the original
    specification; that context ends with the section "--- Output from
    <guide N> ---" and the full output returned by the run of guide N, which
    therefore occurs as a literal substring of the enhanced
    specification. *)
Theorem chain_propagation
    (env : Env) (spec : string) (guide_files : list string)
    (self : GuideChain.t) (w : World)
    (final : string) (made : list GuideChain.invocation)
    (s' : GuideChain.t * World) :
  GuideChain.run_traced env spec guide_files (self, w)
  = (Ok (final, made), s') →
  (GuideChain.run env spec guide_files (self, w)).1 = Ok final
  ∧ GuideChain.passed_guide <$> made = guide_files
  ∧ Forall (Spec.engine_run env) made
  ∧ (∀ inv, made !! 0%nat = Some inv → GuideChain.passed_spec inv = spec)
  ∧ (∀ N invN invN1,
       made !! N = Some invN → made !! S N = Some invN1 →
       (∃ earlier,
          GuideChain.passed_spec invN1
          = "Previous context:" +:+ Py.nl +:+
            (earlier +:+ Py.nl +:+ Py.nl +:+ "--- Output from " +:+
             GuideChain.passed_guide invN +:+ " ---" +:+ Py.nl +:+
             GuideChain.returned_output invN) +:+
            Py.nl +:+ Py.nl +:+ "Current spec:" +:+ Py.nl +:+ spec)
       ∧ Spec.substring_of (GuideChain.returned_output invN)
           (GuideChain.passed_spec invN1)).
Proof.
  intros Hrun.
  assert (Hrun' : (GuideChain.run env spec guide_files (self, w)).1 = Ok final).
  { unfold GuideChain.run. rewrite mbind_unfold, Hrun. by destruct s'. }
  unfold GuideChain.run_traced in Hrun.
  destruct (GuideChain.run_guides env self spec (Py.enumerate guide_files) "" w)
    as [[[final' made']|x] w1] eqn:Hguides; [| done].
  destruct (os.write_file _ _ w1) as [[[]|x] w2]; [| done].
  injection Hrun as <- <- <-.
  destruct (run_guides_trace _ _ _ _ _ _ _ _ _ Hguides)
    as (Hg & _ & Hspecs & Hruns).
  unfold Py.enumerate in Hg. rewrite enumerate_from_snd in Hg.
  split_and!; try done.
  - intros inv Hinv. by rewrite (Hspecs _ _ Hinv).
  - intros N invN invN1 HN HN1.
    assert (Hspec1 : GuideChain.passed_spec invN1
      = "Previous context:" +:+ Py.nl +:+
        GuideChain.accumulate (Spec.context_after "" (take N made'))
          (GuideChain.passed_guide invN) (GuideChain.returned_output invN) +:+
        Py.nl +:+ Py.nl +:+ "Current spec:" +:+ Py.nl +:+ spec).
    { rewrite (Hspecs _ _ HN1), (take_S_r _ _ _ HN), context_after_snoc.
      unfold GuideChain.enhanced_spec. by rewrite accumulate_nonempty. }
    split.
    + by exists (Spec.context_after "" (take N made')).
    + rewrite Hspec1. unfold GuideChain.accumulate.
      exists ("Previous context:" +:+ Py.nl +:+
              Spec.context_after "" (take N made') +:+ Py.nl +:+ Py.nl +:+
              "--- Output from " +:+ GuideChain.passed_guide invN +:+ " ---" +:+
              Py.nl),
             (Py.nl +:+ Py.nl +:+ "Current spec:" +:+ Py.nl +:+ spec).
      by rewrite !string_app_assoc.
Qed.

Lemma chain_propagation_witness :
  match (GuideChain.run_traced Examples.counting_env "Build a REST API"
           ["guide.txt"; "coding_guide.txt"]
           (GuideChain.new Examples.default_config None None,
            Examples.world)).1 with
  | Ok (_, [first; second]) =>
      GuideChain.passed_spec first = "Build a REST API"
      ∧ Spec.substring_of (GuideChain.returned_output first)
          (GuideChain.passed_spec second)
  | _ => False
  end.
Proof.
  destruct (GuideChain.run_traced Examples.counting_env "Build a REST API"
              ["guide.txt"; "coding_guide.txt"]
              (GuideChain.new Examples.default_config None None,
               Examples.world))
    as [[[final made]|x] s'] eqn:Hrun.
  - destruct (chain_propagation _ _ _ _ _ _ _ _ Hrun)
      as (_ & Hguides & _ & Hfirst & Hnext).
    destruct made as [|first [|second [|third made]]]; try discriminate Hguides.
    cbn [fst]. split.
    + by apply Hfirst.
    + by apply (Hnext 0%nat first second).
  - vm_compute in Hrun. discriminate Hrun.
Defined.

(** ** Runs of the workflow engine on concrete inputs *)


Lemma generation_failure_keeps_checkpoint_witness :
  let env := Examples.failing_env 7 in
  let engine :=
    WorkflowEngine.new Examples.default_config None (Some "checkpoint.json") in
  let failed :=
    WorkflowEngine.run env "Build a REST API" "guide.txt" None
      (engine, Examples.world) in
  failed.1 = Raise (ConnectionError "Failed to connect to Ollama API")
  ∧ StateManager.current_step_index (WorkflowEngine.state failed.2.1) = 1
  ∧ (∃ ts,
       Checkpoint.load (fs failed.2.2) "checkpoint.json"
       = Ok (Spec.checkpoint_of "guide.txt" "Build a REST API"
               (WorkflowEngine.state failed.2.1) ts))
  ∧ (WorkflowEngine.resume_from_checkpoint (Some "checkpoint.json")
       (engine, failed.2.2)).1 = Ok 1.
Proof.
  intros env engine failed.
  set (stopped :=
         WorkflowEngine.run_stopped_after env 1 "Build a REST API" "guide.txt"
           None (engine, Examples.world)).
  set (failing :=
         ModelPipeline.process env (WorkflowEngine.config stopped.2.1)
           (WorkflowEngine.pipeline_hooks stopped.2.1)
           (Spec.step_context "Build a REST API" 1 "Second"
              (WorkflowEngine.state stopped.2.1))
           stopped.2.2).
  destruct (generation_failure_keeps_checkpoint env "Build a REST API"
              "guide.txt" None engine Examples.world "Build a REST API"
              ["First"; "Second"; "Third"] 0 1 "Second"
              stopped.2.1 stopped.2.2 failing.2
              (ConnectionError "Failed to connect to Ollama API"))
    as (Hrun & _ & Hindex & Hfile).
  - vm_compute. reflexivity.
  - vm_compute. reflexivity.
  - reflexivity.
  - reflexivity.
  - vm_compute. discriminate.
  - vm_compute. reflexivity.
  - vm_compute. reflexivity.
  - vm_compute. reflexivity.
  - fold failed in Hrun. rewrite Hrun. cbn [fst snd].
    destruct (Hfile "checkpoint.json") as (Hloads & Hresume);
      [reflexivity | reflexivity | vm_compute; reflexivity |].
    split_and!; [done | exact Hindex | exact Hloads |].
    destruct (Hresume engine) as [-> _]. done.
Defined.

(* ===================================================================== *)
(** * Part III: further properties of the code                            *)
(* ===================================================================== *)

(** ** The calls of the model pipeline *)

Lemma answered_nil env before : Run.answered env before [].
Proof. intros i r H. done. Qed.

Lemma answered_cons env before r made s :
  oracle env before r = Ok s →
  Run.answered env (before ++ [r]) made →
  Run.answered env before (r :: made).
Proof.
  intros Hr Hm [|i] r' Hl; simplify_eq/=.
  - rewrite app_nil_r. eauto.
  - destruct (Hm i r' Hl) as [s' Hs]. exists s'.
    by rewrite <- app_assoc in Hs.
Qed.

Lemma answered_app env before m1 m2 :
  Run.answered env before m1 →
  Run.answered env (before ++ m1) m2 →
  Run.answered env before (m1 ++ m2).
Proof.
  intros H1 H2 i r Hl.
  destruct (decide (i < length m1)%nat) as [Hlt|Hge].
  - rewrite lookup_app_l in Hl by done.
    rewrite take_app_le by lia. by apply H1.
  - rewrite lookup_app_r in Hl by lia.
    destruct (H2 _ _ Hl) as [s Hs]. exists s.
    rewrite take_app_ge by lia. by rewrite app_assoc.
Qed.

Lemma outcome_cons {A} env before r made s (res : result A) :
  oracle env before r = Ok s →
  Run.outcome_of_calls env (before ++ [r]) made res →
  Run.outcome_of_calls env before (r :: made) res.
Proof.
  intros Hr. destruct res as [a|e]; cbn.
  - by apply (answered_cons _ _ _ _ s).
  - intros (init & last & -> & Hans & Hlast).
    exists (r :: init), last. split_and!; [done | by apply (answered_cons _ _ _ _ s) |].
    by rewrite <- app_assoc in Hlast.
Qed.

Lemma outcome_app {A} env before m1 m2 (res : result A) :
  Run.answered env before m1 →
  Run.outcome_of_calls env (before ++ m1) m2 res →
  Run.outcome_of_calls env before (m1 ++ m2) res.
Proof.
  intros H1. destruct res as [a|e]; cbn.
  - by apply answered_app.
  - intros (init & last & -> & Hans & Hlast).
    exists (m1 ++ init), last. split_and!.
    + by rewrite app_assoc.
    + by apply answered_app.
    + by rewrite app_assoc.
Qed.

Lemma outcome_single_raise {A} env before r e :
  oracle env before r = Raise e →
  Run.outcome_of_calls (A:=A) env before [r] (Raise e).
Proof.
  intros H. exists [], r. split_and!; [done | apply answered_nil |].
  by rewrite app_nil_r.
Qed.

Section stage_calls.
Context (env : Env) (req : string → OllamaRequest.t).

Lemma stage_loop_calls (ps : list Z) (cur : string) (w : World) :
  let out := Spec.stage_loop env req ps cur w in
  fs out.2 = fs w ∧ clock out.2 = clock w
  ∧ ∃ more,
      calls out.2 = calls w ++ more
      ∧ (length more ≤ length ps)%nat
      ∧ Forall (λ r, ∃ c, r = req c) more
      ∧ Run.outcome_of_calls env (calls w) more out.1
      ∧ (ps ≠ [] → more ≠ []).
Proof.
  revert cur w. induction ps as [|p ps IH]; intros cur w; cbv zeta.
  - cbn. split_and!; [done | done |]. exists []. rewrite app_nil_r.
    split_and!; [done | done | done | apply answered_nil | done].
  - cbn [Spec.stage_loop]. rewrite mbind_unfold, query_unfold.
    set (w1 := {| fs := fs w; calls := calls w ++ [req cur]; clock := clock w |}).
    destruct (oracle env (calls w) (req cur)) as [new|e] eqn:Hans.
    + destruct (decide (new = cur)) as [->|Hne].
      * cbn. split_and!; [done | done |]. exists [req cur].
        split_and!; [done | cbn; lia | | | done].
        -- constructor; [by eexists | done].
        -- apply (answered_cons _ _ _ _ cur); [done | apply answered_nil].
      * destruct (IH new w1) as (Hfs & Hclock & more & Hcalls & Hlen & Hall & Hout & _).
        split_and!; [done | done |]. exists (req cur :: more).
        split_and!.
        -- rewrite Hcalls. cbn. by rewrite <- app_assoc.
        -- cbn. lia.
        -- constructor; [by eexists | done].
        -- apply (outcome_cons _ _ _ _ new); [done | apply Hout].
        -- done.
    + cbn. split_and!; [done | done |]. exists [req cur].
      split_and!; [done | cbn; lia | | | done].
      * constructor; [by eexists | done].
      * by apply (outcome_single_raise (A:=string)).
Qed.
End stage_calls.

Lemma process_unfold env config hooks context w :
  ModelPipeline.process env config hooks context w
  = match OllamaClient.query env (ModelPipeline.creative_request config context) w with
    | (Raise e, w1) => (Raise e, w1)
    | (Ok d, w1) =>
        let c1 := StepContext.set_draft context
                    (PipelineHooks.apply (PipelineHooks.post_draft hooks) d) in
        match Spec.stage_loop env (ModelPipeline.correction_request config context)
                (Py.range (Config.max_iterations config))
                (StepContext.draft c1) w1 with
        | (Raise e, w2) => (Raise e, w2)
        | (Ok c, w2) =>
            let c2 := StepContext.set_corrected c1
                        (PipelineHooks.apply (PipelineHooks.post_correction hooks) c) in
            match Spec.stage_loop env (ModelPipeline.security_request config context)
                    (Py.range (Config.max_iterations config))
                    (StepContext.corrected c2) w2 with
            | (Raise e, w3) => (Raise e, w3)
            | (Ok s, w3) =>
                (Ok (PipelineHooks.apply (PipelineHooks.post_security hooks) s), w3)
            end
        end
    end.
Proof.
  unfold ModelPipeline.process, ModelPipeline._creative_draft,
    ModelPipeline._error_correction, ModelPipeline._security_hardening.
  rewrite mbind_unfold.
  destruct (OllamaClient.query _ _ w) as [[d|e] w1]; [| done].
  rewrite mbind_unfold, correction_loop_stage.
  change (ModelPipeline.correction_request config (StepContext.set_draft context _))
    with (ModelPipeline.correction_request config context).
  cbv zeta.
  destruct (Spec.stage_loop _ _ _ _ w1) as [[c|e] w2]; [| done].
  rewrite mbind_unfold, security_loop_stage.
  change (ModelPipeline.security_request config
            (StepContext.set_corrected (StepContext.set_draft context _) _))
    with (ModelPipeline.security_request config context).
  by destruct (Spec.stage_loop _ _ _ _ w2) as [[s|e] w3].
Qed.

Lemma range_length_nat (n : Z) : length (Py.range n) = Z.to_nat n.
Proof. unfold Py.range. rewrite range2_length. f_equal. lia. Qed.

Lemma process_calls env config hooks context w :
  let out := ModelPipeline.process env config hooks context w in
  let cap := Z.to_nat (Config.max_iterations config) in
  fs out.2 = fs w ∧ clock out.2 = clock w
  ∧ ∃ refine harden,
      calls out.2
      = calls w ++ ModelPipeline.creative_request config context
                   :: refine ++ harden
      ∧ (length refine ≤ cap)%nat ∧ (length harden ≤ cap)%nat
      ∧ Forall (λ r, ∃ c, r = ModelPipeline.correction_request config context c)
          refine
      ∧ Forall (λ r, ∃ c, r = ModelPipeline.security_request config context c)
          harden
      ∧ Run.outcome_of_calls env (calls w)
          (ModelPipeline.creative_request config context :: refine ++ harden)
          out.1
      ∧ (∀ s, out.1 = Ok s → cap ≠ 0%nat → refine ≠ [] ∧ harden ≠ []).
Proof.
  cbv zeta. rewrite process_unfold, query_unfold.
  set (creq := ModelPipeline.creative_request config context).
  set (w1 := {| fs := fs w; calls := calls w ++ [creq]; clock := clock w |}).
  assert (Hcap : ∀ ps : list Z, ps = Py.range (Config.max_iterations config) →
            Z.to_nat (Config.max_iterations config) ≠ 0%nat → ps ≠ []).
  { intros ps -> Hn Hnil. apply (f_equal length) in Hnil.
    rewrite range_length_nat in Hnil. done. }
  destruct (oracle env (calls w) creq) as [d|e] eqn:Hd.
  2:{ cbn. split_and!; [done | done |]. exists [], [].
      split_and!; [done | cbn; lia | cbn; lia | done | done | | done].
      by apply (outcome_single_raise (A:=string)). }
  cbv zeta.
  destruct (stage_loop_calls env (ModelPipeline.correction_request config context)
              (Py.range (Config.max_iterations config))
              (StepContext.draft
                 (StepContext.set_draft context
                    (PipelineHooks.apply (PipelineHooks.post_draft hooks) d))) w1)
    as (Hfs2 & Hclock2 & refine & Hcalls2 & Hlen2 & Hall2 & Hout2 & Hne2).
  rewrite range_length_nat in Hlen2.
  destruct (Spec.stage_loop _ _ _ _ w1) as [[c|e] w2]; cbn [fst snd] in *.
  2:{ split_and!; [done | done |]. exists refine, [].
      rewrite app_nil_r.
      split_and!; [| done | cbn; lia | done | done | | done].
      - rewrite Hcalls2. cbn. by rewrite <- app_assoc.
      - apply (outcome_cons (A:=string) _ _ _ _ d); [done | apply Hout2]. }
  destruct (stage_loop_calls env (ModelPipeline.security_request config context)
              (Py.range (Config.max_iterations config))
              (StepContext.corrected
                 (StepContext.set_corrected
                    (StepContext.set_draft context
                       (PipelineHooks.apply (PipelineHooks.post_draft hooks) d))
                    (PipelineHooks.apply (PipelineHooks.post_correction hooks) c)))
              w2)
    as (Hfs3 & Hclock3 & harden & Hcalls3 & Hlen3 & Hall3 & Hout3 & Hne3).
  rewrite range_length_nat in Hlen3.
  assert (Hout : ∀ r : result string,
            Run.outcome_of_calls env (calls w2) harden r →
            Run.outcome_of_calls env (calls w) (creq :: refine ++ harden) r).
  { intros r Hr. apply (outcome_cons _ _ _ _ d); [done |].
    apply outcome_app; [apply Hout2 |]. rewrite Hcalls2 in Hr. exact Hr. }
  destruct (Spec.stage_loop _ _ _ _ w2) as [[s|e] w3]; cbn [fst snd] in *.
  - split_and!; [by rewrite Hfs3, Hfs2 | by rewrite Hclock3, Hclock2 |]. exists refine, harden.
    split_and!; [| done | done | done | done | | ].
    + rewrite Hcalls3, Hcalls2. cbn. by rewrite <- !app_assoc.
    + apply (Hout (Ok s)), Hout3.
    + intros _ _ Hn. split; [apply Hne2 | apply Hne3]; by apply Hcap.
  - split_and!; [by rewrite Hfs3, Hfs2 | by rewrite Hclock3, Hclock2 |]. exists refine, harden.
    split_and!; [| done | done | done | done | | done].
    + rewrite Hcalls3, Hcalls2. cbn. by rewrite <- !app_assoc.
    + apply (Hout (Raise e)), Hout3.
Qed.

Lemma length_nonnil {A} (l : list A) : l ≠ [] → (1 ≤ length l)%nat.
Proof. destruct l; [done | cbn; lia]. Qed.

(** X2. The generation calls of one step.  [ModelPipeline.process] leaves
    the files and the clock alone.  The calls it adds are, in this order,
    the one request for the creative draft, then requests of the
    error-correction stage only, then requests of the security stage only,
    each stage making at most [max_iterations] of them (none for a cap of
    zero or less): between 1 and [1 + 2 * max(0, max_iterations)] calls in
    all, and at least three when the pipeline returns and the cap is at
    least one. *)
Theorem process_call_budget
    (env : Env) (config : Config.t) (hooks : PipelineHooks.t)
    (context : StepContext.t) (w : World) :
  let out := ModelPipeline.process env config hooks context w in
  let cap := Z.max 0 (Config.max_iterations config) in
  fs out.2 = fs w ∧ clock out.2 = clock w
  ∧ (∃ refine harden,
       calls out.2
       = calls w ++ ModelPipeline.creative_request config context
                    :: refine ++ harden
       ∧ Forall (λ r, ∃ current,
                   r = ModelPipeline.correction_request config context current)
           refine
       ∧ Forall (λ r, ∃ current,
                   r = ModelPipeline.security_request config context current)
           harden
       ∧ Z.of_nat (length refine) ≤ cap ∧ Z.of_nat (length harden) ≤ cap)
  ∧ 1 ≤ Spec.calls_made w out.2 ≤ 1 + 2 * cap
  ∧ (∀ s, out.1 = Ok s → 1 ≤ Config.max_iterations config →
       3 ≤ Spec.calls_made w out.2).
Proof.
  cbv zeta.
  destruct (process_calls env config hooks context w)
    as (Hfs & Hclock & refine & harden & Hcalls & Hl1 & Hl2 & Hf1 & Hf2 & _ & Hne).
  split_and!; [done | done | | | |].
  - exists refine, harden. split_and!; [done | done | done | lia | lia].
  - unfold Spec.calls_made. rewrite Hcalls, length_app. cbn [length].
    rewrite length_app. lia.
  - unfold Spec.calls_made. rewrite Hcalls, length_app. cbn [length].
    rewrite length_app. lia.
  - intros s Hs Hcap. destruct (Hne s Hs) as [H1 H2]; [lia |].
    apply length_nonnil in H1, H2.
    unfold Spec.calls_made. rewrite Hcalls, length_app. cbn [length].
    rewrite length_app. lia.
Qed.

Lemma process_total env config hooks context w :
  Run.reliable env →
  ∃ s, (ModelPipeline.process env config hooks context w).1 = Ok s.
Proof.
  intros Hrel.
  destruct (process_calls env config hooks context w)
    as (_ & _ & refine & harden & _ & _ & _ & _ & _ & Hout & _).
  destruct (ModelPipeline.process env config hooks context w).1 as [s|e];
    [by eexists |].
  destruct Hout as (init & last & _ & _ & Hlast).
  destruct (Hrel (calls w ++ init) last) as [s Hs]. congruence.
Qed.

(** X3. Failures of the pipeline are failures of the endpoint.  When
    [process] returns, every call it made was answered; when it raises, the
    exception is the one the endpoint raised at the last call made, all
    earlier calls having been answered: the pipeline stops at the first
    failed call and raises nothing of its own.  With an endpoint that
    answers every request, [process] returns. *)
Theorem process_fails_at_last_call
    (env : Env) (config : Config.t) (hooks : PipelineHooks.t)
    (context : StepContext.t) (w : World) :
  let out := ModelPipeline.process env config hooks context w in
  (∃ made,
     calls out.2 = calls w ++ made
     ∧ match out.1 with
       | Ok _ => Run.answered env (calls w) made
       | Raise e =>
           ∃ init last,
             made = init ++ [last] ∧ Run.answered env (calls w) init
             ∧ oracle env (calls w ++ init) last = Raise e
       end)
  ∧ (Run.reliable env → ∃ s, out.1 = Ok s).
Proof.
  cbv zeta.
  destruct (process_calls env config hooks context w)
    as (_ & _ & refine & harden & Hcalls & _ & _ & _ & _ & Hout & _).
  split.
  - eexists. split; [exact Hcalls |]. exact Hout.
  - intros Hrel.
    destruct (ModelPipeline.process env config hooks context w).1 as [s|e];
      [by eexists |].
    destruct Hout as (init & last & _ & _ & Hlast).
    destruct (Hrel (calls w ++ init) last) as [s Hs]. congruence.
Qed.

(** X4. A cap of zero or less switches the iterative stages off.  With
    [max_iterations <= 0] the pipeline makes the draft call only; it returns
    the draft passed through the three hooks in the order [post_draft],
    [post_correction], [post_security], or raises what the draft call
    raised. *)
Theorem process_without_iterations
    (env : Env) (config : Config.t) (hooks : PipelineHooks.t)
    (context : StepContext.t) (w : World) :
  Config.max_iterations config ≤ 0 →
  ModelPipeline.process env config hooks context w
  = (match oracle env (calls w) (ModelPipeline.creative_request config context)
     with
     | Ok draft =>
         Ok (PipelineHooks.apply (PipelineHooks.post_security hooks)
               (PipelineHooks.apply (PipelineHooks.post_correction hooks)
                  (PipelineHooks.apply (PipelineHooks.post_draft hooks) draft)))
     | Raise e => Raise e
     end,
     {| fs := fs w;
        calls := calls w ++ [ModelPipeline.creative_request config context];
        clock := clock w |}).
Proof.
  intros Hcap. rewrite process_unfold, query_unfold.
  unfold Py.range. rewrite range2_nil by lia.
  by destruct (oracle env (calls w) _).
Qed.

Lemma process_without_iterations_witness :
  let config :=
    {| Config.ollama_api := "http://localhost:11434/api/generate";
       Config.model_a := "qwen2.5-coder:7b";
       Config.model_b := "deepseek-coder-v2:16b";
       Config.model_c := "codestral:22b";
       Config.temp_creative := 0.8;
       Config.temp_analytical := 0.3;
       Config.temp_adversarial := 0.7;
       Config.max_tokens := 2000;
       Config.max_iterations := 0;
       Config.output_file := "final_output.txt";
       Config.verbose := false |} in
  let context := Examples.context_with_draft "" in
  ModelPipeline.process (Examples.constant_env "draft") config
    PipelineHooks.new context Examples.world
  = (Ok "draft",
     {| fs := Examples.files;
        calls := [ModelPipeline.creative_request config context];
        clock := 0 |}).
Proof.
  intros config context.
  apply (process_without_iterations (Examples.constant_env "draft") config
           PipelineHooks.new context Examples.world).
  vm_compute. discriminate.
Defined.

(** ** Runs that complete *)

Lemma foldl_add_step_output (outs : list string) (st : StateManager.t) :
  let st' := foldl StateManager.add_step_output st outs in
  StateManager.step_outputs st' = StateManager.step_outputs st ++ outs
  ∧ StateManager.current_step_index st'
    = StateManager.current_step_index st + Z.of_nat (length outs)
  ∧ StateManager.cumulative_output st'
    = StateManager.cumulative_output st
      +:+ Spec.context_from (StateManager.current_step_index st) outs.
Proof.
  revert st. induction outs as [|o outs IH]; intros st; cbv zeta.
  - cbn. rewrite app_nil_r, string_app_nil_r. split_and!; [done | lia | done].
  - cbn [foldl]. destruct (IH (StateManager.add_step_output st o)) as (H1 & H2 & H3).
    rewrite H1, H2, H3. cbn [StateManager.add_step_output StateManager.step_outputs
      StateManager.current_step_index StateManager.cumulative_output
      Spec.context_from length].
    split_and!; [by rewrite <- app_assoc | lia | by rewrite string_app_assoc].
Qed.

(** One step of the loop of [run] that completes. *)
Lemma process_step_ok env guide_file spec_content steps i
    (e e' : WorkflowEngine.t) (w w' : World) :
  WorkflowEngine.process_step env guide_file spec_content steps i (e, w)
  = (Ok tt, (e', w')) →
  ∃ step_desc out,
    Py.index steps i = Ok step_desc
    ∧ (ModelPipeline.process env (WorkflowEngine.config e)
         (WorkflowEngine.pipeline_hooks e)
         (Spec.step_context spec_content i step_desc (WorkflowEngine.state e))
         w).1 = Ok out
    ∧ e' = WorkflowEngine.set_state e
             (StateManager.add_step_output (WorkflowEngine.state e) out)
    ∧ (∀ q, WorkflowEngine.checkpoint_file e ≠ Some q → fs w' !! q = fs w !! q)
    ∧ (∀ q, fs w !! q ≠ Some Dir → fs w' !! q ≠ Some Dir)
    ∧ 1 ≤ Spec.calls_made w w'
      ≤ 1 + 2 * Z.max 0 (Config.max_iterations (WorkflowEngine.config e))
    ∧ (1 ≤ Config.max_iterations (WorkflowEngine.config e) →
       3 ≤ Spec.calls_made w w').
Proof.
  rewrite process_step_unfold.
  destruct (Py.index steps i) as [step_desc|x]; [| done].
  pose proof (process_calls env (WorkflowEngine.config e)
                (WorkflowEngine.pipeline_hooks e)
                (Spec.step_context spec_content i step_desc
                   (WorkflowEngine.state e)) w) as Hp.
  cbv zeta in Hp.
  destruct (ModelPipeline.process _ _ _ _ w) as [[out|x] w1] eqn:Hproc; [| done].
  cbn [fst snd] in Hp.
  destruct Hp as (Hfs & _ & refine & harden & Hcalls & Hl1 & Hl2 & _ & _ & _ & Hne).
  assert (Hlo : 1 ≤ Spec.calls_made w w1
                ≤ 1 + 2 * Z.max 0 (Config.max_iterations (WorkflowEngine.config e))).
  { unfold Spec.calls_made. rewrite Hcalls, length_app. cbn [length].
    rewrite length_app. lia. }
  assert (H3 : 1 ≤ Config.max_iterations (WorkflowEngine.config e) →
               3 ≤ Spec.calls_made w w1).
  { intros Hcap. destruct (Hne out eq_refl) as [H1 H2]; [lia |].
    apply length_nonnil in H1, H2.
    unfold Spec.calls_made. rewrite Hcalls, length_app. cbn [length].
    rewrite length_app. lia. }
  assert (Hgoal : ∀ w', calls w' = calls w1 →
            (∀ q, WorkflowEngine.checkpoint_file e ≠ Some q →
                  fs w' !! q = fs w !! q) →
            (∀ q, fs w !! q ≠ Some Dir → fs w' !! q ≠ Some Dir) →
            ∃ step_desc0 out0,
              Ok step_desc = Ok step_desc0
              ∧ (ModelPipeline.process env (WorkflowEngine.config e)
                   (WorkflowEngine.pipeline_hooks e)
                   (Spec.step_context spec_content i step_desc0
                      (WorkflowEngine.state e)) w).1 = Ok out0
              ∧ WorkflowEngine.set_state e
                  (StateManager.add_step_output (WorkflowEngine.state e) out)
                = WorkflowEngine.set_state e
                    (StateManager.add_step_output (WorkflowEngine.state e) out0)
              ∧ (∀ q, WorkflowEngine.checkpoint_file e ≠ Some q →
                      fs w' !! q = fs w !! q)
              ∧ (∀ q, fs w !! q ≠ Some Dir → fs w' !! q ≠ Some Dir)
              ∧ 1 ≤ Spec.calls_made w w'
                ≤ 1 + 2 * Z.max 0 (Config.max_iterations (WorkflowEngine.config e))
              ∧ (1 ≤ Config.max_iterations (WorkflowEngine.config e) →
                 3 ≤ Spec.calls_made w w')).
  { intros w2 Hc Hq1 Hq2. exists step_desc, out. rewrite Hproc.
    unfold Spec.calls_made in *. rewrite Hc. destruct Hlo. by split_and!. }
  destruct (Py.truthy (WorkflowEngine.checkpoint_file e)) eqn:Htruthy.
  - rewrite save_checkpoint_unfold. cbn [WorkflowEngine.checkpoint_file
      WorkflowEngine.set_state WorkflowEngine.state].
    destruct (WorkflowEngine.checkpoint_file e) as [path|] eqn:Hcp; [| done].
    cbv zeta. unfold Checkpoint.save, os.write_file. cbn [fs].
    assert (Hins : ∀ text q, fs w !! q ≠ Some Dir →
              <[path := File text]> (fs w1) !! q ≠ Some Dir).
    { intros text q Hq. destruct (decide (path = q)) as [->|].
      - by rewrite lookup_insert_eq.
      - rewrite lookup_insert_ne by done. by rewrite Hfs. }
    destruct (fs w1 !! path) as [[c|]|] eqn:Hpath; intros ?; simplify_eq.
    + apply Hgoal; [done | | apply Hins].
      intros q Hq. cbn. rewrite lookup_insert_ne by congruence. by rewrite Hfs.
    + apply Hgoal; [done | | apply Hins].
      intros q Hq. cbn. rewrite lookup_insert_ne by congruence. by rewrite Hfs.
  - cbv zeta. intros ?; simplify_eq. apply Hgoal; [done | |].
    + intros q _. by rewrite Hfs.
    + intros q. by rewrite Hfs.
Qed.

Lemma set_state_same (e : WorkflowEngine.t) :
  WorkflowEngine.set_state e (WorkflowEngine.state e) = e.
Proof. by destruct e. Qed.

Lemma set_state_twice (e : WorkflowEngine.t) (a b : StateManager.t) :
  WorkflowEngine.set_state (WorkflowEngine.set_state e a) b
  = WorkflowEngine.set_state e b.
Proof. done. Qed.

Lemma for_each_ok env guide_file spec_content steps (ks : list Z)
    (e e' : WorkflowEngine.t) (w w' : World) :
  Py.for_each ks
    (WorkflowEngine.process_step env guide_file spec_content steps) (e, w)
  = (Ok tt, (e', w')) →
  ∃ outs,
    length outs = length ks
    ∧ e' = WorkflowEngine.set_state e
             (foldl StateManager.add_step_output (WorkflowEngine.state e) outs)
    ∧ (∀ q, WorkflowEngine.checkpoint_file e ≠ Some q → fs w' !! q = fs w !! q)
    ∧ (∀ q, fs w !! q ≠ Some Dir → fs w' !! q ≠ Some Dir)
    ∧ Z.of_nat (length ks) ≤ Spec.calls_made w w'
      ≤ Z.of_nat (length ks)
        * (1 + 2 * Z.max 0 (Config.max_iterations (WorkflowEngine.config e)))
    ∧ (1 ≤ Config.max_iterations (WorkflowEngine.config e) →
       3 * Z.of_nat (length ks) ≤ Spec.calls_made w w').
Proof.
  revert e w. induction ks as [|i ks IH]; intros e w.
  - unfold Py.for_each, mret, M_ret. intros ?; simplify_eq. exists [].
    cbn [length foldl]. rewrite set_state_same.
    unfold Spec.calls_made. split_and!; try done; lia.
  - cbn [Py.for_each]. rewrite mbind_unfold.
    destruct (WorkflowEngine.process_step _ _ _ _ i (e, w))
      as [[[]|x] [e1 w1]] eqn:Hstep; [| done].
    intros Hrest.
    destruct (process_step_ok _ _ _ _ _ _ _ _ _ Hstep)
      as (d & out & _ & _ & -> & Hq1 & Hd1 & Hc1 & Hc1').
    destruct (IH _ _ Hrest) as (outs & Hlen & -> & Hq2 & Hd2 & Hc2 & Hc2').
    cbn [WorkflowEngine.set_state WorkflowEngine.checkpoint_file
         WorkflowEngine.config WorkflowEngine.state] in *.
    exists (out :: outs). cbn [length foldl].
    unfold Spec.calls_made in *.
    split_and!.
    + by rewrite Hlen.
    + done.
    + intros q Hq. by rewrite Hq2, Hq1.
    + intros q Hq. by apply Hd2, Hd1.
    + lia.
    + nia.
    + intros Hcap. specialize (Hc1' Hcap). specialize (Hc2' Hcap). lia.
Qed.

Lemma elem_of_range2 (a b i : Z) : i ∈ Py.range2 a b ↔ a ≤ i < b.
Proof.
  unfold Py.range2. rewrite list_elem_of_fmap. split.
  - intros (k & -> & Hk). apply elem_of_seq in Hk. lia.
  - intros Hi. exists (Z.to_nat (i - a)). split; [lia |].
    apply elem_of_seq. lia.
Qed.

Lemma index_in_range {A} (l : list A) (i : Z) :
  0 ≤ i < Z.of_nat (length l) → ∃ x, Py.index l i = Ok x.
Proof.
  intros Hi. unfold Py.index. cbv zeta.
  destruct (decide (i < 0)); [lia |].
  destruct (decide (0 ≤ i < Z.of_nat (length l))); [| lia].
  destruct (lookup_lt_is_Some_2 l (Z.to_nat i)) as [x Hx]; [lia |].
  rewrite Hx. by eexists.
Qed.

Lemma load_specification_ok (f : gmap string node) (spec : string) :
  ∃ spec_content,
    (if os.path_isfile f spec then os.read_file f spec else Ok spec)
    = Ok spec_content.
Proof.
  unfold os.path_isfile, os.read_file.
  destruct (f !! spec) as [[c|]|]; by eexists.
Qed.

(** X5. What a run without resume returns.  If the guide loads to [n]
    steps and the run of a new engine returns [out], then [out] is the
    cumulative text of [n] step outputs numbered from 1, the engine ends
    with exactly that accumulation state, the output file holds [out], every
    file other than the output file and the checkpoint file is as it was,
    and the run made at least [n] and at most
    [n * (1 + 2 * max(0, max_iterations))] generation calls, at least
    [3 * n] when the cap is at least one. *)
Theorem fresh_run_output
    (env : Env) (config : Config.t) (hooks : option PipelineHooks.t)
    (checkpoint_file : option string) (spec guide_file : string)
    (steps : list string) (w w' : World) (out : string)
    (e' : WorkflowEngine.t) :
  GuideLoader.load (fs w) guide_file = Ok steps →
  WorkflowEngine.run env spec guide_file None
    (WorkflowEngine.new config hooks checkpoint_file, w)
  = (Ok out, (e', w')) →
  let n := Z.of_nat (length steps) in
  (∃ outputs,
     length outputs = length steps
     ∧ out = Spec.context_from 0 outputs
     ∧ WorkflowEngine.state e'
       = {| StateManager.cumulative_output := out;
            StateManager.current_step_index := n;
            StateManager.step_outputs := outputs |})
  ∧ fs w' !! Config.output_file config = Some (File out)
  ∧ (∀ q, q ≠ Config.output_file config → checkpoint_file ≠ Some q →
          fs w' !! q = fs w !! q)
  ∧ n ≤ Spec.calls_made w w' ≤ n * (1 + 2 * Z.max 0 (Config.max_iterations config))
  ∧ (1 ≤ Config.max_iterations config → 3 * n ≤ Spec.calls_made w w').
Proof.
  intros Hload. rewrite run_unfold, Hload.
  destruct (load_specification_ok (fs w) spec) as [sc ->].
  rewrite resume_none.
  destruct (Py.for_each _ _ _) as [[[]|x] [e1 w1]] eqn:Hloop; [| done].
  destruct (for_each_ok _ _ _ _ _ _ _ _ _ Hloop)
    as (outputs & Hlen & -> & Hq & _ & Hc & Hc').
  rewrite range2_length in Hlen, Hc, Hc'.
  replace (Z.of_nat (Z.to_nat (Z.of_nat (length steps) - 0)))
    with (Z.of_nat (length steps)) in * by lia.
  cbn [WorkflowEngine.new WorkflowEngine.set_state WorkflowEngine.config
       WorkflowEngine.state WorkflowEngine.checkpoint_file] in *.
  assert (Hst : foldl StateManager.add_step_output StateManager.new outputs
                = {| StateManager.cumulative_output := Spec.context_from 0 outputs;
                     StateManager.current_step_index := Z.of_nat (length steps);
                     StateManager.step_outputs := outputs |}).
  { destruct (foldl_add_step_output outputs StateManager.new) as (Ho & Hi & Hcum).
    cbn [StateManager.new StateManager.step_outputs
         StateManager.current_step_index StateManager.cumulative_output] in *.
    rewrite string_app_nil_l in Hcum.
    destruct (foldl _ _ _); cbn in *. f_equal; [done | lia | done]. }
  rewrite Hst. cbn [StateManager.cumulative_output].
  assert (Hgoal : ∀ w2,
            calls w2 = calls w1 →
            fs w2 = <[Config.output_file config
                      := File (Spec.context_from 0 outputs)]> (fs w1) →
            (∃ outputs0,
               length outputs0 = length steps
               ∧ Spec.context_from 0 outputs = Spec.context_from 0 outputs0
               ∧ {| StateManager.cumulative_output := Spec.context_from 0 outputs;
                    StateManager.current_step_index := Z.of_nat (length steps);
                    StateManager.step_outputs := outputs |}
                 = {| StateManager.cumulative_output := Spec.context_from 0 outputs;
                      StateManager.current_step_index := Z.of_nat (length steps);
                      StateManager.step_outputs := outputs0 |})
            ∧ fs w2 !! Config.output_file config
              = Some (File (Spec.context_from 0 outputs))
            ∧ (∀ q, q ≠ Config.output_file config → checkpoint_file ≠ Some q →
                    fs w2 !! q = fs w !! q)
            ∧ Z.of_nat (length steps) ≤ Spec.calls_made w w2
              ≤ Z.of_nat (length steps)
                * (1 + 2 * Z.max 0 (Config.max_iterations config))
            ∧ (1 ≤ Config.max_iterations config →
               3 * Z.of_nat (length steps) ≤ Spec.calls_made w w2)).
  { intros w2 Hcalls Hfs. unfold Spec.calls_made in *. rewrite Hcalls, Hfs.
    destruct Hc. split_and!; [| by rewrite lookup_insert_eq | | done | done | done].
    - exists outputs. split_and!; [lia | done | done].
    - intros q Hq1 Hq2. rewrite lookup_insert_ne by done. by apply Hq. }
  unfold os.write_file.
  destruct (fs w1 !! Config.output_file config) as [[c|]|] eqn:Hout;
    intros ?; simplify_eq; cbv zeta; by apply Hgoal.
Qed.

Lemma fresh_run_output_witness :
  let run :=
    WorkflowEngine.run Examples.counting_env "Build a REST API" "guide.txt" None
      (WorkflowEngine.new Examples.default_config None None, Examples.world) in
  ∃ out,
    run.1 = Ok out
    ∧ fs run.2.2 !! "final_output.txt" = Some (File out)
    ∧ 9 ≤ Spec.calls_made Examples.world run.2.2 ≤ 21.
Proof.
  intros run.
  set (out := match run.1 with Ok s => s | Raise _ => "" end).
  assert (Hrun : run = (Ok out, (run.2.1, run.2.2))) by (vm_compute; reflexivity).
  destruct (fresh_run_output Examples.counting_env Examples.default_config
              None None "Build a REST API" "guide.txt"
              ["First"; "Second"; "Third"] Examples.world run.2.2 out run.2.1)
    as (_ & Hfile & _ & Hcalls & Hmin).
  - vm_compute. reflexivity.
  - exact Hrun.
  - exists out. split_and!.
    + by rewrite Hrun.
    + exact Hfile.
    + apply Hmin. vm_compute. discriminate.
    + exact (proj2 Hcalls).
Defined.

Lemma writable_no_directory (f : gmap string node) (p : string) :
  Files.writable f p = true → f !! p ≠ Some Dir.
Proof.
  unfold Files.writable, os.path_isdir. cbv zeta.
  rewrite !andb_true_iff. intros [[[_ _] Hp] _] Hdir.
  by rewrite Hdir in Hp.
Qed.

Lemma write_file_world (p c : string) (w : World) :
  let r := os.write_file p c w in
  calls r.2 = calls w ∧ clock r.2 = clock w
  ∧ (∀ q, fs w !! q ≠ Some Dir → fs r.2 !! q ≠ Some Dir)
  ∧ (∀ x, r.1 = Raise x → r.2 = w)
  ∧ (r.1 = Ok tt →
     fs r.2 !! p = Some (File c) ∧ ∀ q, q ≠ p → fs r.2 !! q = fs w !! q).
Proof.
  unfold os.write_file. cbv zeta.
  destruct (fs w !! p) as [[old|]|] eqn:Hp; cbn; split_and!; try done.
  - intros q Hq. destruct (decide (q = p)) as [->|Hne].
    + by rewrite lookup_insert_eq.
    + by rewrite lookup_insert_ne.
  - intros _. split; [by rewrite lookup_insert_eq |].
    intros q Hq. by rewrite lookup_insert_ne.
  - intros q Hq. destruct (decide (q = p)) as [->|Hne].
    + by rewrite lookup_insert_eq.
    + by rewrite lookup_insert_ne.
  - intros _. split; [by rewrite lookup_insert_eq |].
    intros q Hq. by rewrite lookup_insert_ne.
Qed.

(** With an endpoint that answers every request, a step can only fail
    when its checkpoint is written. *)
Lemma process_step_reliable env guide_file spec_content steps i
    (e : WorkflowEngine.t) (w : World) :
  Run.reliable env →
  0 ≤ i < Z.of_nat (length steps) →
  let r :=
    WorkflowEngine.process_step env guide_file spec_content steps i (e, w) in
  match r.1 with
  | Ok _ => True
  | Raise x =>
      ∃ p text w1,
        WorkflowEngine.checkpoint_file e = Some p
        ∧ Py.truthy (Some p) = true
        ∧ fs w1 = fs w
        ∧ (os.write_file p text w1).1 = Raise x
  end.
Proof.
  intros Hrel Hi. cbv zeta. rewrite process_step_unfold.
  destruct (index_in_range steps i Hi) as [d ->].
  destruct (process_total env (WorkflowEngine.config e)
              (WorkflowEngine.pipeline_hooks e)
              (Spec.step_context spec_content i d (WorkflowEngine.state e))
              w Hrel) as [out Hout].
  destruct (generation_only_process env (WorkflowEngine.config e)
              (WorkflowEngine.pipeline_hooks e)
              (Spec.step_context spec_content i d (WorkflowEngine.state e)) w)
    as (Hfs & _).
  destruct (ModelPipeline.process _ _ _ _ w) as [[o|x] w1];
    cbn [fst snd] in *; [| done].
  cbv zeta. destruct (Py.truthy (WorkflowEngine.checkpoint_file e)) eqn:Ht;
    [| done].
  rewrite save_checkpoint_unfold. cbv zeta.
  cbn [WorkflowEngine.checkpoint_file WorkflowEngine.set_state].
  destruct (WorkflowEngine.checkpoint_file e) as [path|]; [| done].
  unfold Checkpoint.save.
  destruct (os.write_file path _ _) as [[[]|x] w2] eqn:Hw; cbn [fst]; [done |].
  eexists path, _, _. split_and!; [done | done | | by rewrite Hw].
  done.
Qed.

Lemma for_each_reliable env guide_file spec_content steps (ks : list Z)
    (e : WorkflowEngine.t) (w : World) :
  Run.reliable env →
  (∀ i, i ∈ ks → 0 ≤ i < Z.of_nat (length steps)) →
  let r :=
    Py.for_each ks
      (WorkflowEngine.process_step env guide_file spec_content steps) (e, w) in
  match r.1 with
  | Ok _ => True
  | Raise x =>
      ∃ p text w1,
        WorkflowEngine.checkpoint_file e = Some p
        ∧ Py.truthy (Some p) = true
        ∧ (∀ q, fs w !! q ≠ Some Dir → fs w1 !! q ≠ Some Dir)
        ∧ (os.write_file p text w1).1 = Raise x
  end.
Proof.
  intros Hrel. cbv zeta. revert e w.
  induction ks as [|i ks IH]; intros e w Hks; [done |].
  cbn [Py.for_each]. rewrite mbind_unfold.
  pose proof (process_step_reliable env guide_file spec_content steps i e w
                Hrel) as Hstep.
  cbv zeta in Hstep.
  pose proof (process_step_engine env guide_file spec_content steps i (e, w))
    as Hfields.
  cbv zeta in Hfields.
  destruct (WorkflowEngine.process_step _ _ _ _ i (e, w))
    as [[[]|x] [e1 w1]] eqn:Hrun; cbn [fst snd] in *.
  - destruct Hfields as (_ & _ & Hck).
    destruct (process_step_ok _ _ _ _ _ _ _ _ _ Hrun)
      as (_ & _ & _ & _ & _ & _ & Hdir & _).
    assert (Hks' : ∀ j, j ∈ ks → 0 ≤ j < Z.of_nat (length steps)).
    { intros j Hj. apply Hks. by right. }
    specialize (IH e1 w1 Hks').
    destruct (Py.for_each ks _ (e1, w1)) as [[[]|x] s']; cbn [fst] in *;
      [done |].
    destruct IH as (p & text & w2 & Hp & Ht & Hd & Hw).
    exists p, text, w2. rewrite <- Hck. split_and!; [done | done | | done].
    intros q Hq. by apply Hd, Hdir.
  - destruct Hstep as (p & text & w2 & Hp & Ht & Hfs & Hw); [apply Hks; by left |].
    exists p, text, w2. split_and!; [done | done | | done].
    intros q Hq. by rewrite Hfs.
Qed.

(** X6. What can make a run fail.  Let the guide load and the endpoint
    answer every request.  Then the run of a new engine without resume
    either returns or raises the error of a write, to its output file or
    to its checkpoint file.  It returns whenever a file can be written at
    both paths: each names an entry in an existing directory and no
    directory stands in its place. *)
Theorem run_succeeds
    (env : Env) (config : Config.t) (hooks : option PipelineHooks.t)
    (checkpoint_file : option string) (spec guide_file : string)
    (steps : list string) (w : World) :
  GuideLoader.load (fs w) guide_file = Ok steps →
  Run.reliable env →
  let r :=
    WorkflowEngine.run env spec guide_file None
      (WorkflowEngine.new config hooks checkpoint_file, w) in
  (∀ x, r.1 = Raise x →
     ∃ p text w1,
       (p = Config.output_file config
        ∨ checkpoint_file = Some p ∧ Py.truthy (Some p) = true)
       ∧ (os.write_file p text w1).1 = Raise x)
  ∧ (Files.writable (fs w) (Config.output_file config) = true →
     (∀ path, checkpoint_file = Some path → Py.truthy (Some path) = true →
              Files.writable (fs w) path = true) →
     ∃ out, r.1 = Ok out).
Proof.
  intros Hload Hrel. cbv zeta. rewrite run_unfold, Hload.
  destruct (load_specification_ok (fs w) spec) as [sc ->].
  rewrite resume_none.
  pose proof (for_each_reliable env guide_file sc steps
                (Py.range2 0 (Z.of_nat (length steps)))
                (WorkflowEngine.new config hooks checkpoint_file) w Hrel)
    as Hloop.
  cbv zeta in Hloop.
  destruct (Py.for_each _ _ _) as [[[]|x] [e1 w1]] eqn:Hrun; cbn [fst] in *.
  - destruct (for_each_ok _ _ _ _ _ _ _ _ _ Hrun)
      as (outputs & _ & -> & _ & Hdir & _).
    cbn [WorkflowEngine.new WorkflowEngine.set_state WorkflowEngine.config
         WorkflowEngine.state].
    destruct (os.write_file (Config.output_file config) _ w1)
      as [[[]|x] w2] eqn:Hw; cbn [fst].
    + split; [done |]. intros _ _. by eexists.
    + split.
      * intros ? [= <-]. eexists _, _, w1. split; [by left |]. by rewrite Hw.
      * intros Hout _. apply writable_no_directory, Hdir in Hout.
        unfold os.write_file in Hw.
        by destruct (fs w1 !! Config.output_file config) as [[c|]|].
  - destruct Hloop as (p & text & w2 & Hp & Ht & Hd & Hw).
    { intros i Hi. by apply elem_of_range2 in Hi. }
    cbn [WorkflowEngine.new WorkflowEngine.checkpoint_file] in Hp.
    split.
    + intros ? [= <-]. exists p, text, w2. split; [by right | done].
    + intros _ Hcp. specialize (Hcp p Hp Ht).
      apply writable_no_directory, Hd in Hcp.
      unfold os.write_file in Hw.
      by destruct (fs w2 !! p) as [[c|]|].
Qed.

Lemma run_succeeds_witness :
  ∃ out,
    (WorkflowEngine.run Examples.counting_env "Build a REST API" "guide.txt"
       None
       (WorkflowEngine.new Examples.default_config None
          (Some "checkpoint.json"),
        Examples.world)).1
    = Ok out.
Proof.
  destruct (run_succeeds Examples.counting_env Examples.default_config None
              (Some "checkpoint.json") "Build a REST API" "guide.txt"
              ["First"; "Second"; "Third"] Examples.world)
    as [_ Hreturns].
  - vm_compute. reflexivity.
  - intros hist r. eexists. reflexivity.
  - apply Hreturns.
    + vm_compute. reflexivity.
    + intros path [= <-] _. vm_compute. reflexivity.
Defined.

(** ** The descriptions of a guide *)

Lemma ends_nonspace_cons (c : ascii) (s : string) :
  s ≠ "" → Text.ends_nonspace (String c s) = Text.ends_nonspace s.
Proof. by destruct s. Qed.

Lemma ends_nonspace_nonempty (s : string) :
  Text.ends_nonspace s = true → s ≠ "".
Proof. by destruct s. Qed.

Lemma rstrip_ends_nonspace (s : string) :
  Py.rstrip s ≠ "" → Text.ends_nonspace (Py.rstrip s) = true.
Proof.
  induction s as [|c s IH]; [done |]. cbn [Py.rstrip].
  destruct (Py.rstrip s) as [|d r] eqn:Hr.
  - destruct (Py.isspace c) eqn:Hc; [done |]. intros _. cbn. by rewrite Hc.
  - intros _. rewrite ends_nonspace_cons by done. by apply IH.
Qed.

Lemma rstrip_fixed (s : string) :
  Text.ends_nonspace s = true → Py.rstrip s = s.
Proof.
  induction s as [|c s IH]; [done |]. destruct s as [|d s].
  - cbn. intros H. by destruct (Py.isspace c).
  - rewrite ends_nonspace_cons by done. intros H. specialize (IH H).
    cbn [Py.rstrip] in *. by rewrite IH.
Qed.

Lemma lstrip_ends_nonspace (s : string) :
  Text.ends_nonspace s = true → Text.ends_nonspace (Py.lstrip s) = true.
Proof.
  induction s as [|c s IH]; [done |]. intros H. cbn [Py.lstrip].
  destruct (Py.isspace c) eqn:Hc; [| done].
  apply IH. destruct s as [|d s]; [cbn in H; by rewrite Hc in H |].
  by rewrite ends_nonspace_cons in H.
Qed.

Lemma lstrip_head (s : string) :
  match Py.lstrip s with
  | "" => True
  | String c _ => Py.isspace c = false
  end.
Proof.
  induction s as [|c s IH]; [done |]. cbn [Py.lstrip].
  by destruct (Py.isspace c) eqn:Hc.
Qed.

Lemma lstrip_fixed (c : ascii) (s : string) :
  Py.isspace c = false → Py.lstrip (String c s) = String c s.
Proof. intros H. cbn. by rewrite H. Qed.

Lemma rstrip_head (c : ascii) (s : string) :
  Py.isspace c = false → ∃ r, Py.rstrip (String c s) = String c r.
Proof.
  intros H. cbn [Py.rstrip]. destruct (Py.rstrip s); [| by eexists].
  rewrite H. by eexists.
Qed.

(** The result of [strip] is empty or starts and ends with a character
    that is no white space, so stripping it again changes nothing. *)
Lemma strip_shape (s : string) :
  Py.strip s = ""
  ∨ (Text.ends_nonspace (Py.strip s) = true
     ∧ ∃ c r, Py.strip s = String c r ∧ Py.isspace c = false).
Proof.
  unfold Py.strip. pose proof (lstrip_head s) as Hh.
  destruct (Py.lstrip s) as [|c t] eqn:Hl; [by left |].
  destruct (rstrip_head c t Hh) as [r Hr]. right. split.
  - apply rstrip_ends_nonspace. by rewrite Hr.
  - by exists c, r.
Qed.

Lemma strip_idempotent (s : string) : Py.strip (Py.strip s) = Py.strip s.
Proof.
  destruct (strip_shape s) as [->|(Hend & c & r & Hs & Hc)]; [done |].
  unfold Py.strip at 1. rewrite Hs, (lstrip_fixed c r Hc), <- Hs.
  by apply rstrip_fixed.
Qed.

Lemma strip_nonempty (s : string) :
  Text.ends_nonspace s = true → Py.strip s ≠ "".
Proof.
  intros H. unfold Py.strip. apply lstrip_ends_nonspace in H.
  rewrite (rstrip_fixed _ H). by apply ends_nonspace_nonempty.
Qed.

Lemma chars_lstrip (s : string) (x : ascii) :
  x ∈ Text.chars (Py.lstrip s) → x ∈ Text.chars s.
Proof.
  induction s as [|c s IH]; [done |]. cbn [Py.lstrip].
  destruct (Py.isspace c); [| done]. intros Hx. right. by apply IH.
Qed.

Lemma chars_rstrip (s : string) (x : ascii) :
  x ∈ Text.chars (Py.rstrip s) → x ∈ Text.chars s.
Proof.
  induction s as [|c s IH]; [done |]. cbn [Py.rstrip].
  destruct (Py.rstrip s) as [|d r].
  - destruct (Py.isspace c); cbn [Text.chars].
    + by intros ?%elem_of_nil.
    + intros ->%list_elem_of_singleton. by left.
  - cbn [Text.chars] in *. intros [->|Hx]%elem_of_cons; [by left |].
    right. by apply IH.
Qed.

Lemma chars_strip (s : string) (x : ascii) :
  x ∈ Text.chars (Py.strip s) → x ∈ Text.chars s.
Proof. intros Hx. by apply chars_lstrip, chars_rstrip. Qed.

(** The pieces of the pattern. *)

Lemma dot_plus_end_group (s g : string) :
  GuideLoader.dot_plus_end s = Some g →
  g ≠ "" ∧ ("010"%char ∉ Text.chars g)
  ∧ (Text.ends_nonspace s = true → g = s).
Proof.
  revert g. induction s as [|c s IH]; intros g; [done |].
  cbn [GuideLoader.dot_plus_end].
  destruct (Ascii.eqb_spec c "010") as [->|Hc]; [done |].
  assert (Hone : "010"%char ∉ Text.chars (String c "")).
  { cbn. intros Hx%list_elem_of_singleton. congruence. }
  destruct s as [|d s].
  - intros ?; simplify_eq. by split_and!.
  - assert (Hrec : ∀ g', GuideLoader.dot_plus_end (String d s) = Some g' →
              String c g' ≠ "" ∧ ("010"%char ∉ Text.chars (String c g'))
              ∧ (Text.ends_nonspace (String c (String d s)) = true →
                 String c g' = String c (String d s))).
    { intros g' Hg. destruct (IH _ Hg) as (H1 & H2 & H3).
      split_and!; [done | |].
      - cbn [Text.chars]. apply not_elem_of_cons. by split.
      - rewrite ends_nonspace_cons by done. intros H. by rewrite (H3 H). }
    destruct (Ascii.eqb_spec d "010") as [->|Hd]; cbn [andb].
    + destruct (String.eqb_spec s "") as [->|Hs].
      * intros ?; simplify_eq. by split_and!.
      * destruct (GuideLoader.dot_plus_end (String "010" s)) as [g'|] eqn:Hg;
          [| done].
        intros ?; simplify_eq; by apply Hrec.
    + destruct (GuideLoader.dot_plus_end (String d s)) as [g'|] eqn:Hg;
        [| done].
      intros ?; simplify_eq. by apply Hrec.
Qed.

Lemma spaces_then_rest_group (s g : string) :
  GuideLoader.spaces_then_rest s = Some g →
  g ≠ "" ∧ ("010"%char ∉ Text.chars g)
  ∧ (Text.ends_nonspace s = true → Text.ends_nonspace g = true).
Proof.
  revert g. induction s as [|c s IH]; intros g; [done |].
  cbn [GuideLoader.spaces_then_rest].
  assert (Hdot : GuideLoader.dot_plus_end (String c s) = Some g →
            g ≠ "" ∧ ("010"%char ∉ Text.chars g)
            ∧ (Text.ends_nonspace (String c s) = true →
               Text.ends_nonspace g = true)).
  { intros H. destruct (dot_plus_end_group _ _ H) as (H1 & H2 & H3).
    split_and!; [done | done |]. intros He. by rewrite (H3 He). }
  destruct (Py.isspace c) eqn:Hc; [| done].
  destruct (GuideLoader.spaces_then_rest s) as [g'|] eqn:Hg; [| done].
  intros ?; simplify_eq. destruct (IH _ eq_refl) as (H1 & H2 & H3).
  split_and!; [done | done |]. intros He. apply H3.
  destruct s as [|d s]; [done |]. by rewrite ends_nonspace_cons in He.
Qed.

Lemma span_app (f : ascii → bool) (s : string) :
  s = (GuideLoader.span f s).1 +:+ (GuideLoader.span f s).2.
Proof.
  induction s as [|c s IH]; [done |]. cbn [GuideLoader.span].
  destruct (f c); [| done]. destruct (GuideLoader.span f s) as [a b].
  cbn in *. by rewrite string_app_cons, <- IH.
Qed.

Lemma ends_nonspace_app_r (a b : string) :
  b ≠ "" → Text.ends_nonspace (a +:+ b) = Text.ends_nonspace b.
Proof.
  intros Hb. induction a as [|c a IH]; [done |].
  rewrite string_app_cons, ends_nonspace_cons; [done |].
  destruct a; [by rewrite string_app_nil_l | by rewrite string_app_cons].
Qed.

Lemma span_ends_nonspace (f : ascii → bool) (s : string) :
  (GuideLoader.span f s).2 ≠ "" →
  Text.ends_nonspace (GuideLoader.span f s).2 = Text.ends_nonspace s.
Proof.
  intros Hb. rewrite (span_app f s) at 2. by rewrite ends_nonspace_app_r.
Qed.

Lemma string_app_nonempty_r (a b : string) : b ≠ "" → a +:+ b ≠ "".
Proof. intros Hb. destruct a; [done | by rewrite string_app_cons]. Qed.

Lemma STEP_PATTERN_group (line ds g : string) :
  GuideLoader.STEP_PATTERN_match line = Some (ds, g) →
  g ≠ "" ∧ ("010"%char ∉ Text.chars g)
  ∧ (Text.ends_nonspace line = true → Text.ends_nonspace g = true).
Proof.
  unfold GuideLoader.STEP_PATTERN_match.
  destruct line as [|c1 [|c2 [|c3 [|c4 r]]]]; try done.
  destruct (_ && _); [| done].
  pose proof (span_ends_nonspace Py.isspace r) as H1.
  pose proof (span_app Py.isspace r) as E1.
  destruct (GuideLoader.span Py.isspace r) as [ws r1]. cbn [fst snd] in H1, E1.
  destruct (String.eqb ws ""); [done |].
  pose proof (span_ends_nonspace Py.isdigit r1) as H2.
  pose proof (span_app Py.isdigit r1) as E2.
  destruct (GuideLoader.span Py.isdigit r1) as [ds' r2]. cbn [fst snd] in H2, E2.
  destruct (String.eqb ds' ""); [done |].
  destruct r2 as [|c5 r3]; [done |].
  destruct (Ascii.eqb c5 ":"); [| done].
  destruct (GuideLoader.spaces_then_rest r3) as [g'|] eqn:Hg; [| done].
  intros ?; simplify_eq.
  destruct (spaces_then_rest_group _ _ Hg) as (Hne & Hnl & Hend).
  split_and!; [done | done |]. intros He. apply Hend.
  assert (Hr3 : r3 ≠ "") by (by destruct r3).
  assert (Hr1 : ds +:+ String c5 r3 ≠ "") by (by apply string_app_nonempty_r).
  assert (Hr : ws +:+ ds +:+ String c5 r3 ≠ "")
    by (by apply string_app_nonempty_r).
  rewrite !ends_nonspace_cons in He by done.
  rewrite <- H1, <- H2 in He by done.
  by rewrite ends_nonspace_cons in He.
Qed.

(** What a recognised line contributes. *)
Lemma recognize_description (line : string) (k : N) (d : string) :
  Spec.recognize line = Some (k, d) →
  d ≠ "" ∧ Py.strip d = d ∧ ("010"%char ∉ Text.chars d).
Proof.
  unfold Spec.recognize.
  destruct (GuideLoader.STEP_PATTERN_match (Py.strip line)) as [[g1 g2]|] eqn:Hm;
    [| done].
  intros ?; simplify_eq.
  destruct (STEP_PATTERN_group _ _ _ Hm) as (Hne & Hnl & Hend).
  split_and!.
  - apply strip_nonempty, Hend.
    destruct (strip_shape line) as [Hs|[Hs _]]; [| done].
    by rewrite Hs in Hm.
  - apply strip_idempotent.
  - intros Hin. by apply Hnl, chars_strip.
Qed.

Lemma load_nonempty (f : gmap string node) (file_path : string) steps :
  GuideLoader.load f file_path = Ok steps → steps ≠ [].
Proof.
  intros Hload. destruct (load_reads_file _ _ _ Hload) as [content Hc].
  rewrite (load_file _ _ _ Hc) in Hload. cbv zeta in Hload.
  destruct (decide _) as [|Hne]; [done |]. injection Hload as <-.
  destruct (map_choose _ Hne) as (k & d & Hk).
  assert (Hin : k ∈ GuideLoader.sorted_keys
                      (foldl (λ d kv, insert kv.1 kv.2 d) ∅
                         (Spec.recognized content))).
  { apply elem_of_sorted_keys. by eexists. }
  intros Hnil. apply fmap_nil_inv in Hnil. rewrite Hnil in Hin.
  by apply not_elem_of_nil in Hin.
Qed.

Lemma load_elements (f : gmap string node) (file_path : string) steps d :
  GuideLoader.load f file_path = Ok steps →
  d ∈ steps →
  ∃ content line k,
    f !! file_path = Some (File content)
    ∧ line ∈ os.lines content ∧ Spec.recognize line = Some (k, d).
Proof.
  intros Hload Hd. destruct (load_reads_file _ _ _ Hload) as [content Hc].
  rewrite (load_file _ _ _ Hc) in Hload. cbv zeta in Hload.
  destruct (decide _) as [|Hne]; [done |]. injection Hload as <-.
  apply list_elem_of_fmap in Hd as (k & -> & Hk).
  apply elem_of_sorted_keys in Hk as [v Hv].
  rewrite (lookup_total_correct _ _ _ Hv).
  apply lookup_foldl_insert in Hv as [(before & after & Hpairs & _)|[_ Hv]];
    [| done].
  assert (Hin : (k, v) ∈ Spec.recognized content).
  { rewrite Hpairs. apply elem_of_app. right. by left. }
  unfold Spec.recognized in Hin. apply list_elem_of_omap in Hin as (line & Hl & Hr).
  by exists content, line, k.
Qed.

(** X1. The steps a guide loads to.  Whenever [GuideLoader.load] returns,
    its list is not empty, and every description in it is a non-empty text
    that [str.strip] leaves unchanged, so that it neither starts nor ends
    with white space, and that holds no line feed. *)
Theorem load_descriptions_trimmed
    (f : gmap string node) (file_path : string) (steps : list string) :
  GuideLoader.load f file_path = Ok steps →
  steps ≠ []
  ∧ Forall (λ d, d ≠ "" ∧ Py.strip d = d ∧ ("010"%char ∉ Text.chars d)) steps.
Proof.
  intros Hload. split; [by eapply load_nonempty |].
  apply Forall_forall. intros d Hd.
  destruct (load_elements _ _ _ _ Hload Hd) as (content & line & k & _ & _ & Hr).
  by eapply recognize_description.
Qed.

Lemma load_descriptions_trimmed_witness :
  GuideLoader.load Examples.files "guide.txt" = Ok ["First"; "Second"; "Third"]
  ∧ Forall (λ d, d ≠ "" ∧ Py.strip d = d ∧ ("010"%char ∉ Text.chars d))
      ["First"; "Second"; "Third"].
Proof.
  assert (H : GuideLoader.load Examples.files "guide.txt"
              = Ok ["First"; "Second"; "Third"]) by (vm_compute; reflexivity).
  split; [exact H |].
  exact (proj2 (load_descriptions_trimmed Examples.files "guide.txt" _ H)).
Defined.

(** ** Resumed runs *)

Lemma resume_loaded (path : string) (c : Checkpoint.t)
    (e : WorkflowEngine.t) (w : World) :
  Py.truthy (Some path) = true →
  Checkpoint.load (fs w) path = Ok c →
  WorkflowEngine.resume_from_checkpoint (Some path) (e, w)
  = (Ok (Checkpoint.completed_steps c),
     (WorkflowEngine.set_state e
        {| StateManager.cumulative_output := Checkpoint.cumulative_output c;
           StateManager.current_step_index := Checkpoint.completed_steps c;
           StateManager.step_outputs := Checkpoint.step_outputs c |}, w)).
Proof.
  intros Htruthy Hload. unfold WorkflowEngine.resume_from_checkpoint.
  rewrite Htruthy, Hload.
  assert (os.path_exists (fs w) path = true) as ->; [| done].
  unfold Checkpoint.load, os.read_file, os.path_exists in *.
  by destruct (fs w !! path) as [[?|]|].
Qed.

Lemma run_past_last_step env spec guide_file path steps (c : Checkpoint.t)
    (e : WorkflowEngine.t) (w : World) :
  GuideLoader.load (fs w) guide_file = Ok steps →
  Py.truthy (Some path) = true →
  Checkpoint.load (fs w) path = Ok c →
  Z.of_nat (length steps) ≤ Checkpoint.completed_steps c →
  fs w !! Config.output_file (WorkflowEngine.config e) ≠ Some Dir →
  WorkflowEngine.run env spec guide_file (Some path) (e, w)
  = (Ok (Checkpoint.cumulative_output c),
     (WorkflowEngine.set_state e
        {| StateManager.cumulative_output := Checkpoint.cumulative_output c;
           StateManager.current_step_index := Checkpoint.completed_steps c;
           StateManager.step_outputs := Checkpoint.step_outputs c |},
      set_fs w (<[Config.output_file (WorkflowEngine.config e)
                  := File (Checkpoint.cumulative_output c)]> (fs w)))).
Proof.
  intros Hload Htruthy Hck Hlen Hout. rewrite run_unfold, Hload.
  destruct (load_specification_ok (fs w) spec) as [sc ->].
  rewrite (resume_loaded _ _ _ _ Htruthy Hck).
  rewrite range2_nil by lia. cbn [Py.for_each]. unfold mret, M_ret.
  cbn [WorkflowEngine.set_state WorkflowEngine.config WorkflowEngine.state
       StateManager.cumulative_output].
  unfold os.write_file.
  by destruct (fs w !! Config.output_file (WorkflowEngine.config e)) as [[?|]|].
Qed.

Lemma snapshot_loads (f : gmap string node) (path guide_file sc : string)
    (st : StateManager.t) :
  Spec.holds_snapshot f path guide_file sc st →
  ∃ ts, Checkpoint.load f path = Ok (Spec.checkpoint_of guide_file sc st ts).
Proof.
  intros [ts Hts]. exists ts. unfold Checkpoint.load, os.read_file.
  rewrite Hts. cbn [Checkpoint.bind_result]. rewrite loads_dumps.
  cbn [Checkpoint.bind_result]. apply from_dict_to_dict.
Qed.

(** X8. A checkpoint that covers every step.  If the file at the resume
    path loads to a checkpoint whose count of completed steps is at least
    the number of steps of the guide, the run processes no step: it makes
    no generation call, does not read the clock, leaves the engine with
    the accumulation state of the checkpoint and writes the cumulative
    output stored in the checkpoint to the output file.  It returns that
    text when the write succeeds, leaving every other file as it was, and
    raises the error of the write otherwise.  The guide and the
    specification recorded in the checkpoint are not compared with those
    of the run. *)
Theorem resume_past_last_step
    (env : Env) (spec guide_file path : string) (steps : list string)
    (c : Checkpoint.t) (e : WorkflowEngine.t) (w : World) :
  GuideLoader.load (fs w) guide_file = Ok steps →
  Py.truthy (Some path) = true →
  Checkpoint.load (fs w) path = Ok c →
  Z.of_nat (length steps) ≤ Checkpoint.completed_steps c →
  let output_file := Config.output_file (WorkflowEngine.config e) in
  let written :=
    os.write_file output_file (Checkpoint.cumulative_output c) w in
  let out := WorkflowEngine.run env spec guide_file (Some path) (e, w) in
  out.1 = match written.1 with
          | Ok _ => Ok (Checkpoint.cumulative_output c)
          | Raise x => Raise x
          end
  ∧ out.2.2 = written.2
  ∧ calls out.2.2 = calls w
  ∧ clock out.2.2 = clock w
  ∧ WorkflowEngine.state out.2.1
    = {| StateManager.cumulative_output := Checkpoint.cumulative_output c;
         StateManager.current_step_index := Checkpoint.completed_steps c;
         StateManager.step_outputs := Checkpoint.step_outputs c |}
  ∧ (∀ text, out.1 = Ok text →
       fs out.2.2 !! output_file = Some (File text)
       ∧ ∀ q, q ≠ output_file → fs out.2.2 !! q = fs w !! q)
  ∧ (∀ x, out.1 = Raise x → out.2.2 = w).
Proof.
  intros Hload Htruthy Hck Hlen. cbv zeta. rewrite run_unfold, Hload.
  destruct (load_specification_ok (fs w) spec) as [sc ->].
  rewrite (resume_loaded _ _ _ _ Htruthy Hck).
  rewrite range2_nil by lia. cbn [Py.for_each]. unfold mret, M_ret.
  cbn [WorkflowEngine.set_state WorkflowEngine.config WorkflowEngine.state
       StateManager.cumulative_output].
  destruct (write_file_world (Config.output_file (WorkflowEngine.config e))
              (Checkpoint.cumulative_output c) w)
    as (Hcalls & Hclock & _ & Hraise & Hok).
  destruct (os.write_file _ _ w) as [[[]|x] w2]; cbn [fst snd] in *.
  - split_and!; try done.
    intros text [= <-]. by apply Hok.
  - split_and!; try done.
    intros x' [= <-]. by apply (Hraise x).
Qed.

Lemma resume_past_last_step_witness :
  let finished :=
    {| Checkpoint.guide_file := "guide.txt";
       Checkpoint.spec := "Build a REST API";
       Checkpoint.completed_steps := 3;
       Checkpoint.cumulative_output := "all three steps";
       Checkpoint.step_outputs := ["one"; "two"; "three"];
       Checkpoint.timestamp := "2024-01-01T00:00:00" |} in
  let w := (Checkpoint.save finished "checkpoint.json" Examples.world).2 in
  let out :=
    WorkflowEngine.run Examples.counting_env "Build a REST API" "guide.txt"
      (Some "checkpoint.json")
      (WorkflowEngine.new Examples.default_config None None, w) in
  out.1 = Ok "all three steps" ∧ calls out.2.2 = [].
Proof.
  intros finished w out.
  destruct (resume_past_last_step Examples.counting_env "Build a REST API"
              "guide.txt" "checkpoint.json" ["First"; "Second"; "Third"]
              finished (WorkflowEngine.new Examples.default_config None None) w)
    as (Hout & _ & Hcalls & _).
  - vm_compute. reflexivity.
  - reflexivity.
  - vm_compute. reflexivity.
  - vm_compute. discriminate.
  - split; [exact Hout | exact Hcalls].
Defined.

(** X9. Running again from the last checkpoint.  After a run that wrote
    its checkpoints to [path] has returned [out], a second run of the same
    guide that resumes from [path] returns [out] again, makes no generation
    call and leaves every file as it was, whatever checkpoint file the
    second engine is given.  The checkpoint path differs from the guide and
    from the output file, and the guide is not the output file. *)
Theorem rerun_from_final_checkpoint
    (env : Env) (config : Config.t) (hooks : option PipelineHooks.t)
    (spec guide_file path : string) (steps : list string)
    (w w1 : World) (out : string) (e1 : WorkflowEngine.t) :
  GuideLoader.load (fs w) guide_file = Ok steps →
  Py.truthy (Some path) = true →
  path ≠ guide_file →
  path ≠ Config.output_file config →
  guide_file ≠ Config.output_file config →
  WorkflowEngine.run env spec guide_file None
    (WorkflowEngine.new config hooks (Some path), w)
  = (Ok out, (e1, w1)) →
  ∀ checkpoint_file,
    let again :=
      WorkflowEngine.run env spec guide_file (Some path)
        (WorkflowEngine.new config hooks checkpoint_file, w1) in
    again.1 = Ok out
    ∧ calls again.2.2 = calls w1
    ∧ fs again.2.2 = fs w1
    ∧ WorkflowEngine.state again.2.1 = WorkflowEngine.state e1.
Proof.
  intros Hload Htruthy Hpg Hpo Hgo. rewrite run_unfold, Hload.
  destruct (load_specification_ok (fs w) spec) as [sc ->].
  rewrite resume_none.
  destruct (Py.for_each _ _ _) as [[[]|x] [e0 w0]] eqn:Hloop; [| done].
  assert (Hsnap : Spec.holds_snapshot (fs w0) path guide_file sc
                    (WorkflowEngine.state e0)).
  { eapply for_each_snapshot; [| exact Htruthy | | exact Hloop]; [done |].
    intros Hnil. apply (f_equal length) in Hnil.
    rewrite range2_length in Hnil. cbn [length] in Hnil.
    pose proof (load_nonempty _ _ _ Hload) as Hne.
    destruct steps; [done | cbn in Hnil; lia]. }
  destruct (for_each_ok _ _ _ _ _ _ _ _ _ Hloop)
    as (outputs & Hlen & He0 & Hq & _).
  rewrite range2_length in Hlen.
  destruct (foldl_add_step_output outputs StateManager.new) as (_ & Hidx & _).
  assert (Hcfg : WorkflowEngine.config e0 = config) by by rewrite He0.
  assert (Hn : StateManager.current_step_index (WorkflowEngine.state e0)
               = Z.of_nat (length steps)).
  { rewrite He0. cbn [WorkflowEngine.state WorkflowEngine.set_state
                      WorkflowEngine.new].
    rewrite Hidx. cbn. lia. }
  rewrite Hcfg. unfold os.write_file.
  set (text := StateManager.cumulative_output (WorkflowEngine.state e0)).
  assert (Hw1 : ∀ w1, fs w1 = <[Config.output_file config := File text]> (fs w0) →
            ∀ checkpoint_file,
              let again :=
                WorkflowEngine.run env spec guide_file (Some path)
                  (WorkflowEngine.new config hooks checkpoint_file, w1) in
              again.1 = Ok text ∧ calls again.2.2 = calls w1
              ∧ fs again.2.2 = fs w1
              ∧ WorkflowEngine.state again.2.1 = WorkflowEngine.state e0).
  { intros w2 Hfs cp. cbv zeta.
    destruct (snapshot_loads (fs w2) path guide_file sc
                (WorkflowEngine.state e0)) as [ts Hck].
    { destruct Hsnap as [ts Hts]. exists ts.
      by rewrite Hfs, lookup_insert_ne. }
    rewrite (run_past_last_step env spec guide_file path steps
               (Spec.checkpoint_of guide_file sc (WorkflowEngine.state e0) ts)
               (WorkflowEngine.new config hooks cp) w2).
    - cbn [fst snd Spec.checkpoint_of Checkpoint.cumulative_output
           Checkpoint.completed_steps Checkpoint.step_outputs
           WorkflowEngine.state WorkflowEngine.set_state WorkflowEngine.new
           WorkflowEngine.config set_fs fs calls].
      split_and!; [done | done | | by destruct (WorkflowEngine.state e0)].
      rewrite Hfs. by rewrite insert_insert_eq.
    - apply (load_same_file (fs w)); [done |].
      rewrite Hfs, lookup_insert_ne by done. apply Hq.
      cbn. congruence.
    - done.
    - done.
    - cbn [Spec.checkpoint_of Checkpoint.completed_steps]. lia.
    - cbn [WorkflowEngine.new WorkflowEngine.config].
      by rewrite Hfs, lookup_insert_eq. }
  destruct (fs w0 !! Config.output_file config) as [[c|]|];
    intros ?; simplify_eq; by apply Hw1.
Qed.

Lemma rerun_from_final_checkpoint_witness :
  let first :=
    WorkflowEngine.run Examples.counting_env "Build a REST API" "guide.txt" None
      (WorkflowEngine.new Examples.default_config None (Some "checkpoint.json"),
       Examples.world) in
  let again :=
    WorkflowEngine.run Examples.counting_env "Build a REST API" "guide.txt"
      (Some "checkpoint.json")
      (WorkflowEngine.new Examples.default_config None None, first.2.2) in
  (∃ out, first.1 = Ok out ∧ again.1 = Ok out)
  ∧ calls again.2.2 = calls first.2.2.
Proof.
  intros first again.
  set (out := match first.1 with Ok s => s | Raise _ => "" end).
  assert (Hrun : first = (Ok out, (first.2.1, first.2.2)))
    by (vm_compute; reflexivity).
  destruct (rerun_from_final_checkpoint Examples.counting_env
              Examples.default_config None "Build a REST API" "guide.txt"
              "checkpoint.json" ["First"; "Second"; "Third"] Examples.world
              first.2.2 out first.2.1) with (checkpoint_file := @None string)
    as (Hout & Hcalls & _).
  - vm_compute. reflexivity.
  - reflexivity.
  - discriminate.
  - discriminate.
  - discriminate.
  - exact Hrun.
  - split; [| exact Hcalls]. exists out. split; [by rewrite Hrun | exact Hout].
Defined.

(** X7. What a resumed run returns.  Let the file at the resume path load
    to a checkpoint with [K] completed steps, [K] between 0 and the number
    [n] of steps of the guide.  If the run returns [out], then [out] is the
    cumulative output stored in the checkpoint followed by the blocks of
    [n - K] new step outputs numbered from [K + 1]; the engine ends with the
    step outputs of the checkpoint followed by the new ones and with the
    index [n]; the output file holds [out]; and the run made at least
    [n - K] and at most [(n - K) * (1 + 2 * max(0, max_iterations))]
    generation calls. *)
Theorem resumed_run_output
    (env : Env) (spec guide_file path : string) (steps : list string)
    (c : Checkpoint.t) (e e' : WorkflowEngine.t) (w w' : World) (out : string) :
  GuideLoader.load (fs w) guide_file = Ok steps →
  Py.truthy (Some path) = true →
  Checkpoint.load (fs w) path = Ok c →
  0 ≤ Checkpoint.completed_steps c ≤ Z.of_nat (length steps) →
  WorkflowEngine.run env spec guide_file (Some path) (e, w)
  = (Ok out, (e', w')) →
  let remaining := Z.of_nat (length steps) - Checkpoint.completed_steps c in
  let cap := Z.max 0 (Config.max_iterations (WorkflowEngine.config e)) in
  (∃ outputs,
     Z.of_nat (length outputs) = remaining
     ∧ out = Checkpoint.cumulative_output c
             +:+ Spec.context_from (Checkpoint.completed_steps c) outputs
     ∧ WorkflowEngine.state e'
       = {| StateManager.cumulative_output := out;
            StateManager.current_step_index := Z.of_nat (length steps);
            StateManager.step_outputs := Checkpoint.step_outputs c ++ outputs |})
  ∧ fs w' !! Config.output_file (WorkflowEngine.config e) = Some (File out)
  ∧ remaining ≤ Spec.calls_made w w' ≤ remaining * (1 + 2 * cap).
Proof.
  intros Hload Htruthy Hck HK. rewrite run_unfold, Hload.
  destruct (load_specification_ok (fs w) spec) as [sc ->].
  rewrite (resume_loaded _ _ _ _ Htruthy Hck).
  destruct (Py.for_each _ _ _) as [[[]|x] [e1 w1]] eqn:Hloop; [| done].
  destruct (for_each_ok _ _ _ _ _ _ _ _ _ Hloop)
    as (outputs & Hlen & -> & _ & _ & Hc & _).
  rewrite range2_length in Hlen, Hc.
  replace (Z.of_nat (Z.to_nat (Z.of_nat (length steps)
                                - Checkpoint.completed_steps c)))
    with (Z.of_nat (length steps) - Checkpoint.completed_steps c) in Hc by lia.
  cbn [WorkflowEngine.set_state WorkflowEngine.config WorkflowEngine.state] in *.
  set (st0 := {| StateManager.cumulative_output := Checkpoint.cumulative_output c;
                 StateManager.current_step_index := Checkpoint.completed_steps c;
                 StateManager.step_outputs := Checkpoint.step_outputs c |}) in *.
  destruct (foldl_add_step_output outputs st0) as (Ho & Hi & Hcum).
  cbn [st0 StateManager.step_outputs StateManager.current_step_index
       StateManager.cumulative_output] in Ho, Hi, Hcum.
  assert (Hst : foldl StateManager.add_step_output st0 outputs
                = {| StateManager.cumulative_output :=
                       Checkpoint.cumulative_output c
                       +:+ Spec.context_from (Checkpoint.completed_steps c) outputs;
                     StateManager.current_step_index := Z.of_nat (length steps);
                     StateManager.step_outputs :=
                       Checkpoint.step_outputs c ++ outputs |}).
  { destruct (foldl _ _ _); cbn in *. f_equal; [done | lia | done]. }
  rewrite Hst. cbn [StateManager.cumulative_output].
  unfold os.write_file, Spec.calls_made in *.
  destruct (fs w1 !! Config.output_file (WorkflowEngine.config e)) as [[t|]|];
    intros ?; simplify_eq; cbv zeta; cbn [fs set_fs calls];
    (split_and!; [| by rewrite lookup_insert_eq | lia | lia]);
    exists outputs; (split_and!; [lia | done | done]).
Qed.

Lemma resumed_run_output_witness :
  let engine :=
    WorkflowEngine.new Examples.default_config None (Some "checkpoint.json") in
  let stopped :=
    WorkflowEngine.run_stopped_after Examples.counting_env 2
      "Build a REST API" "guide.txt" None (engine, Examples.world) in
  let resumed :=
    WorkflowEngine.run Examples.counting_env "Build a REST API" "guide.txt"
      (Some "checkpoint.json") (engine, stopped.2.2) in
  ∃ out,
    resumed.1 = Ok out
    ∧ fs resumed.2.2 !! "final_output.txt" = Some (File out)
    ∧ 1 ≤ Spec.calls_made stopped.2.2 resumed.2.2 ≤ 7.
Proof.
  intros engine stopped resumed.
  set (out := match resumed.1 with Ok s => s | Raise _ => "" end).
  set (c := match Checkpoint.load (fs stopped.2.2) "checkpoint.json" with
            | Ok c => c
            | Raise _ =>
                {| Checkpoint.guide_file := ""; Checkpoint.spec := "";
                   Checkpoint.completed_steps := 0;
                   Checkpoint.cumulative_output := "";
                   Checkpoint.step_outputs := []; Checkpoint.timestamp := "" |}
            end).
  assert (Hrun : resumed = (Ok out, (resumed.2.1, resumed.2.2)))
    by (vm_compute; reflexivity).
  destruct (resumed_run_output Examples.counting_env "Build a REST API"
              "guide.txt" "checkpoint.json" ["First"; "Second"; "Third"] c
              engine resumed.2.1 stopped.2.2 resumed.2.2 out)
    as (_ & Hfile & Hcalls).
  - vm_compute. reflexivity.
  - reflexivity.
  - vm_compute. reflexivity.
  - vm_compute. split; discriminate.
  - exact Hrun.
  - exists out. split_and!.
    + by rewrite Hrun.
    + exact Hfile.
    + exact (proj1 Hcalls).
    + exact (proj2 Hcalls).
Defined.

(** ** The retry loop of the client *)

Lemma sleep_ok (seconds : Q) (n : requests.Net) :
  (0 <= seconds)%Q →
  time.sleep seconds n
  = (Ok tt, {| requests.posted := requests.posted n; requests.slept := requests.slept n ++ [seconds] |}).
Proof.
  intros H. unfold time.sleep. apply Qle_bool_iff in H. by rewrite H.
Qed.

Lemma pause_nonneg (self : HttpClient.t) (attempt : Z) (o : requests.outcome) :
  (0 <= HttpClient.retry_delay self)%Q → 0 ≤ attempt →
  (0 <= Retry.pause self attempt o)%Q.
Proof.
  intros Hd Ha. destruct o; cbn; try done.
  apply Qmult_le_0_compat; [done |].
  change 0%Q with (inject_Z 0). rewrite <- Zle_Qle. by apply Z.pow_nonneg.
Qed.

Lemma attempts_cons transport self request attempt todo n :
  HttpClient.attempts transport self request (attempt :: todo) n
  = let url := Config.ollama_api (HttpClient.config self) in
    let body := RequestDict.to_dict request in
    let o := transport (requests.posted n) url body in
    let n1 := {| requests.posted := requests.posted n ++ [(url, body)]; requests.slept := requests.slept n |} in
    if Retry.retryable o && bool_decide (attempt < HttpClient.retry_count self - 1) then
      match time.sleep (Retry.pause self attempt o) n1 with
      | (Ok _, n2) => HttpClient.attempts transport self request todo n2
      | (Raise e, n2) => (Raise e, n2)
      end
    else (Retry.final_result self o, n1).
Proof.
  cbn [HttpClient.attempts]. rewrite mbind_unfold. unfold requests.post. cbv zeta.
  destruct (transport _ _ _) as [r|e| |e]; cbn [Retry.retryable andb].
  - done.
  - destruct (decide _) as [H|H].
    + rewrite bool_decide_eq_true_2 by done. by rewrite mbind_unfold.
    + by rewrite bool_decide_eq_false_2 by done.
  - destruct (decide _) as [H|H].
    + rewrite bool_decide_eq_true_2 by done. by rewrite mbind_unfold.
    + by rewrite bool_decide_eq_false_2 by done.
  - done.
Qed.

Lemma outcome_at_shift transport url body before i :
  Retry.outcome_at transport url body (before ++ [(url, body)]) i
  = Retry.outcome_at transport url body before (S i).
Proof. unfold Retry.outcome_at. by rewrite <- app_assoc. Qed.

Lemma attempts_contract transport self request (m : nat) :
  ∀ (a : Z) (n : requests.Net),
  a + Z.of_nat m = HttpClient.retry_count self → (1 ≤ m)%nat → 0 ≤ a →
  (0 <= HttpClient.retry_delay self)%Q →
  let url := Config.ollama_api (HttpClient.config self) in
  let body := RequestDict.to_dict request in
  let o := Retry.outcome_at transport url body (requests.posted n) in
  let out := HttpClient.attempts transport self request (Py.range2 a (HttpClient.retry_count self)) n in
  ∃ k : nat,
    (1 ≤ k ≤ m)%nat
    ∧ requests.posted out.2 = requests.posted n ++ replicate k (url, body)
    ∧ requests.slept out.2
      = requests.slept n ++ ((λ i : nat, Retry.pause self (a + Z.of_nat i) (o i))
                    <$> seq 0 (k - 1))
    ∧ (∀ i, (i < k - 1)%nat → Retry.retryable (o i) = true)
    ∧ out.1 = Retry.final_result self (o (k - 1)%nat)
    ∧ (Retry.retryable (o (k - 1)%nat) = true → k = m).
Proof.
  induction m as [|m IH]; intros a n Ha Hm Ha0 Hd; [lia |]. cbv zeta.
  rewrite range2_cons by lia. rewrite attempts_cons. cbv zeta.
  set (url := Config.ollama_api (HttpClient.config self)).
  set (body := RequestDict.to_dict request).
  set (o := Retry.outcome_at transport url body (requests.posted n)).
  assert (Ho0 : transport (requests.posted n) url body = o 0%nat).
  { unfold o, Retry.outcome_at. cbn [replicate]. by rewrite app_nil_r. }
  rewrite Ho0.
  destruct (Retry.retryable (o 0%nat)) eqn:Hr0; cbn [andb].
  2:{ exists 1%nat. cbn [fst snd requests.posted requests.slept replicate seq fmap list_fmap].
      rewrite app_nil_r. split_and!; try done; try lia.
      intros H. cbn in H. congruence. }
  destruct (bool_decide (a < HttpClient.retry_count self - 1)) eqn:Hlast.
  2:{ apply bool_decide_eq_false in Hlast.
      exists 1%nat. cbn [fst snd requests.posted requests.slept replicate seq fmap list_fmap].
      rewrite app_nil_r. split_and!; try done; try lia. }
  apply bool_decide_eq_true in Hlast.
  rewrite sleep_ok by (by apply pause_nonneg).
  cbn [requests.posted requests.slept].
  set (n1 := {| requests.posted := requests.posted n ++ [(url, body)];
                requests.slept := requests.slept n ++ [Retry.pause self a (o 0%nat)] |}).
  destruct (IH (a + 1) n1) as (k & Hk & Hposted & Hslept & Hretry & Hres & Hfull);
    [lia | lia | lia | done |].
  cbv zeta in *. fold url body in Hposted, Hslept, Hretry, Hres, Hfull.
  cbn [requests.posted requests.slept n1] in Hposted, Hslept, Hretry, Hres, Hfull.
  assert (Ho : ∀ i, Retry.outcome_at transport url body
                      (requests.posted n ++ [(url, body)]) i = o (S i)).
  { intros i. apply outcome_at_shift. }
  exists (S k). replace (S k - 1)%nat with (S (k - 1)) by lia.
  split_and!.
  - lia.
  - lia.
  - rewrite Hposted. cbn [replicate]. by rewrite <- app_assoc.
  - rewrite Hslept. cbn [seq fmap list_fmap]. rewrite <- app_assoc. cbn [app].
    f_equal. f_equal; [f_equal; lia |].
    rewrite <- fmap_S_seq, <- list_fmap_compose. apply list_fmap_ext.
    intros i j _. cbn. rewrite Ho. f_equal. lia.
  - intros [|i] Hi; [done |]. rewrite <- Ho. apply Hretry. lia.
  - by rewrite Hres, Ho.
  - rewrite <- Ho. intros H. f_equal. by apply Hfull.
Qed.

Lemma attempts_budget transport self request (m : nat) :
  ∀ (a : Z) (n : requests.Net),
  Z.of_nat m = Z.max 0 (HttpClient.retry_count self - a) →
  let url := Config.ollama_api (HttpClient.config self) in
  let body := RequestDict.to_dict request in
  let out := HttpClient.attempts transport self request (Py.range2 a (HttpClient.retry_count self)) n in
  ∃ (k : nat) (pauses : list Q),
    requests.posted out.2 = requests.posted n ++ replicate k (url, body)
    ∧ requests.slept out.2 = requests.slept n ++ pauses
    ∧ (k ≤ m)%nat
    ∧ (length pauses ≤ k - 1)%nat
    ∧ (m ≠ 0%nat → (1 ≤ k)%nat).
Proof.
  induction m as [|m IH]; intros a n Hm; cbv zeta.
  - rewrite range2_nil by lia. exists 0%nat, []. cbn. rewrite !app_nil_r.
    by split_and!.
  - rewrite range2_cons by lia. rewrite attempts_cons. cbv zeta.
    set (url := Config.ollama_api (HttpClient.config self)).
    set (body := RequestDict.to_dict request).
    assert (Hone : ∀ r : result json.value,
              ∃ (k : nat) (pauses : list Q),
                requests.posted (r, {| requests.posted := requests.posted n ++ [(url, body)];
                              requests.slept := requests.slept n |}).2
                = requests.posted n ++ replicate k (url, body)
                ∧ requests.slept (r, {| requests.posted := requests.posted n ++ [(url, body)];
                               requests.slept := requests.slept n |}).2 = requests.slept n ++ pauses
                ∧ (k ≤ S m)%nat
                ∧ (length pauses ≤ k - 1)%nat
                ∧ (S m ≠ 0%nat → (1 ≤ k)%nat)).
    { intros r. exists 1%nat, []. cbn. rewrite app_nil_r.
      split_and!; [done | done | lia | lia | lia]. }
    destruct (Retry.retryable _); cbn [andb]; [| apply Hone].
    destruct (bool_decide (a < HttpClient.retry_count self - 1)) eqn:Hlast;
      [| apply Hone].
    apply bool_decide_eq_true in Hlast.
    unfold time.sleep. destruct (Qle_bool 0 _); [| apply Hone].
    cbn [requests.posted requests.slept].
    destruct (IH (a + 1)
                {| requests.posted := requests.posted n ++ [(url, body)];
                   requests.slept := requests.slept n ++ [Retry.pause self a
                                          (transport (requests.posted n) url body)] |})
      as (k & pauses & Hp & Hs & Hk & Hl & Hk1); [lia |].
    cbn [requests.posted requests.slept] in Hp, Hs.
    exists (S k), (Retry.pause self a (transport (requests.posted n) url body)
                   :: pauses).
    fold url body in Hp, Hs. rewrite Hp, Hs. cbn [replicate length].
    rewrite <- !app_assoc. cbn [app].
    assert (1 ≤ k)%nat by (apply Hk1; lia).
    split_and!; [done | done | lia | lia | lia].
Qed.

Lemma total_doubling (d : Q) (m : nat) (a : Z) :
  0 ≤ a →
  (Retry.total ((λ i : nat, d * inject_Z (2 ^ (a + Z.of_nat i))) <$> seq 0 m)
   == d * inject_Z (2 ^ (a + Z.of_nat m) - 2 ^ a))%Q.
Proof.
  revert a. induction m as [|m IH]; intros a Ha.
  - cbn [seq fmap list_fmap Retry.total foldr].
    replace (2 ^ (a + Z.of_nat 0) - 2 ^ a) with 0 by (rewrite Z.add_0_r; lia).
    by rewrite Qmult_0_r.
  - cbn [seq fmap list_fmap Retry.total foldr].
    rewrite <- fmap_S_seq, <- list_fmap_compose.
    assert (Heq : ((λ i : nat, (d * inject_Z (2 ^ (a + Z.of_nat i)))%Q) ∘ S
                     <$> seq 0 m)
                  = ((λ i : nat, (d * inject_Z (2 ^ ((a + 1) + Z.of_nat i)))%Q)
                     <$> seq 0 m)).
    { apply list_fmap_ext. intros i j _. cbn -[Z.of_nat Z.pow].
      do 3 f_equal. lia. }
    rewrite Heq. fold (Retry.total ((λ i : nat,
                   (d * inject_Z (2 ^ ((a + 1) + Z.of_nat i)))%Q) <$> seq 0 m)).
    rewrite (IH (a + 1)) by lia.
    rewrite <- Qmult_plus_distr_r, <- inject_Z_plus.
    replace (2 ^ (a + Z.of_nat 0) + (2 ^ (a + 1 + Z.of_nat m) - 2 ^ (a + 1)))
      with (2 ^ (a + Z.of_nat (S m)) - 2 ^ a); [done |].
    rewrite Z.add_0_r. replace (a + Z.of_nat (S m)) with (a + 1 + Z.of_nat m) by lia.
    rewrite (Z.pow_add_r 2 a 1) by lia. lia.
Qed.

Lemma total_constant (d : Q) (m : nat) :
  (Retry.total (replicate m d) == d * inject_Z (Z.of_nat m))%Q.
Proof.
  induction m as [|m IH].
  - cbn. by rewrite Qmult_0_r.
  - cbn [replicate Retry.total foldr]. fold (Retry.total (replicate m d)).
    rewrite IH. rewrite Nat2Z.inj_succ. unfold Z.succ. rewrite inject_Z_plus.
    ring.
Qed.

(** X10. The attempts of one query.  [OllamaClient.query] posts the same
    body to the same address each time, at most [max(0, retry_count)] times
    and at least once when [retry_count] is at least one, and it pauses
    fewer times than it posts: never after its last attempt.  With a
    [retry_count] of zero or less it posts nothing and raises the
    [RuntimeError] that ends its loop, the state of the network
    unchanged. *)
Theorem query_attempt_budget
    (transport : requests.Transport) (self : HttpClient.t) (request : OllamaRequest.t) (n : requests.Net) :
  let url := Config.ollama_api (HttpClient.config self) in
  let body := RequestDict.to_dict request in
  let out := HttpClient.query transport self request n in
  (∃ (k : nat) (pauses : list Q),
     requests.posted out.2 = requests.posted n ++ replicate k (url, body)
     ∧ requests.slept out.2 = requests.slept n ++ pauses
     ∧ Z.of_nat k ≤ Z.max 0 (HttpClient.retry_count self)
     ∧ (length pauses ≤ k - 1)%nat
     ∧ (1 ≤ HttpClient.retry_count self → (1 ≤ k)%nat))
  ∧ (HttpClient.retry_count self ≤ 0 →
     out = (Raise (RuntimeError HttpClient.unreachable_message), n)).
Proof.
  cbv zeta. unfold HttpClient.query, Py.range. split.
  - destruct (attempts_budget transport self request
                (Z.to_nat (HttpClient.retry_count self)) 0 n)
      as (k & pauses & Hp & Hs & Hk & Hl & Hk1); [lia |].
    exists k, pauses. split_and!; [done | done | lia | done |].
    intros H. apply Hk1. lia.
  - intros H. by rewrite range2_nil by lia.
Qed.

(** X11. The retry loop of the client.  Let [retry_count] be at least one
    and [retry_delay] not negative.  Then [query] makes [k] posts, [k]
    between 1 and [retry_count]; every post but the last ended in a
    connection error or a timeout, and was followed by a pause of
    [retry_delay * 2 ^ i] after a connection error at attempt [i] and of
    [retry_delay] after a timeout; the outcome of the last post decides the
    result: the value under the key [response] of the decoded body (the empty
    string when the key is missing) or the error of the status or of the
    decoding for a response, which is never retried, a [ConnectionError] or
    [TimeoutError] naming the number of attempts when the last of the
    [retry_count] attempts failed that way, and any other exception
    unchanged. *)
Theorem query_contract
    (transport : requests.Transport) (self : HttpClient.t) (request : OllamaRequest.t) (n : requests.Net) :
  1 ≤ HttpClient.retry_count self →
  (0 <= HttpClient.retry_delay self)%Q →
  let url := Config.ollama_api (HttpClient.config self) in
  let body := RequestDict.to_dict request in
  let o := Retry.outcome_at transport url body (requests.posted n) in
  let out := HttpClient.query transport self request n in
  ∃ k : nat,
    1 ≤ Z.of_nat k ≤ HttpClient.retry_count self
    ∧ requests.posted out.2 = requests.posted n ++ replicate k (url, body)
    ∧ requests.slept out.2
      = requests.slept n ++ ((λ i : nat, Retry.pause self (Z.of_nat i) (o i))
                    <$> seq 0 (k - 1))
    ∧ (∀ i, (i < k - 1)%nat → Retry.retryable (o i) = true)
    ∧ out.1 = Retry.final_result self (o (k - 1)%nat)
    ∧ (Retry.retryable (o (k - 1)%nat) = true → Z.of_nat k = HttpClient.retry_count self).
Proof.
  intros Hrc Hd. cbv zeta. unfold HttpClient.query, Py.range.
  destruct (attempts_contract transport self request
              (Z.to_nat (HttpClient.retry_count self)) 0 n)
    as (k & Hk & Hp & Hs & Hr & Hres & Hfull); [lia | lia | lia | done |].
  exists k. split_and!; [lia | lia | done | | done | done |].
  - rewrite Hs. f_equal.
  - intros H. rewrite (Hfull H). lia.
Qed.

Lemma query_contract_witness :
  let transport : requests.Transport := λ before _ _,
    match before with
    | [] => requests.ConnectionFailed "Connection refused"
    | _ =>
        requests.Responded
          {| requests.status_code := 200;
             requests.reason := "OK";
             requests.url := "http://localhost:11434/api/generate";
             requests.json :=
               Ok (json.JObject [("response", json.JString "def f(): pass")]) |}
    end in
  let request :=
    {| OllamaRequest.model := "codestral:22b"; OllamaRequest.prompt := "p";
       OllamaRequest.temperature := 0.7; OllamaRequest.max_tokens := 2000;
       OllamaRequest.stream := false |} in
  let out :=
    HttpClient.query transport (HttpClient.new Examples.default_config) request
      {| requests.posted := []; requests.slept := [] |} in
  out.1 = Ok (json.JString "def f(): pass")
  ∧ length (requests.posted out.2) = 2%nat
  ∧ requests.slept out.2 = [1%Q].
Proof.
  intros transport request out.
  destruct (query_contract transport (HttpClient.new Examples.default_config)
              request {| requests.posted := []; requests.slept := [] |})
    as (k & Hk & Hposted & Hslept & Hretry & Hres & Hfull).
  - vm_compute. discriminate.
  - vm_compute. discriminate.
  - fold out in Hposted, Hslept, Hres.
    destruct k as [|[|[|k]]].
    + cbn in Hk. lia.
    + specialize (Hfull eq_refl). discriminate Hfull.
    + rewrite Hposted, Hslept, Hres. by split_and!.
    + specialize (Hretry 1%nat). cbn in Hretry.
      assert (1 < S (S k))%nat as Hlt by lia.
      specialize (Hretry Hlt). discriminate Hretry.
Defined.

(** X12. An endpoint that never answers.  If every post ends in the same
    connection error, [query] gives up after exactly [retry_count] posts
    with a [ConnectionError], having paused [retry_delay * 2 ^ i] after
    attempt [i], that is [retry_delay * (2 ^ (retry_count - 1) - 1)] in all;
    if every post times out it gives up after [retry_count] posts with a
    [TimeoutError], having paused [retry_delay] each time, that is
    [retry_delay * (retry_count - 1)] in all. *)
Theorem query_persistent_failure
    (transport : requests.Transport) (self : HttpClient.t) (request : OllamaRequest.t) (n : requests.Net)
    (o : requests.outcome) :
  1 ≤ HttpClient.retry_count self →
  (0 <= HttpClient.retry_delay self)%Q →
  Retry.retryable o = true →
  (∀ before,
     transport before (Config.ollama_api (HttpClient.config self))
       (RequestDict.to_dict request) = o) →
  let out := HttpClient.query transport self request n in
  let tries := Z.to_nat (HttpClient.retry_count self) in
  ∃ pauses,
    out.1 = Retry.final_result self o
    ∧ requests.posted out.2
      = requests.posted n ++ replicate tries (Config.ollama_api (HttpClient.config self),
                                     RequestDict.to_dict request)
    ∧ requests.slept out.2 = requests.slept n ++ pauses
    ∧ pauses = (λ i : nat, Retry.pause self (Z.of_nat i) o) <$> seq 0 (tries - 1)
    ∧ match o with
      | requests.ConnectionFailed _ =>
          (Retry.total pauses
           == HttpClient.retry_delay self * inject_Z (2 ^ (HttpClient.retry_count self - 1) - 1))%Q
      | _ =>
          (Retry.total pauses
           == HttpClient.retry_delay self * inject_Z (HttpClient.retry_count self - 1))%Q
      end.
Proof.
  intros Hrc Hd Hretry Hall. cbv zeta. unfold HttpClient.query, Py.range.
  destruct (attempts_contract transport self request
              (Z.to_nat (HttpClient.retry_count self)) 0 n)
    as (k & Hk & Hp & Hs & Hr & Hres & Hfull); [lia | lia | lia | done |].
  assert (Ho : ∀ i, Retry.outcome_at transport
                      (Config.ollama_api (HttpClient.config self))
                      (RequestDict.to_dict request) (requests.posted n) i = o).
  { intros i. apply Hall. }
  rewrite Ho in Hres, Hfull. specialize (Hfull Hretry). subst k.
  eexists. split_and!; [done | done | exact Hs | |].
  - apply list_fmap_ext. intros i j _. cbn. by rewrite Ho.
  - assert (Hext : ∀ f : nat → Q,
              (∀ i, Retry.pause self (0 + Z.of_nat i) o = f i) →
              ((λ i : nat,
                  Retry.pause self (0 + Z.of_nat i)
                    (Retry.outcome_at transport
                       (Config.ollama_api (HttpClient.config self))
                       (RequestDict.to_dict request) (requests.posted n) i))
               <$> seq 0 (Z.to_nat (HttpClient.retry_count self) - 1))
              = f <$> seq 0 (Z.to_nat (HttpClient.retry_count self) - 1)).
    { intros f Hf. apply list_fmap_ext. intros i j _. cbn. by rewrite Ho, Hf. }
    destruct o as [r|e| |e]; try done.
    + rewrite (Hext (λ i : nat,
                 (HttpClient.retry_delay self * inject_Z (2 ^ (0 + Z.of_nat i)))%Q))
        by done.
      rewrite total_doubling by lia.
      replace (2 ^ (0 + Z.of_nat (Z.to_nat (HttpClient.retry_count self) - 1)) - 2 ^ 0)
        with (2 ^ (HttpClient.retry_count self - 1) - 1); [done |].
      rewrite Z.pow_0_r. do 2 f_equal. lia.
    + rewrite (Hext (λ _ : nat, HttpClient.retry_delay self)) by done.
      assert (Hrep : ∀ m, (λ _ : nat, HttpClient.retry_delay self) <$> seq 0 m
                          = replicate m (HttpClient.retry_delay self)).
      { intros m. generalize 0%nat.
        induction m as [|m IH]; intros s; [done |]. cbn. by rewrite IH. }
      rewrite Hrep, total_constant.
      replace (Z.of_nat (Z.to_nat (HttpClient.retry_count self) - 1))
        with (HttpClient.retry_count self - 1) by lia.
      done.
Qed.

Lemma query_persistent_failure_witness :
  let transport : requests.Transport := λ _ _ _,
    requests.ConnectionFailed "Connection refused" in
  let request :=
    {| OllamaRequest.model := "codestral:22b"; OllamaRequest.prompt := "p";
       OllamaRequest.temperature := 0.7; OllamaRequest.max_tokens := 2000;
       OllamaRequest.stream := false |} in
  let out :=
    HttpClient.query transport (HttpClient.new Examples.default_config) request
      {| requests.posted := []; requests.slept := [] |} in
  out.1
  = Raise (ConnectionError
             "Failed to connect to Ollama API at http://localhost:11434/api/generate after 3 attempts: Connection refused")
  ∧ ∃ pauses,
      requests.slept out.2 = pauses ∧ (Retry.total pauses == 3)%Q.
Proof.
  intros transport request out.
  destruct (query_persistent_failure transport
              (HttpClient.new Examples.default_config) request
              {| requests.posted := []; requests.slept := [] |}
              (requests.ConnectionFailed "Connection refused"))
    as (pauses & Hres & _ & Hslept & _ & Htotal).
  - vm_compute. discriminate.
  - vm_compute. discriminate.
  - reflexivity.
  - reflexivity.
  - split; [exact Hres |]. exists pauses. split; [exact Hslept |].
    rewrite Htotal. reflexivity.
Defined.

(** ** The output of a chain *)

Lemma context_after_blocks (cc : string) (made : list GuideChain.invocation) :
  Spec.context_after cc made = cc +:+ Chain.blocks made.
Proof.
  revert cc. induction made as [|inv made IH]; intros cc.
  - cbn. by rewrite string_app_nil_r.
  - cbn [Spec.context_after foldl Chain.blocks].
    change (foldl _ ?a made) with (Spec.context_after a made).
    rewrite IH. unfold GuideChain.accumulate, Chain.block.
    by rewrite !string_app_assoc.
Qed.

(** X13. The output of a chain.  When [GuideChain.run] returns, it has run
    one engine per guide, in order; the text it returns is the
    concatenation, in that order, of one block per guide, made of the header
    naming the guide and the output of its run (the empty text for an empty
    list of guides); this text is stored in [chain_output] and written to the
    output file of the chain. *)
Theorem chain_output_assembled
    (env : Env) (spec : string) (guide_files : list string)
    (self self' : GuideChain.t) (w w' : World)
    (final : string) (made : list GuideChain.invocation) :
  GuideChain.run_traced env spec guide_files (self, w)
  = (Ok (final, made), (self', w')) →
  length made = length guide_files
  ∧ final = Chain.blocks made
  ∧ (guide_files = [] → final = "")
  ∧ GuideChain.chain_output self' = final
  ∧ GuideChain.config self' = GuideChain.config self
  ∧ fs w' !! Config.output_file (GuideChain.config self) = Some (File final).
Proof.
  intros Hrun. unfold GuideChain.run_traced in Hrun.
  destruct (GuideChain.run_guides env self spec (Py.enumerate guide_files) "" w)
    as [[[final' made']|x] w1] eqn:Hguides; [| done].
  destruct (run_guides_trace _ _ _ _ _ _ _ _ _ Hguides)
    as (Hg & Hfinal & _ & _).
  unfold Py.enumerate in Hg. rewrite enumerate_from_snd in Hg.
  rewrite context_after_blocks, string_app_nil_l in Hfinal.
  cbn [GuideChain.set_chain_output GuideChain.config] in Hrun.
  unfold os.write_file in Hrun.
  assert (Hlen : length made' = length guide_files).
  { by rewrite <- Hg, length_fmap. }
  assert (Hnil : guide_files = [] → final' = "").
  { intros ->. destruct made'; [by subst | done]. }
  destruct (fs w1 !! Config.output_file (GuideChain.config self)) as [[c|]|];
    simplify_eq; (split_and!; [done | done | done | done | done |]);
    cbn; by rewrite lookup_insert_eq.
Qed.

Lemma chain_output_assembled_witness :
  match GuideChain.run_traced Examples.counting_env "Build a REST API"
          ["guide.txt"; "coding_guide.txt"]
          (GuideChain.new Examples.default_config None None, Examples.world)
  with
  | (Ok (final, made), (self', w')) =>
      length made = 2%nat ∧ final = Chain.blocks made
      ∧ GuideChain.chain_output self' = final
      ∧ fs w' !! "final_output.txt" = Some (File final)
  | _ => False
  end.
Proof.
  destruct (GuideChain.run_traced Examples.counting_env "Build a REST API"
              ["guide.txt"; "coding_guide.txt"]
              (GuideChain.new Examples.default_config None None,
               Examples.world))
    as [[[final made]|x] [self' w']] eqn:Hrun.
  - destruct (chain_output_assembled _ _ _ _ _ _ _ _ _ Hrun)
      as (Hlen & Hfinal & _ & Hout & _ & Hfile).
    by split_and!.
  - vm_compute in Hrun. discriminate Hrun.
Defined.

Lemma validate_ok (f : gmap string node) (guides : list (Z * string)) (t : Z) :
  (∃ total, GuideChain.validate f guides t = Ok total)
  ↔ Forall (λ g, ∃ steps, GuideLoader.load f g = Ok steps) guides.*2.
Proof.
  revert t. induction guides as [|[idx g] guides IH]; intros t.
  - cbn. split; [by constructor | by eexists].
  - cbn [GuideChain.validate fmap list_fmap snd]. rewrite Forall_cons.
    destruct (GuideLoader.load f g) as [steps|e].
    + rewrite IH. split; [| by intros [_ ?]]. intros H. split; [by eexists | done].
    + split; [by intros [? ?] | by intros [[? ?] _]].
Qed.

Lemma validate_first_failure (f : gmap string node)
    (before after : list (Z * string)) (idx : Z) (g : string) (e : exn) (t : Z) :
  Forall (λ g, ∃ steps, GuideLoader.load f g = Ok steps) before.*2 →
  GuideLoader.load f g = Raise e →
  GuideChain.validate f (before ++ (idx, g) :: after) t = Raise e.
Proof.
  revert t. induction before as [|[i b] before IH]; intros t Hb Hg.
  - cbn. by rewrite Hg.
  - cbn [app GuideChain.validate]. cbn in Hb. apply Forall_cons in Hb as [[steps ->] Hb].
    by apply IH.
Qed.

Lemma enumerate_from_app {A} (start : Z) (l1 l2 : list A) :
  Py.enumerate_from start (l1 ++ l2)
  = Py.enumerate_from start l1
    ++ Py.enumerate_from (start + Z.of_nat (length l1)) l2.
Proof.
  revert start. induction l1 as [|x l1 IH]; intros start.
  - cbn. by rewrite Z.add_0_r.
  - cbn [app Py.enumerate_from length]. rewrite IH. do 3 f_equal. lia.
Qed.

(** X14. The dry run of a chain.  [GuideChain.dry_run] changes neither the
    chain nor the world; it returns exactly when every guide of the list
    loads, and otherwise raises the error of the first guide that does
    not. *)
Theorem chain_dry_run_validates
    (guide_files : list string) (self : GuideChain.t) (w : World) :
  let out := GuideChain.dry_run guide_files (self, w) in
  out.2 = (self, w)
  ∧ (out.1 = Ok tt
     ↔ Forall (λ g, ∃ steps, GuideLoader.load (fs w) g = Ok steps) guide_files)
  ∧ (∀ before g after e,
       guide_files = before ++ g :: after →
       Forall (λ g, ∃ steps, GuideLoader.load (fs w) g = Ok steps) before →
       GuideLoader.load (fs w) g = Raise e →
       out.1 = Raise e).
Proof.
  cbv zeta. unfold GuideChain.dry_run.
  pose proof (validate_ok (fs w) (Py.enumerate guide_files) 0) as Hok.
  unfold Py.enumerate in *. rewrite enumerate_from_snd in Hok.
  split_and!.
  - by destruct (GuideChain.validate _ _ _).
  - rewrite <- Hok. destruct (GuideChain.validate _ _ _) as [t|e]; cbn.
    + split; [by eexists | done].
    + split; [done | by intros [? ?]].
  - intros before g after e -> Hb Hg.
    rewrite enumerate_from_app. cbn [Py.enumerate_from].
    rewrite (validate_first_failure _ _ _ _ g e); [done | | done].
    by rewrite enumerate_from_snd.
Qed.

(** ** The files of a chain *)

Lemma str_injective (a b : Z) : Py.str a = Py.str b → a = b.
Proof.
  unfold Py.str. intros H.
  assert (Hint : ∀ z, NilZero.int_of_string (NilZero.string_of_int (Z.to_int z))
                      = Some (Z.to_int z)).
  { intros z. apply NilZero.isi; destruct z as [|p|p]; cbn; try done;
      intros [= Hp]; by apply DecimalPos.Unsigned.to_uint_nonnil in Hp. }
  pose proof (Hint a) as Ha. rewrite H, Hint in Ha. injection Ha as Ha.
  by rewrite <- (DecimalZ.of_to a), <- (DecimalZ.of_to b), Ha.
Qed.

Lemma chars_uint (d : Decimal.uint) (c : ascii) :
  c ∈ Text.chars (NilEmpty.string_of_uint d) → Py.isdigit c = true.
Proof.
  induction d; cbn [NilEmpty.string_of_uint Text.chars];
    try (by intros ?%elem_of_nil);
    (intros [->|?]%elem_of_cons; [done | by apply IHd]).
Qed.

Lemma chars_str (z : Z) (c : ascii) :
  c ∈ Text.chars (Py.str z) → c ≠ "_"%char.
Proof.
  assert (Hu : ∀ d, c ∈ Text.chars (NilZero.string_of_uint d) → c ≠ "_"%char).
  { intros d Hd. assert (Py.isdigit c = true) as Hc; [| by intros ->].
    destruct d; cbn [NilZero.string_of_uint] in Hd;
      [cbn in Hd; apply list_elem_of_singleton in Hd; by subst
      | exact (chars_uint _ _ Hd) ..]. }
  unfold Py.str. destruct (Z.to_int z) as [d|d]; cbn [NilZero.string_of_int].
  - apply Hu.
  - cbn [Text.chars]. intros [->|H]%elem_of_cons; [done | exact (Hu _ H)].
Qed.

(** Two texts that agree up to their first underscore. *)
Lemma app_underscore_inj (a b r1 r2 : string) :
  "_"%char ∉ Text.chars a → "_"%char ∉ Text.chars b →
  a +:+ String "_" r1 = b +:+ String "_" r2 → a = b.
Proof.
  revert b. induction a as [|x a IH]; intros [|y b] Ha Hb H.
  - done.
  - rewrite string_app_nil_l, string_app_cons in H. injection H as <- _.
    exfalso. apply Hb. by left.
  - rewrite string_app_nil_l, string_app_cons in H. injection H as -> _.
    exfalso. apply Ha. by left.
  - rewrite !string_app_cons in H. injection H as -> H.
    f_equal. apply IH; [| | done].
    + intros ?. apply Ha. by right.
    + intros ?. apply Hb. by right.
Qed.

Lemma numbered_inj (prefix : string) (i j : Z) (r1 r2 : string) :
  prefix +:+ Py.str i +:+ "_" +:+ r1 = prefix +:+ Py.str j +:+ "_" +:+ r2 →
  i = j.
Proof.
  intros H. apply str_injective.
  induction prefix as [|c p IH].
  - rewrite !string_app_nil_l in H.
    apply (app_underscore_inj _ _ r1 r2); [| | done];
      intros Hin; by apply chars_str in Hin.
  - rewrite !string_app_cons in H. injection H as H. by apply IH.
Qed.

Lemma chars_app (a b : string) :
  Text.chars (a +:+ b) = Text.chars a ++ Text.chars b.
Proof.
  induction a as [|c a IH]; [done |].
  rewrite string_app_cons. cbn. by rewrite IH.
Qed.

Lemma chars_inj (a b : string) : Text.chars a = Text.chars b → a = b.
Proof.
  revert b. induction a as [|c a IH]; intros [|d b] H; try done.
  cbn in H. injection H as -> H. f_equal. by apply IH.
Qed.

Lemma string_app_inv_head (p a b : string) : p +:+ a = p +:+ b → a = b.
Proof.
  induction p as [|c p IH]; [done |].
  rewrite !string_app_cons. intros [= H]. by apply IH.
Qed.

Lemma path_join_relative (a b : string) (c : ascii) (rest : string) :
  b = String c rest → c ≠ "/"%char →
  ∃ prefix, os.path_join a b = prefix +:+ b
            ∧ ∀ b' c' rest', b' = String c' rest' → c' ≠ "/"%char →
                os.path_join a b' = prefix +:+ b'.
Proof.
  intros -> Hc. unfold os.path_join.
  assert (Hrel : ∀ c' rest', c' ≠ "/"%char →
            Py.startswith (String c' rest') "/" = false).
  { intros c' rest' H. cbn [Py.startswith].
    by destruct (Ascii.eqb_spec "/" c') as [<-|]. }
  rewrite Hrel by done.
  destruct (String.eqb a "" || Py.endswith a "/").
  - exists a. split; [done |]. intros b' c' rest' -> H. by rewrite Hrel.
  - exists (a +:+ "/"). split; [by rewrite string_app_assoc |].
    intros b' c' rest' -> H. rewrite Hrel by done. by rewrite string_app_assoc.
Qed.

(** X15. The files of a chain do not collide.  For two different indices
    the engines of a chain are given different output files and, when the
    chain keeps checkpoints, different checkpoint files, even for one and
    the same guide; and no checkpoint file is the output file of any
    engine of the chain. *)
Theorem chain_files_distinct
    (self : GuideChain.t) (i j : Z) (g g' : string) (w w' : World) :
  i ≠ j →
  Config.output_file (GuideChain.engine_config self i g)
  ≠ Config.output_file (GuideChain.engine_config self j g')
  ∧ (∀ p q,
       (GuideChain.checkpoint_file_for self i g w).1 = Ok (Some p) →
       (GuideChain.checkpoint_file_for self j g' w').1 = Ok (Some q) →
       p ≠ q)
  ∧ (∀ p k g'',
       (GuideChain.checkpoint_file_for self i g w).1 = Ok (Some p) →
       p ≠ Config.output_file (GuideChain.engine_config self k g'')).
Proof.
  intros Hij. split_and!.
  - cbn [GuideChain.engine_config Config.output_file]. intros H.
    apply Hij. eapply (numbered_inj "output_"). exact H.
  - unfold GuideChain.checkpoint_file_for.
    destruct (GuideChain.checkpoint_dir self) as [dir|]; [| done].
    destruct (Py.truthy (Some dir)); [| done].
    rewrite !mbind_unfold. intros p q.
    destruct (os.makedirs dir w) as [[[]|x] w1]; [| done].
    destruct (os.makedirs dir w') as [[[]|x'] w1']; [| done].
    cbn. intros ? ?; simplify_eq.
    destruct (path_join_relative dir
                ("checkpoint_" +:+ Py.str i +:+ "_" +:+ os.path_basename g
                 +:+ ".json") "c"
                ("heckpoint_" +:+ Py.str i +:+ "_" +:+ os.path_basename g
                 +:+ ".json") eq_refl) as (prefix & -> & Hother); [done |].
    rewrite (Hother ("checkpoint_" +:+ Py.str j +:+ "_" +:+ os.path_basename g'
                     +:+ ".json") "c"%char
               ("heckpoint_" +:+ Py.str j +:+ "_" +:+ os.path_basename g'
                +:+ ".json") eq_refl) by done.
    intros H. apply Hij.
    apply (numbered_inj (prefix +:+ "checkpoint_") _ _
             (os.path_basename g +:+ ".json") (os.path_basename g' +:+ ".json")).
    by rewrite !string_app_assoc.
  - unfold GuideChain.checkpoint_file_for.
    destruct (GuideChain.checkpoint_dir self) as [dir|]; [| done].
    destruct (Py.truthy (Some dir)); [| done].
    rewrite !mbind_unfold. intros p k g''.
    destruct (os.makedirs dir w) as [[[]|x] w1]; [| done].
    cbn. intros ?; simplify_eq.
    destruct (path_join_relative dir
                ("checkpoint_" +:+ Py.str i +:+ "_" +:+ os.path_basename g
                 +:+ ".json") "c"
                ("heckpoint_" +:+ Py.str i +:+ "_" +:+ os.path_basename g
                 +:+ ".json") eq_refl) as (prefix & -> & _); [done |].
    intros H. apply (f_equal Text.chars) in H.
    apply (f_equal last) in H. revert H.
    replace (prefix +:+ "checkpoint_" +:+ Py.str i +:+ "_" +:+
             os.path_basename g +:+ ".json")
      with ((prefix +:+ "checkpoint_" +:+ Py.str i +:+ "_" +:+
             os.path_basename g +:+ ".jso") +:+ "n")
      by (by rewrite !string_app_assoc).
    replace ("output_" +:+ Py.str k +:+ "_" +:+
             Py.remove_all ".txt" (os.path_basename g'') +:+ ".txt")
      with (("output_" +:+ Py.str k +:+ "_" +:+
             Py.remove_all ".txt" (os.path_basename g'') +:+ ".tx") +:+ "t")
      by (by rewrite !string_app_assoc).
    rewrite !chars_app. cbn [Text.chars]. by rewrite !last_snoc.
Qed.

Lemma chain_files_distinct_witness :
  let chain := GuideChain.new Examples.default_config None (Some "checkpoints") in
  Config.output_file (GuideChain.engine_config chain 0 "guides/test_guide.txt")
  ≠ Config.output_file (GuideChain.engine_config chain 1 "guides/test_guide.txt").
Proof.
  intros chain.
  assert (H : 0 ≠ 1) by discriminate.
  exact (proj1 (chain_files_distinct chain 0 1 "guides/test_guide.txt"
                  "guides/test_guide.txt" Examples.world Examples.world H)).
Defined.

(** ** The context of each step *)

Lemma process_step_calls env guide_file spec_content steps i
    (s : WorkflowEngine.t * World) :
  calls s.2
  `prefix_of` calls
    (WorkflowEngine.process_step env guide_file spec_content steps i s).2.2.
Proof.
  destruct s as [e w]. rewrite process_step_unfold.
  destruct (Py.index steps i) as [d|x]; [| done].
  destruct (generation_only_process env (WorkflowEngine.config e)
              (WorkflowEngine.pipeline_hooks e)
              (Spec.step_context spec_content i d (WorkflowEngine.state e)) w)
    as (_ & _ & [more Hmore] & _).
  destruct (ModelPipeline.process _ _ _ _ w) as [[out|x] w1];
    cbn [fst snd] in *; [| by exists more].
  cbv zeta. destruct (Py.truthy _); [| by exists more].
  rewrite save_checkpoint_unfold. cbv zeta.
  cbn [WorkflowEngine.checkpoint_file WorkflowEngine.set_state].
  destruct (WorkflowEngine.checkpoint_file e) as [path|]; [| by exists more].
  unfold Checkpoint.save, os.write_file. cbn [fs].
  destruct (fs w1 !! path) as [[c|]|]; by exists more.
Qed.

Lemma for_each_calls env guide_file spec_content steps (ks : list Z)
    (s : WorkflowEngine.t * World) :
  calls s.2
  `prefix_of` calls
    (Py.for_each ks
       (WorkflowEngine.process_step env guide_file spec_content steps) s).2.2.
Proof.
  revert s. induction ks as [|i ks IH]; intros s; [done |].
  cbn [Py.for_each]. rewrite mbind_unfold.
  pose proof (process_step_calls env guide_file spec_content steps i s) as H1.
  destruct (WorkflowEngine.process_step _ _ _ _ i s) as [[[]|x] s1];
    [| done].
  etrans; [exact H1 | apply IH].
Qed.

Lemma for_each_contexts env guide_file spec_content steps (ks : list Z)
    (e e' : WorkflowEngine.t) (w w' : World) :
  Py.for_each ks
    (WorkflowEngine.process_step env guide_file spec_content steps) (e, w)
  = (Ok tt, (e', w')) →
  ∃ outs,
    length outs = length ks
    ∧ e' = WorkflowEngine.set_state e
             (foldl StateManager.add_step_output (WorkflowEngine.state e) outs)
    ∧ ∀ (j : nat) i o,
        ks !! j = Some i → outs !! j = Some o →
        ∃ step_desc w_j,
          Py.index steps i = Ok step_desc
          ∧ calls w `prefix_of` calls w_j
          ∧ (let r :=
               ModelPipeline.process env (WorkflowEngine.config e)
                 (WorkflowEngine.pipeline_hooks e)
                 (Spec.step_context spec_content i step_desc
                    (foldl StateManager.add_step_output (WorkflowEngine.state e)
                       (take j outs)))
                 w_j in
             r.1 = Ok o ∧ calls r.2 `prefix_of` calls w').
Proof.
  revert e w. induction ks as [|i ks IH]; intros e w.
  - unfold Py.for_each, mret, M_ret. intros ?; simplify_eq. exists [].
    rewrite set_state_same. by split_and!.
  - cbn [Py.for_each]. rewrite mbind_unfold.
    pose proof (process_step_unfold env guide_file spec_content steps i e w)
      as Hunf.
    destruct (WorkflowEngine.process_step _ _ _ _ i (e, w))
      as [[[]|x] [e1 w1]] eqn:Hstep; [| done].
    intros Hrest.
    destruct (process_step_ok _ _ _ _ _ _ _ _ _ Hstep)
      as (d & out & Hd & Hout & -> & _).
    pose proof (for_each_calls env guide_file spec_content steps ks
                  (WorkflowEngine.set_state e
                     (StateManager.add_step_output (WorkflowEngine.state e) out),
                   w1)) as Hcalls.
    rewrite Hrest in Hcalls. cbn [fst snd] in Hcalls.
    destruct (IH _ _ Hrest) as (outs & Hlen & -> & Hall).
    assert (Hw1 : calls (ModelPipeline.process env (WorkflowEngine.config e)
                           (WorkflowEngine.pipeline_hooks e)
                           (Spec.step_context spec_content i d
                              (WorkflowEngine.state e)) w).2 = calls w1).
    { rewrite Hd in Hunf.
      destruct (ModelPipeline.process _ _ _ _ w) as [[o1|x] wp]; [| done].
      cbn [fst snd]. cbv zeta in Hunf.
      destruct (Py.truthy _).
      - rewrite save_checkpoint_unfold in Hunf. cbv zeta in Hunf.
        cbn [WorkflowEngine.checkpoint_file WorkflowEngine.set_state] in Hunf.
        destruct (WorkflowEngine.checkpoint_file e) as [path|];
          [| by simplify_eq].
        unfold Checkpoint.save, os.write_file in Hunf. cbn [fs] in Hunf.
        destruct (fs wp !! path) as [[c|]|]; by simplify_eq.
      - by simplify_eq. }
    exists (out :: outs). split_and!.
    + cbn. by rewrite Hlen.
    + done.
    + intros [|j] i' o Hk Ho; simplify_eq/=.
      * exists d, w. split_and!; [done | done | done |]. by rewrite Hw1.
      * destruct (Hall j i' o Hk Ho) as (d' & w_j & Hd' & Hpre & Hp).
        cbv zeta in Hp. destruct Hp as [Hp1 Hp2].
        exists d', w_j. split_and!; [done | | done | done].
        etrans; [| exact Hpre]. rewrite <- Hw1.
        destruct (generation_only_process env (WorkflowEngine.config e)
                    (WorkflowEngine.pipeline_hooks e)
                    (Spec.step_context spec_content i d
                       (WorkflowEngine.state e)) w)
          as (_ & _ & [more ->] & _).
        by exists more.
Qed.

Lemma index_nonneg {A} (l : list A) (i : nat) (x : A) :
  Py.index l (Z.of_nat i) = Ok x → l !! i = Some x.
Proof.
  unfold Py.index. cbv zeta. destruct (decide (Z.of_nat i < 0)); [lia |].
  destruct (decide _); [| done]. rewrite Nat2Z.id.
  destruct (l !! i); [| done]. by intros [= ->].
Qed.

(** X16. The context of each step.  In a run of a new engine without
    resume that returns, the engine ends with one output per step of the
    guide, and the output of the step of index [i] is what the pipeline
    returned for the context with step number [i + 1], the description
    of that step, the loaded specification and, as previous output, the
    outputs of the steps before it, each under its step header; the
    requests of that call lie between those of the start and of the end
    of the run. *)
Theorem run_feeds_previous_outputs
    (env : Env) (config : Config.t) (hooks : option PipelineHooks.t)
    (checkpoint_file : option string) (spec guide_file : string)
    (steps : list string) (w w' : World) (out : string)
    (e' : WorkflowEngine.t) :
  GuideLoader.load (fs w) guide_file = Ok steps →
  WorkflowEngine.run env spec guide_file None
    (WorkflowEngine.new config hooks checkpoint_file, w)
  = (Ok out, (e', w')) →
  ∃ spec_content outputs,
    (if os.path_isfile (fs w) spec then os.read_file (fs w) spec else Ok spec)
    = Ok spec_content
    ∧ length outputs = length steps
    ∧ StateManager.step_outputs (WorkflowEngine.state e') = outputs
    ∧ ∀ (i : nat) step_desc o,
        steps !! i = Some step_desc → outputs !! i = Some o →
        ∃ w_i,
          calls w `prefix_of` calls w_i
          ∧ (let r :=
               ModelPipeline.process env config
                 (match hooks with Some h => h | None => PipelineHooks.new end)
                 {| StepContext.step_number := Z.of_nat i + 1;
                    StepContext.step_description := step_desc;
                    StepContext.spec := spec_content;
                    StepContext.previous_output :=
                      Spec.context_from 0 (take i outputs);
                    StepContext.draft := "";
                    StepContext.corrected := "";
                    StepContext.secured := "" |} w_i in
             r.1 = Ok o ∧ calls r.2 `prefix_of` calls w').
Proof.
  intros Hload. rewrite run_unfold, Hload.
  destruct (load_specification_ok (fs w) spec) as [sc Hsc]. rewrite Hsc.
  rewrite resume_none.
  destruct (Py.for_each _ _ _) as [[[]|x] [e1 w1]] eqn:Hloop; [| done].
  destruct (for_each_contexts _ _ _ _ _ _ _ _ _ Hloop)
    as (outputs & Hlen & -> & Hall).
  rewrite range2_length in Hlen.
  cbn [WorkflowEngine.new WorkflowEngine.set_state WorkflowEngine.config
       WorkflowEngine.state WorkflowEngine.pipeline_hooks
       WorkflowEngine.hooks] in *.
  intros Hw.
  assert (He' : WorkflowEngine.state e'
                = foldl StateManager.add_step_output StateManager.new outputs
                ∧ calls w' = calls w1).
  { unfold os.write_file in Hw.
    destruct (fs w1 !! _) as [[c|]|]; by simplify_eq. }
  destruct He' as [He' Hcw].
  exists sc, outputs. split_and!; [done | lia | |].
  - rewrite He'.
    by destruct (foldl_add_step_output outputs StateManager.new) as (-> & _).
  - intros i d o Hd Ho.
    assert (Hk : Py.range2 0 (Z.of_nat (length steps)) !! i
                 = Some (Z.of_nat i)).
    { unfold Py.range2. rewrite list_lookup_fmap.
      rewrite lookup_seq_lt; [done |].
      apply lookup_lt_Some in Hd. lia. }
    destruct (Hall i (Z.of_nat i) o Hk Ho) as (d' & w_i & Hd' & Hpre & Hp).
    apply index_nonneg in Hd'. rewrite Hd in Hd'. injection Hd' as <-.
    exists w_i. split; [done |]. rewrite Hcw.
    replace (Spec.context_from 0 (take i outputs))
      with (StateManager.get_context
              (foldl StateManager.add_step_output StateManager.new
                 (take i outputs))); [exact Hp |].
    unfold StateManager.get_context.
    destruct (foldl_add_step_output (take i outputs) StateManager.new)
      as (_ & _ & ->).
    cbn. by rewrite string_app_nil_l.
Qed.

Lemma run_feeds_previous_outputs_witness :
  let run :=
    WorkflowEngine.run Examples.counting_env "Build a REST API" "guide.txt" None
      (WorkflowEngine.new Examples.default_config None None, Examples.world) in
  ∃ outputs,
    length outputs = 3%nat
    ∧ StateManager.step_outputs (WorkflowEngine.state run.2.1) = outputs
    ∧ ∀ o, outputs !! 1%nat = Some o →
        ∃ w_i,
          (ModelPipeline.process Examples.counting_env Examples.default_config
             PipelineHooks.new
             {| StepContext.step_number := 2;
                StepContext.step_description := "Second";
                StepContext.spec := "Build a REST API";
                StepContext.previous_output :=
                  Spec.context_from 0 (take 1 outputs);
                StepContext.draft := "";
                StepContext.corrected := "";
                StepContext.secured := "" |} w_i).1 = Ok o.
Proof.
  intros run.
  set (out := match run.1 with Ok s => s | Raise _ => "" end).
  assert (Hrun : run = (Ok out, (run.2.1, run.2.2))) by (vm_compute; reflexivity).
  destruct (run_feeds_previous_outputs Examples.counting_env
              Examples.default_config None None "Build a REST API" "guide.txt"
              ["First"; "Second"; "Third"] Examples.world run.2.2 out run.2.1)
    as (sc & outputs & Hsc & Hlen & Hout & Hsteps).
  - vm_compute. reflexivity.
  - exact Hrun.
  - exists outputs. split_and!; [exact Hlen | exact Hout |].
    intros o Ho.
    assert (Hsc' : sc = "Build a REST API").
    { vm_compute in Hsc. by injection Hsc as <-. }
    destruct (Hsteps 1%nat "Second" o eq_refl Ho) as (w_i & _ & Hr & _).
    exists w_i. rewrite <- Hsc'. exact Hr.
Defined.

(** ** A resume path without a file *)

(** C10. A resume path at which no file exists.  For every engine just
    constructed, the block that restores a checkpoint raises nothing,
    leaves the engine alone and yields the start index 0, the
    accumulation state of the engine is the empty one, and the whole run,
    on this and on any engine, is the run without a resume path.  For a
    guide that loads, the run starts with the step of index 0 in the
    empty state: if the pipeline fails on that step the run ends with its
    exception; and a run that returns has processed every step of the
    guide in order, the step of index [i] with step number [i + 1], its
    own description and the outputs of the steps before it as previous
    output, so that the engine ends with one output per step and the
    count of completed steps is the number of steps of the guide. *)
Theorem resume_without_checkpoint_file
    (env : Env) (config : Config.t) (hooks : option PipelineHooks.t)
    (checkpoint_file : option string) (spec guide_file path : string)
    (w : World) :
  os.path_exists (fs w) path = false →
  let engine := WorkflowEngine.new config hooks checkpoint_file in
  let resumed :=
    WorkflowEngine.run env spec guide_file (Some path) (engine, w) in
  WorkflowEngine.resume_from_checkpoint (Some path) (engine, w)
  = (Ok 0, (engine, w))
  ∧ WorkflowEngine.state engine
    = {| StateManager.cumulative_output := "";
         StateManager.current_step_index := 0;
         StateManager.step_outputs := [] |}
  ∧ (∀ e,
       WorkflowEngine.run env spec guide_file (Some path) (e, w)
       = WorkflowEngine.run env spec guide_file None (e, w))
  ∧ ∀ steps,
      GuideLoader.load (fs w) guide_file = Ok steps →
      ∃ spec_content,
        (if os.path_isfile (fs w) spec then os.read_file (fs w) spec
         else Ok spec) = Ok spec_content
        ∧ (∀ step_desc x,
             steps !! 0%nat = Some step_desc →
             let first :=
               ModelPipeline.process env config
                 (WorkflowEngine.pipeline_hooks engine)
                 (Spec.step_context spec_content 0 step_desc StateManager.new)
                 w in
             first.1 = Raise x → resumed = (Raise x, (engine, first.2)))
        ∧ (∀ out e' w',
             resumed = (Ok out, (e', w')) →
             ∃ outputs,
               length outputs = length steps
               ∧ WorkflowEngine.state e'
                 = {| StateManager.cumulative_output :=
                        Spec.context_from 0 outputs;
                      StateManager.current_step_index :=
                        Z.of_nat (length steps);
                      StateManager.step_outputs := outputs |}
               ∧ out = Spec.context_from 0 outputs
               ∧ ∀ (i : nat) step_desc o,
                   steps !! i = Some step_desc → outputs !! i = Some o →
                   ∃ w_i,
                     calls w `prefix_of` calls w_i
                     ∧ (let r :=
                          ModelPipeline.process env config
                            (WorkflowEngine.pipeline_hooks engine)
                            {| StepContext.step_number := Z.of_nat i + 1;
                               StepContext.step_description := step_desc;
                               StepContext.spec := spec_content;
                               StepContext.previous_output :=
                                 Spec.context_from 0 (take i outputs);
                               StepContext.draft := "";
                               StepContext.corrected := "";
                               StepContext.secured := "" |} w_i in
                        r.1 = Ok o ∧ calls r.2 `prefix_of` calls w')).
Proof.
  intros Hmissing engine resumed. split; [by apply resume_missing |].
  split; [done |]. split.
  { intros e.
    by rewrite !run_unfold, (resume_missing _ _ _ Hmissing), resume_none. }
  intros steps Hload.
  destruct (load_specification_ok (fs w) spec) as [sc Hsc].
  exists sc. split; [done |].
  assert (Hresumed :
    resumed
    = match Py.for_each (Py.range2 0 (Z.of_nat (length steps)))
              (WorkflowEngine.process_step env guide_file sc steps)
              (engine, w) with
      | (Raise x, s') => (Raise x, s')
      | (Ok _, (e', w')) =>
          match os.write_file (Config.output_file (WorkflowEngine.config e'))
                  (StateManager.cumulative_output (WorkflowEngine.state e'))
                  w' with
          | (Raise x, w'') => (Raise x, (e', w''))
          | (Ok _, w'') =>
              (Ok (StateManager.cumulative_output (WorkflowEngine.state e')),
               (e', w''))
          end
      end).
  { unfold resumed.
    by rewrite run_unfold, Hsc, Hload, (resume_missing _ _ _ Hmissing). }
  split.
  - intros d x Hd first Hfirst. rewrite Hresumed.
    assert (Hlen : 0 < Z.of_nat (length steps)).
    { apply lookup_lt_Some in Hd. lia. }
    rewrite (range2_cons 0) by done. cbn [Py.for_each].
    rewrite mbind_unfold, process_step_unfold.
    assert (Hidx : Py.index steps 0 = Ok d).
    { unfold Py.index. cbv zeta. destruct (decide (0 < 0)); [lia |].
      destruct (decide _); [| lia]. change (Z.to_nat 0) with 0%nat. by rewrite Hd. }
    rewrite Hidx.
    change (ModelPipeline.process env (WorkflowEngine.config engine)
              (WorkflowEngine.pipeline_hooks engine)
              (Spec.step_context sc 0 d (WorkflowEngine.state engine)) w)
      with first.
    destruct first as [[o|x'] w1]; cbn [fst snd] in *; [done |].
    by injection Hfirst as ->.
  - intros out e' w' Hrun. rewrite Hresumed in Hrun.
    destruct (Py.for_each _ _ _) as [[[]|x] [e1 w1]] eqn:Hloop; [| done].
    destruct (for_each_contexts _ _ _ _ _ _ _ _ _ Hloop)
      as (outputs & Hlen & -> & Hall).
    rewrite range2_length in Hlen.
    cbn [WorkflowEngine.new WorkflowEngine.set_state WorkflowEngine.config
         WorkflowEngine.state] in *.
    destruct (foldl_add_step_output outputs StateManager.new)
      as (Houts & Hindex & Hcum).
    cbn [StateManager.new StateManager.step_outputs
         StateManager.current_step_index StateManager.cumulative_output
         app] in Houts, Hindex, Hcum.
    rewrite string_app_nil_l in Hcum.
    destruct (write_file_world (Config.output_file config)
                (StateManager.cumulative_output
                   (foldl StateManager.add_step_output StateManager.new
                      outputs)) w1) as (Hcw & _).
    destruct (os.write_file _ _ w1) as [[[]|x] w2]; [| done].
    cbn [snd] in Hcw. injection Hrun as <- <- <-.
    exists outputs. split_and!; [lia | | done |].
    + cbn [WorkflowEngine.state].
      destruct (foldl StateManager.add_step_output StateManager.new outputs)
        as [cum idx outs].
      cbn in *. f_equal; [done | lia | done].
    + intros i d o Hd Ho.
      assert (Hk : Py.range2 0 (Z.of_nat (length steps)) !! i
                   = Some (Z.of_nat i)).
      { unfold Py.range2. rewrite list_lookup_fmap.
        rewrite lookup_seq_lt; [done |].
        apply lookup_lt_Some in Hd. lia. }
      destruct (Hall i (Z.of_nat i) o Hk Ho) as (d' & w_i & Hd' & Hpre & Hp).
      apply index_nonneg in Hd'. rewrite Hd in Hd'. injection Hd' as <-.
      exists w_i. split; [done |]. rewrite Hcw.
      replace (Spec.context_from 0 (take i outputs))
        with (StateManager.get_context
                (foldl StateManager.add_step_output StateManager.new
                   (take i outputs))); [exact Hp |].
      unfold StateManager.get_context.
      destruct (foldl_add_step_output (take i outputs) StateManager.new)
        as (_ & _ & ->).
      cbn. by rewrite string_app_nil_l.
Qed.

Lemma resume_without_checkpoint_file_witness :
  let resumed :=
    WorkflowEngine.run Examples.counting_env "Build a REST API" "guide.txt"
      (Some "missing.json")
      (WorkflowEngine.new Examples.default_config None None, Examples.world) in
  resumed
  = WorkflowEngine.run Examples.counting_env "Build a REST API" "guide.txt"
      None
      (WorkflowEngine.new Examples.default_config None None, Examples.world)
  ∧ ∃ outputs,
      length outputs = 3%nat
      ∧ StateManager.step_outputs (WorkflowEngine.state resumed.2.1) = outputs
      ∧ StateManager.current_step_index (WorkflowEngine.state resumed.2.1) = 3
      ∧ resumed.1 = Ok (Spec.context_from 0 outputs).
Proof.
  intros resumed.
  destruct (resume_without_checkpoint_file Examples.counting_env
              Examples.default_config None None "Build a REST API" "guide.txt"
              "missing.json" Examples.world)
    as (_ & _ & Hsame & Hcover).
  - vm_compute. reflexivity.
  - split; [apply Hsame |].
    destruct (Hcover ["First"; "Second"; "Third"]) as (sc & _ & _ & Hreturned).
    { vm_compute. reflexivity. }
    set (out := match resumed.1 with Ok s => s | Raise _ => "" end).
    assert (Hrun : resumed = (Ok out, (resumed.2.1, resumed.2.2)))
      by (vm_compute; reflexivity).
    destruct (Hreturned out resumed.2.1 resumed.2.2 Hrun)
      as (outputs & Hlen & Hstate & Hout & _).
    exists outputs. rewrite Hstate. cbn.
    split_and!; [done | done | done |]. by rewrite Hrun, Hout.
Defined.

(** ** The files a chain keeps *)

Lemma output_files_distinct (self : GuideChain.t) (i j : Z) (g g' : string) :
  i ≠ j →
  Config.output_file (GuideChain.engine_config self i g)
  ≠ Config.output_file (GuideChain.engine_config self j g').
Proof.
  intros Hij. cbn [GuideChain.engine_config Config.output_file]. intros H.
  apply Hij. eapply (numbered_inj "output_"). exact H.
Qed.

Lemma checkpoint_file_shape (self : GuideChain.t) (i : Z) (g : string)
    (w : World) (p : string) :
  (GuideChain.checkpoint_file_for self i g w).1 = Ok (Some p) →
  ∃ prefix,
    p = prefix +:+ "checkpoint_" +:+ Py.str i +:+ "_" +:+ os.path_basename g
        +:+ ".json"
    ∧ ∀ j g' w' q,
        (GuideChain.checkpoint_file_for self j g' w').1 = Ok (Some q) →
        q = prefix +:+ "checkpoint_" +:+ Py.str j +:+ "_" +:+
            os.path_basename g' +:+ ".json".
Proof.
  unfold GuideChain.checkpoint_file_for.
  destruct (GuideChain.checkpoint_dir self) as [dir|]; [| done].
  destruct (Py.truthy (Some dir)); [| done].
  rewrite !mbind_unfold.
  destruct (os.makedirs dir w) as [[[]|x] w1]; [| done].
  cbn. intros ?; simplify_eq.
  destruct (path_join_relative dir
              ("checkpoint_" +:+ Py.str i +:+ "_" +:+ os.path_basename g
               +:+ ".json") "c"
              ("heckpoint_" +:+ Py.str i +:+ "_" +:+ os.path_basename g
               +:+ ".json") eq_refl) as (prefix & -> & Hother); [done |].
  exists prefix. split; [done |].
  intros j g' w' q. rewrite !mbind_unfold.
  destruct (os.makedirs dir w') as [[[]|x'] w1']; [| done].
  cbn. intros ?; simplify_eq.
  apply (Hother ("checkpoint_" +:+ Py.str j +:+ "_" +:+ os.path_basename g'
                 +:+ ".json") "c"%char
           ("heckpoint_" +:+ Py.str j +:+ "_" +:+ os.path_basename g'
            +:+ ".json") eq_refl).
  done.
Qed.

Lemma checkpoint_files_distinct (self : GuideChain.t) (i j : Z) (g g' : string)
    (w w' : World) (p q : string) :
  i ≠ j →
  (GuideChain.checkpoint_file_for self i g w).1 = Ok (Some p) →
  (GuideChain.checkpoint_file_for self j g' w').1 = Ok (Some q) →
  p ≠ q.
Proof.
  intros Hij Hp Hq.
  destruct (checkpoint_file_shape _ _ _ _ _ Hp) as (prefix & -> & Hother).
  rewrite (Hother _ _ _ _ Hq). intros H. apply Hij.
  apply (numbered_inj (prefix +:+ "checkpoint_") _ _
           (os.path_basename g +:+ ".json") (os.path_basename g' +:+ ".json")).
  by rewrite !string_app_assoc.
Qed.

Lemma checkpoint_is_no_output (self : GuideChain.t) (i k : Z) (g g' : string)
    (w : World) (p : string) :
  (GuideChain.checkpoint_file_for self i g w).1 = Ok (Some p) →
  p ≠ Config.output_file (GuideChain.engine_config self k g').
Proof.
  intros Hp.
  destruct (checkpoint_file_shape _ _ _ _ _ Hp) as (prefix & -> & _).
  cbn [GuideChain.engine_config Config.output_file].
  intros H. apply (f_equal Text.chars) in H.
  apply (f_equal last) in H. revert H.
  replace (prefix +:+ "checkpoint_" +:+ Py.str i +:+ "_" +:+
           os.path_basename g +:+ ".json")
    with ((prefix +:+ "checkpoint_" +:+ Py.str i +:+ "_" +:+
           os.path_basename g +:+ ".jso") +:+ "n")
    by (by rewrite !string_app_assoc).
  replace ("output_" +:+ Py.str k +:+ "_" +:+
           Py.remove_all ".txt" (os.path_basename g') +:+ ".txt")
    with (("output_" +:+ Py.str k +:+ "_" +:+
           Py.remove_all ".txt" (os.path_basename g') +:+ ".tx") +:+ "t")
    by (by rewrite !string_app_assoc).
  rewrite !chars_app. cbn [Text.chars]. by rewrite !last_snoc.
Qed.

(** The files a run of a new engine leaves behind. *)
Lemma run_files env config hooks checkpoint_file spec guide_file
    (w w' : World) (out : string) (e' : WorkflowEngine.t) :
  WorkflowEngine.run env spec guide_file None
    (WorkflowEngine.new config hooks checkpoint_file, w)
  = (Ok out, (e', w')) →
  fs w' !! Config.output_file config = Some (File out)
  ∧ ∀ q, q ≠ Config.output_file config → checkpoint_file ≠ Some q →
         fs w' !! q = fs w !! q.
Proof.
  rewrite run_unfold.
  destruct (load_specification_ok (fs w) spec) as [sc ->].
  destruct (GuideLoader.load (fs w) guide_file) as [steps|x]; [| done].
  rewrite resume_none.
  destruct (Py.for_each _ _ _) as [[[]|x] [e1 w1]] eqn:Hloop; [| done].
  destruct (for_each_ok _ _ _ _ _ _ _ _ _ Hloop)
    as (outputs & _ & -> & Hq & _).
  cbn [WorkflowEngine.new WorkflowEngine.set_state WorkflowEngine.config
       WorkflowEngine.state WorkflowEngine.checkpoint_file] in *.
  unfold os.write_file.
  destruct (fs w1 !! Config.output_file config) as [[c|]|];
    intros ?; simplify_eq; cbn [fs set_fs];
    (split; [by rewrite lookup_insert_eq |]);
    intros q Hq1 Hq2; rewrite lookup_insert_ne by done; by apply Hq.
Qed.

Lemma checkpoint_file_for_files (self : GuideChain.t) (idx : Z) (g : string)
    (w w1 : World) (cp : option string) :
  GuideChain.checkpoint_file_for self idx g w = (Ok cp, w1) →
  ∀ q, is_Some (fs w !! q) → fs w1 !! q = fs w !! q.
Proof.
  unfold GuideChain.checkpoint_file_for.
  destruct (GuideChain.checkpoint_dir self) as [dir|];
    [| unfold mret, M_ret; intros ?; by simplify_eq].
  destruct (Py.truthy (Some dir));
    [| unfold mret, M_ret; intros ?; by simplify_eq].
  rewrite mbind_unfold. unfold os.makedirs.
  destruct (fs w !! dir) as [[c|]|] eqn:Hdir; cbn; unfold mret, M_ret;
    intros ?; simplify_eq; [done |].
  intros q [x Hq]. cbn. rewrite lookup_insert_ne; [done |].
  intros ->. by rewrite Hdir in Hq.
Qed.


Lemma run_guides_files env self spec (gs : list string) :
  ∀ (start : Z) cc w final made w',
  GuideChain.run_guides env self spec (Py.enumerate_from start gs) cc w
  = (Ok (final, made), w') →
  (∀ q, is_Some (fs w !! q) → Chain.foreign self start q →
        fs w' !! q = fs w !! q)
  ∧ (∀ (j : nat) inv,
       made !! j = Some inv →
       fs w' !! Config.output_file
                  (GuideChain.engine_config self (start + Z.of_nat j)
                     (GuideChain.passed_guide inv))
       = Some (File (GuideChain.returned_output inv))).
Proof.
  induction gs as [|g gs IH]; intros start cc w final made w' Hrun.
  - cbn in Hrun. unfold mret, M_ret in Hrun. simplify_eq.
    split; [done |]. intros j inv Hl. by rewrite lookup_nil in Hl.
  - cbn [Py.enumerate_from] in Hrun. rewrite run_guides_cons in Hrun.
    destruct (GuideChain.checkpoint_file_for self start g w)
      as [[cp|x] w1] eqn:Hcp; [| done].
    destruct (GuideChain.with_engine _ _ w1) as [[output|x] w2] eqn:Hengine;
      [| done].
    destruct (GuideChain.run_guides env self spec _ _ w2)
      as [[[final' made']|x] w3] eqn:Hrest; [| done].
    injection Hrun as <- <- <-.
    destruct (IH _ _ _ _ _ _ Hrest) as (Hframe & Hfiles).
    unfold GuideChain.with_engine in Hengine.
    destruct (WorkflowEngine.run _ _ _ _ _) as [r [e2 w2']] eqn:Hrunone.
    cbn [fst snd] in Hengine. injection Hengine as -> ->.
    destruct (run_files _ _ _ _ _ _ _ _ _ _ Hrunone) as (Hout & Hother).
    pose proof (checkpoint_file_for_files _ _ _ _ _ _ Hcp) as Hmk.
    assert (Hcp1 : ∀ p, cp = Some p →
              (GuideChain.checkpoint_file_for self start g w).1 = Ok (Some p)).
    { intros p ->. by rewrite Hcp. }
    split.
    + intros q Hq [Hfo Hfc].
      rewrite Hframe.
      * rewrite Hother; [by apply Hmk | apply Hfo; lia |].
        intros ->. apply (Hfc start g w q); [lia | by apply Hcp1 | done].
      * rewrite Hother; [by rewrite Hmk | apply Hfo; lia |].
        intros ->. apply (Hfc start g w q); [lia | by apply Hcp1 | done].
      * split.
        -- intros idx g' Hidx. apply Hfo. lia.
        -- intros idx g' w0 p Hidx. apply Hfc. lia.
    + intros [|j] inv Hinv.
      * injection Hinv as <-. cbn [GuideChain.passed_guide
          GuideChain.returned_output].
        replace (start + Z.of_nat 0) with start by lia.
        rewrite Hframe; [done | by rewrite Hout |].
        split.
        -- intros idx g' Hidx. apply output_files_distinct. lia.
        -- intros idx g' w0 p Hidx Hp Heq.
           by apply (checkpoint_is_no_output self idx start g' g w0 p).
      * change ((?x :: made') !! S j) with (made' !! j) in Hinv.
        replace (start + Z.of_nat (S j)) with (start + 1 + Z.of_nat j) by lia.
        by apply Hfiles.
Qed.

(** X17. The per-guide output files of a chain.  When a chain returns,
    the output file of the engine of each guide,
    [output_<idx>_<name>.txt], still holds the output that guide's run
    returned: no later guide, checkpoint or directory creation of the
    chain replaced it, unless the output file of the chain itself has
    that very name. *)
Theorem chain_keeps_guide_outputs
    (env : Env) (spec : string) (guide_files : list string)
    (self self' : GuideChain.t) (w w' : World)
    (final : string) (made : list GuideChain.invocation) :
  GuideChain.run_traced env spec guide_files (self, w)
  = (Ok (final, made), (self', w')) →
  ∀ (i : nat) inv,
    made !! i = Some inv →
    let file :=
      Config.output_file
        (GuideChain.engine_config self (Z.of_nat i)
           (GuideChain.passed_guide inv)) in
    file ≠ Config.output_file (GuideChain.config self) →
    fs w' !! file = Some (File (GuideChain.returned_output inv)).
Proof.
  intros Hrun i inv Hinv file Hfile. unfold GuideChain.run_traced in Hrun.
  destruct (GuideChain.run_guides env self spec (Py.enumerate guide_files) "" w)
    as [[[final' made']|x] w1] eqn:Hguides; [| done].
  unfold Py.enumerate in Hguides.
  destruct (run_guides_files _ _ _ _ _ _ _ _ _ _ Hguides) as (_ & Hfiles).
  cbn [GuideChain.set_chain_output GuideChain.config] in Hrun.
  unfold os.write_file in Hrun.
  destruct (fs w1 !! Config.output_file (GuideChain.config self)) as [[c|]|];
    simplify_eq; cbn [fs set_fs];
    rewrite lookup_insert_ne by done;
    by rewrite <- (Hfiles i inv Hinv), Z.add_0_l.
Qed.

Lemma chain_keeps_guide_outputs_witness :
  let r :=
    GuideChain.run_traced Examples.counting_env "Build a REST API"
      ["guide.txt"; "coding_guide.txt"]
      (GuideChain.new Examples.default_config None None, Examples.world) in
  ∃ final made inv,
    r.1 = Ok (final, made)
    ∧ made !! 0%nat = Some inv
    ∧ GuideChain.passed_guide inv = "guide.txt"
    ∧ fs r.2.2 !! "output_0_guide.txt"
      = Some (File (GuideChain.returned_output inv)).
Proof.
  intros r.
  set (final := match r.1 with Ok p => p.1 | Raise _ => "" end).
  set (made := match r.1 with Ok p => p.2 | Raise _ => [] end).
  set (inv := match made with i :: _ => i
              | [] => GuideChain.Build_invocation "" "" "" end).
  assert (Hrun : r = (Ok (final, made), (r.2.1, r.2.2)))
    by (vm_compute; reflexivity).
  assert (Hinv : made !! 0%nat = Some inv) by (vm_compute; reflexivity).
  assert (Hguide : GuideChain.passed_guide inv = "guide.txt")
    by (vm_compute; reflexivity).
  exists final, made, inv. split_and!; [by rewrite Hrun | done | done |].
  pose proof (chain_keeps_guide_outputs _ _ _ _ _ _ _ _ _ Hrun 0%nat inv Hinv)
    as Hfile.
  cbv zeta in Hfile. rewrite Hguide in Hfile.
  apply Hfile. vm_compute. discriminate.
Defined.

(** ** The format of a step line *)


Lemma span_every (f : ascii → bool) (s : string) :
  Text.every f (GuideLoader.span f s).1 = true.
Proof.
  induction s as [|c s IH]; [done |]. cbn [GuideLoader.span].
  destruct (f c) eqn:Hc; [| done].
  destruct (GuideLoader.span f s) as [a b]. cbn in *. by rewrite Hc.
Qed.

Lemma span_exact (f : ascii → bool) (a b : string) :
  Text.every f a = true →
  match b with "" => True | String c _ => f c = false end →
  GuideLoader.span f (a +:+ b) = (a, b).
Proof.
  intros Ha Hb. induction a as [|c a IH].
  - rewrite string_app_nil_l. destruct b as [|c b]; [done |].
    cbn. by rewrite Hb.
  - cbn in Ha. apply andb_true_iff in Ha as [Hc Ha].
    rewrite string_app_cons. cbn [GuideLoader.span]. by rewrite Hc, IH.
Qed.

Lemma every_app (f : ascii → bool) (a b : string) :
  Text.every f (a +:+ b) = Text.every f a && Text.every f b.
Proof.
  induction a as [|c a IH]; [done |].
  rewrite string_app_cons. cbn. by rewrite IH, andb_assoc.
Qed.

Lemma lstrip_split (s : string) :
  ∃ sp, s = sp +:+ Py.lstrip s ∧ Text.every Py.isspace sp = true.
Proof.
  induction s as [|c s (sp & Hs & Hsp)]; [by exists "" |].
  cbn [Py.lstrip]. destruct (Py.isspace c) eqn:Hc.
  - exists (String c sp). rewrite string_app_cons, <- Hs. cbn. by rewrite Hc.
  - by exists "".
Qed.

Lemma spaces_then_rest_split (s g : string) :
  GuideLoader.spaces_then_rest s = Some g →
  Text.ends_nonspace s = true →
  ∃ sp, s = sp +:+ g ∧ Text.every Py.isspace sp = true.
Proof.
  revert g. induction s as [|c s IH]; intros g; [done |].
  cbn [GuideLoader.spaces_then_rest]. intros Hm Hend.
  assert (Hdot : GuideLoader.dot_plus_end (String c s) = Some g →
            ∃ sp, String c s = sp +:+ g ∧ Text.every Py.isspace sp = true).
  { intros H. destruct (dot_plus_end_group _ _ H) as (_ & _ & Hg).
    exists "". by rewrite (Hg Hend). }
  destruct (Py.isspace c) eqn:Hc; [| by apply Hdot].
  destruct (GuideLoader.spaces_then_rest s) as [g'|] eqn:Hg; [| by apply Hdot].
  injection Hm as ->.
  destruct s as [|d s]; [done |]. rewrite ends_nonspace_cons in Hend by done.
  destruct (IH _ eq_refl Hend) as (sp & Hs & Hsp).
  exists (String c sp). rewrite string_app_cons, <- Hs. cbn. by rewrite Hc.
Qed.

Lemma dot_plus_end_plain (d : string) :
  d ≠ "" → "010"%char ∉ Text.chars d → GuideLoader.dot_plus_end d = Some d.
Proof.
  induction d as [|c d IH]; [done |]. intros _ Hnl.
  cbn [Text.chars] in Hnl. apply not_elem_of_cons in Hnl as [Hc Hnl].
  cbn [GuideLoader.dot_plus_end].
  destruct (Ascii.eqb_spec c "010") as [->|_]; [done |].
  destruct d as [|e d]; [done |].
  cbn [Text.chars] in Hnl. pose proof Hnl as Hnl'.
  apply not_elem_of_cons in Hnl' as [He _].
  destruct (Ascii.eqb_spec e "010") as [->|_]; [done |]. cbn [andb].
  by rewrite IH.
Qed.

Lemma spaces_then_rest_exact (ws d : string) :
  Text.every Py.isspace ws = true →
  d ≠ "" → Py.strip d = d → "010"%char ∉ Text.chars d →
  GuideLoader.spaces_then_rest (ws +:+ d) = Some d.
Proof.
  intros Hws Hd Hstrip Hnl.
  assert (Hbase : GuideLoader.spaces_then_rest d = Some d).
  { destruct (strip_shape d) as [He|(_ & c & r & Hs & Hc)];
      rewrite Hstrip in *; [done |].
    rewrite Hs. cbn [GuideLoader.spaces_then_rest]. rewrite Hc, <- Hs.
    by apply dot_plus_end_plain. }
  induction ws as [|c ws IH]; [by rewrite string_app_nil_l |].
  cbn in Hws. apply andb_true_iff in Hws as [Hc Hws].
  rewrite string_app_cons. cbn [GuideLoader.spaces_then_rest].
  by rewrite Hc, IH.
Qed.

Lemma isdigit_not_space (c : ascii) :
  Py.isdigit c = true → Py.isspace c = false.
Proof. destruct c as [[] [] [] [] [] [] [] []]; done. Qed.

Lemma recognize_iff (line : string) (k : N) (d : string) :
  Spec.recognize line = Some (k, d) ↔ Text.step_line (Py.strip line) k d.
Proof.
  split.
  - intros Hrec. pose proof (recognize_description _ _ _ Hrec) as (Hd & Hs & Hnl).
    unfold Spec.recognize in Hrec.
    destruct (GuideLoader.STEP_PATTERN_match (Py.strip line)) as [[g1 g2]|] eqn:Hm;
      [| done].
    injection Hrec as <- <-.
    assert (Hend : Text.ends_nonspace (Py.strip line) = true).
    { destruct (strip_shape line) as [He|[He _]]; [| done].
      by rewrite He in Hm. }
    destruct (STEP_PATTERN_group _ _ _ Hm) as (_ & _ & Hg2).
    specialize (Hg2 Hend).
    unfold GuideLoader.STEP_PATTERN_match in Hm.
    destruct (Py.strip line) as [|c1 [|c2 [|c3 [|c4 r]]]]; try done.
    destruct (GuideLoader.ieq c1 "s" "S") eqn:H1; [| done].
    destruct (GuideLoader.ieq c2 "t" "T") eqn:H2; [| done].
    destruct (GuideLoader.ieq c3 "e" "E") eqn:H3; [| done].
    destruct (GuideLoader.ieq c4 "p" "P") eqn:H4; [| done].
    cbn [andb] in Hm.
    pose proof (span_app Py.isspace r) as E1.
    pose proof (span_every Py.isspace r) as V1.
    pose proof (span_ends_nonspace Py.isspace r) as N1.
    destruct (GuideLoader.span Py.isspace r) as [ws r1]. cbn [fst snd] in *.
    destruct (String.eqb_spec ws "") as [|Hws]; [done |].
    pose proof (span_app Py.isdigit r1) as E2.
    pose proof (span_every Py.isdigit r1) as V2.
    pose proof (span_ends_nonspace Py.isdigit r1) as N2.
    destruct (GuideLoader.span Py.isdigit r1) as [ds r2]. cbn [fst snd] in *.
    destruct (String.eqb_spec ds "") as [|Hds]; [done |].
    destruct r2 as [|c5 r3]; [done |].
    destruct (Ascii.eqb_spec c5 ":") as [->|]; [| done].
    destruct (GuideLoader.spaces_then_rest r3) as [g|] eqn:Hg; [| done].
    injection Hm as <- <-.
    assert (Hr3 : Text.ends_nonspace r3 = true).
    { assert (Hn3 : r3 ≠ "") by (by destruct r3).
      assert (Hn1 : r1 ≠ "") by (rewrite E2; by apply string_app_nonempty_r).
      assert (Hn : r ≠ "") by (rewrite E1; by apply string_app_nonempty_r).
      rewrite !ends_nonspace_cons in Hend by done.
      rewrite <- N1 in Hend by done.
      rewrite <- N2 in Hend by done.
      by rewrite ends_nonspace_cons in Hend. }
    destruct (spaces_then_rest_split _ _ Hg Hr3) as (sp & -> & Hsp).
    destruct (lstrip_split g) as (sp2 & Hg' & Hsp2).
    assert (Hstrip : Py.strip g = Py.lstrip g).
    { unfold Py.strip. apply rstrip_fixed. by apply lstrip_ends_nonspace. }
    exists c1, c2, c3, c4, ws, ds, (sp +:+ sp2).
    split_and!; try done.
    + rewrite E1, E2. by rewrite Hstrip, (string_app_assoc sp sp2), <- Hg'.
    + by rewrite every_app, Hsp, Hsp2.
  - intros (c1 & c2 & c3 & c4 & ws & ds & ws' & HL & H1 & H2 & H3 & H4
            & Hws & Vws & Hds & Vds & Vws' & Hd & Hs & Hnl & ->).
    unfold Spec.recognize. rewrite HL. unfold GuideLoader.STEP_PATTERN_match.
    rewrite H1, H2, H3, H4. cbn [andb].
    rewrite (span_exact Py.isspace ws).
    + destruct (String.eqb_spec ws ""); [done |].
      rewrite (span_exact Py.isdigit ds); [| done | done].
      destruct (String.eqb_spec ds ""); [done |].
      rewrite Ascii.eqb_refl.
      rewrite spaces_then_rest_exact by done. by rewrite Hs.
    + done.
    + destruct ds as [|c ds]; [done |]. rewrite string_app_cons.
      cbn in Vds. apply andb_true_iff in Vds as [Hc _].
      by apply isdigit_not_space.
Qed.

(** X18. The format of a step line.  A line of a guide, once the white
    space around it is removed, sets the entry of the ordinal [k] to the
    description [d] exactly when it reads: the word Step in any case,
    white space, the digits of [k], a colon, optional white space and
    [d], where [d] is not empty, has no white space around it and no
    line feed; a line of no such form leaves the steps as they are. *)
Theorem parse_line_format (steps_dict : gmap N string) (line : string) :
  (∀ k d, Text.step_line (Py.strip line) k d →
          GuideLoader.parse_line steps_dict line = <[k := d]> steps_dict)
  ∧ ((∀ k d, ¬ Text.step_line (Py.strip line) k d) →
     GuideLoader.parse_line steps_dict line = steps_dict).
Proof.
  assert (Hparse : GuideLoader.parse_line steps_dict line
                   = match Spec.recognize line with
                     | Some (k, d) => <[k := d]> steps_dict
                     | None => steps_dict
                     end).
  { unfold GuideLoader.parse_line, Spec.recognize.
    by destruct (GuideLoader.STEP_PATTERN_match _) as [[g1 g2]|]. }
  rewrite Hparse. split.
  - intros k d H. apply recognize_iff in H. by rewrite H.
  - intros H. destruct (Spec.recognize line) as [[k d]|] eqn:Hr; [| done].
    apply recognize_iff in Hr. by destruct (H k d).
Qed.

(** ** The command line *)

Lemma load_missing (f : gmap string node) (file_path : string) :
  f !! file_path = None →
  ∃ msg, GuideLoader.load f file_path = Raise (FileNotFoundError msg).
Proof.
  intros H. unfold GuideLoader.load, os.path_exists. rewrite H. by eexists.
Qed.

Lemma load_directory (f : gmap string node) (file_path : string) :
  f !! file_path = Some Dir →
  GuideLoader.load f file_path = Raise (IsADirectoryError file_path).
Proof.
  intros H. unfold GuideLoader.load, os.path_exists, os.read_file.
  by rewrite H.
Qed.

Lemma load_without_steps (f : gmap string node) (file_path content : string) :
  f !! file_path = Some (File content) →
  Spec.recognized content = [] →
  GuideLoader.load f file_path
  = Raise (ValueError (GuideLoader.no_steps_message file_path)).
Proof.
  intros H Hnone. rewrite (load_file _ _ _ H), Hnone. cbv zeta.
  by destruct (decide _).
Qed.

Lemma run_writes_output env spec guide_file resume_from
    (e e' : WorkflowEngine.t) (w w' : World) (out : string) :
  WorkflowEngine.run env spec guide_file resume_from (e, w)
  = (Ok out, (e', w')) →
  fs w' !! Config.output_file (WorkflowEngine.config e) = Some (File out).
Proof.
  rewrite run_unfold.
  destruct (if os.path_isfile _ _ then _ else _) as [sc|x]; [| done].
  destruct (GuideLoader.load (fs w) guide_file) as [steps|x]; [| done].
  assert (Hres : WorkflowEngine.config
                   (WorkflowEngine.resume_from_checkpoint resume_from (e, w)).2.1
                 = WorkflowEngine.config e).
  { unfold WorkflowEngine.resume_from_checkpoint.
    destruct resume_from as [path|]; [| done].
    destruct (_ && _); [| done].
    by destruct (Checkpoint.load (fs w) path). }
  destruct (WorkflowEngine.resume_from_checkpoint resume_from (e, w))
    as [[start|x] [e0 w0]]; [| done].
  cbn [fst snd] in Hres.
  pose proof (for_each_engine env guide_file sc steps
                (Py.range2 start (Z.of_nat (length steps))) (e0, w0)) as Hcfg.
  cbv zeta in Hcfg.
  destruct (Py.for_each _ _ _) as [[[]|x] [e1 w1]]; [| done].
  cbn [fst snd] in Hcfg. destruct Hcfg as (Hcfg & _).
  rewrite Hcfg, Hres. unfold os.write_file.
  destruct (fs w1 !! _) as [[c|]|]; intros ?; simplify_eq; cbn;
    by rewrite lookup_insert_eq.
Qed.

Lemma chain_writes_output env spec guide_files
    (self self' : GuideChain.t) (w w' : World) (final : string) :
  GuideChain.run env spec guide_files (self, w) = (Ok final, (self', w')) →
  fs w' !! Config.output_file (GuideChain.config self) = Some (File final).
Proof.
  unfold GuideChain.run. rewrite mbind_unfold.
  unfold GuideChain.run_traced.
  destruct (GuideChain.run_guides _ _ _ _ _ w) as [[[final' made]|x] w1];
    [| done].
  cbn [GuideChain.set_chain_output GuideChain.config].
  unfold os.write_file.
  destruct (fs w1 !! _) as [[c|]|]; unfold mret, M_ret; intros ?;
    simplify_eq; cbn; by rewrite lookup_insert_eq.
Qed.

Section main_facts.
Context (env : Env) (from_json : string → M World Config.t).

Lemma call_unfold {S A} (self : S) (m : M (S * World) A) (w : World) :
  Cli.call self m w = ((m (self, w)).1, (m (self, w)).2.2).
Proof. unfold Cli.call. by destruct (m (self, w)) as [r [s w']]. Qed.

Lemma then_code_unfold {A} (m : M World A) (code : Z) (w : World) :
  (m;; mret code) w
  = (match (m w).1 with Ok _ => Ok code | Raise e => Raise e end, (m w).2).
Proof. rewrite mbind_unfold. by destruct (m w) as [[a|e] w']. Qed.

Lemma attempt_codes (config : Config.t) (args : Namespace.t) (w : World)
    (code : Z) :
  (Cli.attempt env config args w).1 = Ok code → code = 0 ∨ code = 1.
Proof.
  assert (Hthen : ∀ A (m : M World A) w,
            ((m;; mret 0) w).1 = Ok code → code = 0 ∨ code = 1).
  { intros A m w0. rewrite then_code_unfold. cbn [fst].
    destruct (m w0).1; [intros [= <-]; by left | done]. }
  unfold Cli.attempt.
  destruct (Cli.chain_given _), (Namespace.dry_run args);
    try apply Hthen;
    (destruct (Py.truthy (Namespace.spec args)); cbn [negb];
     [apply Hthen | unfold mret, M_ret; intros [= <-]; by right]).
Qed.

Lemma main_unfold (args : Namespace.t) (w : World) :
  Cli.main env from_json args w
  = match Cli.load_config from_json args w with
    | (Raise e, w1) => (Raise e, w1)
    | (Ok config, w1) =>
        match Cli.attempt env (Cli.with_overrides config args) args w1 with
        | (Ok code, w') => (Ok code, w')
        | (Raise e, w') =>
            if Cli.reported e then (Ok 1, w') else (Raise e, w')
        end
    end.
Proof.
  unfold Cli.main. rewrite mbind_unfold.
  by destruct (Cli.load_config from_json args w) as [[config|e] w1].
Qed.

(** X19. The exit codes of [main].  An error of the configuration
    loader leaves [main] uncaught, in the world the loader left.
    Otherwise [main] returns 0 or 1, or raises an exception that is none
    of [FileNotFoundError], [ValueError], [ConnectionError] and
    [TimeoutError]; and without [--dry-run] and without a
    specification it returns 1 and neither reads a guide nor calls a
    model. *)
Theorem main_exit_codes (args : Namespace.t) (w : World) :
  let loaded := Cli.load_config from_json args w in
  let out := Cli.main env from_json args w in
  match loaded.1 with
  | Raise e => out = (Raise e, loaded.2)
  | Ok _ =>
      match out.1 with
      | Ok code => code = 0 ∨ code = 1
      | Raise e => Cli.reported e = false
      end
      ∧ (Namespace.dry_run args = false →
         Py.truthy (Namespace.spec args) = false →
         out = (Ok 1, loaded.2))
  end.
Proof.
  cbv zeta. rewrite main_unfold.
  destruct (Cli.load_config from_json args w) as [[config|e] w1]; [| done].
  cbn [fst snd]. split.
  - pose proof (attempt_codes (Cli.with_overrides config args) args w1) as Hc.
    destruct (Cli.attempt _ _ _ w1) as [[code|e] w']; cbn [fst] in *.
    + by apply Hc.
    + destruct (Cli.reported e) eqn:He; cbn; [by right | done].
  - intros Hdry Hspec. unfold Cli.attempt. rewrite Hdry, Hspec. cbn [negb].
    by destruct (Cli.chain_given _).
Qed.

Lemma load_failure (f : gmap string node) (file_path : string) (e : exn) :
  GuideLoader.load f file_path = Raise e →
  if os.path_isdir f file_path
  then e = IsADirectoryError file_path
  else Cli.reported e = true.
Proof.
  unfold os.path_isdir.
  destruct (f !! file_path) as [[content|]|] eqn:Hf.
  - rewrite (load_file _ _ _ Hf). cbv zeta.
    destruct (decide (foldl _ _ _ = ∅)); [| done]. by intros [= <-].
  - rewrite (load_directory _ _ Hf). by intros [= <-].
  - destruct (load_missing _ _ Hf) as [msg ->]. by intros [= <-].
Qed.

Lemma dry_run_attempt (config : Config.t) (args : Namespace.t) (w : World) :
  Namespace.dry_run args = true →
  Cli.attempt env config args w
  = (match GuideChain.validate (fs w)
             (Py.enumerate
                (if Cli.chain_given (Namespace.chain args)
                 then default [] (Namespace.chain args)
                 else [Namespace.guide args])) 0 with
     | Ok _ => Ok 0
     | Raise e => Raise e
     end, w).
Proof.
  intros Hdry. unfold Cli.attempt. rewrite Hdry.
  destruct (Cli.chain_given _).
  - rewrite then_code_unfold, call_unfold. unfold GuideChain.dry_run.
    by destruct (GuideChain.validate _ _ _).
  - rewrite then_code_unfold, call_unfold. unfold WorkflowEngine.dry_run.
    rewrite mbind_unfold. unfold WorkflowEngine.on_fs. cbn.
    by destruct (GuideLoader.load _ _).
Qed.

(** X20. The dry run from the command line.  With [--dry-run], [main]
    needs no specification and leaves the world as the configuration
    loader left it.  It returns 0 exactly when every guide of the chain,
    or the single guide, loads; at the first guide that does not load it
    returns 1, except that a directory in the place of the guide raises
    [IsADirectoryError]. *)
Theorem main_dry_run (args : Namespace.t) (w w1 : World) (config : Config.t) :
  Cli.load_config from_json args w = (Ok config, w1) →
  Namespace.dry_run args = true →
  let guides :=
    if Cli.chain_given (Namespace.chain args)
    then default [] (Namespace.chain args)
    else [Namespace.guide args] in
  let loads g := ∃ steps, GuideLoader.load (fs w1) g = Ok steps in
  let out := Cli.main env from_json args w in
  out.2 = w1
  ∧ (out.1 = Ok 0 ↔ Forall loads guides)
  ∧ (∀ before g after,
       guides = before ++ g :: after →
       Forall loads before →
       ¬ loads g →
       out.1 = if os.path_isdir (fs w1) g
               then Raise (IsADirectoryError g)
               else Ok 1).
Proof.
  intros Hload Hdry. cbv zeta. rewrite main_unfold, Hload.
  rewrite (dry_run_attempt _ _ _ Hdry).
  set (guides := if Cli.chain_given _ then _ else _).
  pose proof (validate_ok (fs w1) (Py.enumerate guides) 0) as Hok.
  unfold Py.enumerate in *. rewrite enumerate_from_snd in Hok.
  assert (Hfail : ∀ before g after, guides = before ++ g :: after →
            Forall (λ g, ∃ steps, GuideLoader.load (fs w1) g = Ok steps) before →
            (¬ ∃ steps, GuideLoader.load (fs w1) g = Ok steps) →
            ∃ e, GuideChain.validate (fs w1) (Py.enumerate_from 0 guides) 0
                 = Raise e
                 ∧ if os.path_isdir (fs w1) g
                   then e = IsADirectoryError g
                   else Cli.reported e = true).
  { intros before g after -> Hb Hg.
    destruct (GuideLoader.load (fs w1) g) as [steps|e] eqn:Hl;
      [destruct Hg; by eexists |].
    exists e. split; [| by apply load_failure].
    rewrite enumerate_from_app. cbn [Py.enumerate_from].
    apply validate_first_failure; [| done].
    by rewrite enumerate_from_snd. }
  split_and!.
  - destruct (GuideChain.validate _ _ _) as [t|e]; [done |].
    by destruct (Cli.reported e).
  - rewrite <- Hok. destruct (GuideChain.validate _ _ _) as [t|e]; cbn.
    + split; [by eexists | done].
    + destruct (Cli.reported e); cbn; (split; [done | by intros [? ?]]).
  - intros before g after Hg Hb Hng.
    destruct (Hfail _ _ _ Hg Hb Hng) as (e & -> & He).
    destruct (os.path_isdir _ _); [by subst e |]. by rewrite He.
Qed.

(** X21. The output file of a run from the command line.  With a
    specification and without [--dry-run], [main] runs the chain or the
    engine with the configuration whose output file and verbosity are
    those of the command line: it returns 0 when the run returns, 1 when
    the run raises a reported exception, and lets any other exception
    through; when the run returns, the file named by [--output] holds
    the text it returned, whatever output file the configuration file
    named. *)
Theorem main_writes_output (args : Namespace.t) (w w1 : World)
    (config : Config.t) (spec : string) :
  Cli.load_config from_json args w = (Ok config, w1) →
  Namespace.dry_run args = false →
  Namespace.spec args = Some spec →
  spec ≠ "" →
  let config' := Cli.with_overrides config args in
  let r :=
    if Cli.chain_given (Namespace.chain args)
    then Cli.call (GuideChain.new config' None (Namespace.checkpoint_dir args))
           (GuideChain.run env spec (default [] (Namespace.chain args))) w1
    else Cli.call (WorkflowEngine.new config' None (Namespace.checkpoint args))
           (WorkflowEngine.run env spec (Namespace.guide args)
              (Namespace.resume args)) w1 in
  let out := Cli.main env from_json args w in
  out.2 = r.2
  ∧ out.1 = match r.1 with
            | Ok _ => Ok 0
            | Raise e => if Cli.reported e then Ok 1 else Raise e
            end
  ∧ (∀ text, r.1 = Ok text →
       fs out.2 !! Namespace.output args = Some (File text)).
Proof.
  intros Hload Hdry Hspec Hne. cbv zeta. rewrite main_unfold, Hload.
  unfold Cli.attempt. rewrite Hdry, Hspec.
  assert (Htruthy : Py.truthy (Some spec) = true).
  { by destruct spec. }
  rewrite Htruthy. cbn [negb]. change (default "" (Some spec)) with spec.
  destruct (Cli.chain_given _).
  - rewrite then_code_unfold, !call_unfold. cbn [fst snd].
    destruct (GuideChain.run _ _ _ _) as [[text|e] [self' w']] eqn:Hrun;
      cbn [fst snd].
    + split_and!; [done .. |]. intros ? [= <-].
      by apply chain_writes_output in Hrun.
    + by destruct (Cli.reported e).
  - rewrite then_code_unfold, !call_unfold. cbn [fst snd].
    destruct (WorkflowEngine.run _ _ _ _ _) as [[text|e] [self' w']] eqn:Hrun;
      cbn [fst snd].
    + split_and!; [done .. |]. intros ? [= <-].
      by apply run_writes_output in Hrun.
    + by destruct (Cli.reported e).
Qed.

End main_facts.

Lemma main_dry_run_witness :
  Cli.main Examples.counting_env Invocations.no_config_file
    Invocations.dry_run_guide Examples.world
  = (Ok 0, Examples.world).
Proof.
  destruct (main_dry_run Examples.counting_env Invocations.no_config_file
              Invocations.dry_run_guide Examples.world Examples.world
              Examples.default_config eq_refl eq_refl)
    as (Hworld & Hcode & _).
  apply injective_projections; [| exact Hworld].
  apply Hcode. cbn [Invocations.dry_run_guide Namespace.chain Namespace.guide
                    Cli.chain_given].
  apply Forall_cons. split; [| by apply Forall_nil].
  eexists. vm_compute. reflexivity.
Defined.

Lemma main_writes_output_witness :
  let out :=
    Cli.main Examples.counting_env Invocations.no_config_file
      Invocations.run_guide Examples.world in
  ∃ text,
    out.1 = Ok 0
    ∧ fs out.2 !! "result.txt" = Some (File text)
    ∧ fs out.2 !! "final_output.txt" = None.
Proof.
  intros out.
  assert (Hne : "Build a REST API" ≠ "") by discriminate.
  destruct (main_writes_output Examples.counting_env Invocations.no_config_file
              Invocations.run_guide Examples.world Examples.world
              Examples.default_config "Build a REST API" eq_refl eq_refl
              eq_refl Hne)
    as (Hworld & Hcode & Hfile).
  cbn [Invocations.run_guide Namespace.chain Cli.chain_given] in *.
  set (r := Cli.call _ _ _) in *.
  set (text := match r.1 with Ok s => s | Raise _ => "" end).
  assert (Hr : r.1 = Ok text) by (vm_compute; reflexivity).
  exists text. split_and!.
  - fold out in Hcode. by rewrite Hcode, Hr.
  - by apply Hfile.
  - vm_compute. reflexivity.
Defined.
